(** * Polyjuice: the TAMARA PLC tool interface ([7_Tamara_Agent/plc_tool.py])

    A shallow embedding of the locked-down PLC interface: the whitelisted
    memory map [DB_CONFIG], the in-memory simulator [_SimClient], the typed
    read/write helpers of [PLCInterface], the batched [PLCTransaction] with
    its verify-then-rollback [commit], and the command-bit operations
    [pulse_cmd] and [clear_all_cmd_bits].

    Conventions of the embedding.
    - A Python [bytearray] is a [list Z] of values in [0, 256).
    - Python exceptions are values of [exn]; a call returns a [result]
      together with the state it leaves behind, so that a raise never undoes
      the writes performed before it.
    - Python floats are IEEE binary64 values, [spec_float] of the standard
      library with precision 53; their arithmetic is the correctly rounded
      one of [SpecFloat].
    - Python [str] values that travel to the PLC are lists of code points;
      tag names are plain strings.
    - Logging has no effect on the modelled state and is left out. *)

From stdpp Require Import base numbers list strings.
From Stdlib Require Import ZArith Lia SpecFloat QArith Qabs Qpower Ascii.

Set Warnings "-register-all".

Local Open Scope Z_scope.

(** ** Python values and exceptions *)

(** A Python [str] as its sequence of Unicode code points. *)
Definition pystr := list Z.

(** The typed values a transaction can queue. *)
Inductive value :=
| VReal (x : spec_float)
| VInt (z : Z)
| VBool (b : bool)
| VStr (s : pystr).

(** One line of the verification report built by [commit]:
    "Verification failed for <tag>: expected <value>, got <actual>". *)
Record verification_error := VerificationFailed {
  ve_tag : string;
  ve_expected : value;
  ve_actual : value
}.

(** The exceptions the module can raise, with the data their messages
    carry.  The [ValueError_*] constructors are the [ValueError]s raised by
    the module itself, one per message format. *)
Inductive exn :=
| PermissionError                      (* "... blocked by whitelist. Only DB9 is allowed." *)
| TypeError                            (* float used as a slice index *)
| IndexError                           (* subscript of a short read *)
| StructError                          (* struct.error: value out of range, wrong size *)
| OverflowError                        (* float too large to pack with f format *)
| UnicodeEncodeError
| UnicodeDecodeError
| ValueError_byte_range                (* byte must be in range(0, 256) *)
| ValueError_negative_shift
| ValueError_unpack                    (* tag.split('.') gave more than two parts *)
| ValueError_unknown_tag (tag : string)
| ValueError_not_a_string (tag : string)
| ValueError_string_too_long (s : pystr) (max_len : Z)
| ValueError_custom_solvent_required
| ValueError_failed_to_set (tag : string) (v : bool)
| ValueError_failed_to_clear (tag : string)
| ValueError_verification (errors : list verification_error)
| ValueError_rolled_back (e : exn)
    (* "Transaction failed and rolled back successfully: <e>" *)
| ValueError_rollback_errors (e : exn) (rollback_errors : list (string * option exn)).
    (* "Transaction failed: <e>\nRollback errors:\n..."; an entry is
       [(tag, None)] for "Failed to rollback <tag> to ..." and
       [(tag, Some e')] for "Error during rollback of <tag>: <e'>" *)

Inductive result (A : Type) :=
| Ok (a : A)
| Raise (e : exn).
Arguments Ok {A} a.
Arguments Raise {A} e.

(** Computations over a mutable object of type [S] that may raise. *)
Definition M (S A : Type) : Type := S -> result A * S.

#[global] Instance M_ret {S} : MRet (M S) := fun A a s => (Ok a, s).
#[global] Instance M_bind {S} : MBind (M S) := fun A B f m s =>
  match m s with
  | (Ok a, s') => f a s'
  | (Raise e, s') => (Raise e, s')
  end.

Definition raise {S A} (e : exn) : M S A := fun s => (Raise e, s).

(** [for x in xs: body x] *)
Fixpoint for_each {S A} (xs : list A) (body : A -> M S unit) : M S unit :=
  match xs with
  | [] => mret tt
  | x :: xs' => body x ≫= fun _ => for_each xs' body
  end.

(** ** Floats *)

Module PyFloat.
Definition prec : Z := 53.
Definition emax : Z := 1024.

Definition of_Z (z : Z) : spec_float := binary_normalize prec emax z 0 false.

(** The decimal literal [n]e-[k], rounded to the nearest double. *)
Definition dec (n : Z) (k : nat) : spec_float :=
  SFdiv prec emax (of_Z n) (of_Z (10 ^ Z.of_nat k)).

Definition zero : spec_float := S754_zero false.
Definition sub : spec_float -> spec_float -> spec_float := SFsub prec emax.
Definition add : spec_float -> spec_float -> spec_float := SFadd prec emax.
Definition mul : spec_float -> spec_float -> spec_float := SFmul prec emax.
Definition abs : spec_float -> spec_float := SFabs.
(** [x > y] *)
Definition gt (x y : spec_float) : bool := SFltb y x.
Definition is_zero (x : spec_float) : bool :=
  match x with S754_zero _ => true | _ => false end.

(** [x % 1]: [fmod(x, 1.0)], moved into [0, 1) when it is negative. *)
Definition mod1 (x : spec_float) : spec_float :=
  match x with
  | S754_zero _ => zero
  | S754_finite s m e =>
      let r := if 0 <=? e then 0 else Z.pos m mod 2 ^ (- e) in
      if r =? 0 then zero
      else if s then add (binary_normalize prec emax (- r) e false) (of_Z 1)
      else binary_normalize prec emax r e false
  | _ => S754_nan
  end.

(** [int(x)]: truncation toward zero; [None] where Python raises. *)
Definition to_int (x : spec_float) : option Z :=
  match x with
  | S754_zero _ => Some 0
  | S754_finite s m e =>
      let a := if 0 <=? e then Z.pos m * 2 ^ e else Z.pos m / 2 ^ (- e) in
      Some (if s then - a else a)
  | _ => None
  end.

(** The real number a finite float stands for. *)
Definition to_Q (x : spec_float) : Q :=
  match x with
  | S754_finite s m e => inject_Z (cond_Zopp s (Z.pos m)) * Qpower 2 e
  | _ => 0%Q
  end.

Definition is_finite (x : spec_float) : bool :=
  match x with
  | S754_zero _ | S754_finite _ _ _ => true
  | _ => false
  end.
End PyFloat.

(** A number found in [DB_CONFIG] as a start address: an [int] or a [float]. *)
Inductive pynum :=
| PInt (n : nat)
| PFloat (x : spec_float).

(** ** Codec: [struct] formats and UTF-8 *)

(** Big-endian bytes of an unsigned integer, most significant first. *)
Fixpoint be_bytes (n : nat) (z : Z) : list Z :=
  match n with
  | O => []
  | S n' => be_bytes n' (z / 256) ++ [z mod 256]
  end.

Definition be_value (bs : list Z) : Z :=
  foldl (fun acc b => acc * 256 + b) 0 bs.

(** [struct.pack('>h', v)] *)
Definition pack_h (v : Z) : result (list Z) :=
  if (-32768 <=? v) && (v <=? 32767) then Ok (be_bytes 2 (v mod 65536))
  else Raise StructError.

(** [struct.unpack('>h', data)[0]] *)
Definition unpack_h (data : list Z) : result Z :=
  if (length data =? 2)%nat then
    let u := be_value data in
    Ok (if u <? 32768 then u else u - 65536)
  else Raise StructError.

(** [m / 2^n] rounded to the nearest integer, ties to even ([n > 0]). *)
Definition round_half_even (m n : Z) : Z :=
  let q := m / 2 ^ n in
  let r := m mod 2 ^ n in
  match r ?= 2 ^ (n - 1) with
  | Lt => q
  | Gt => q + 1
  | Eq => if Z.even q then q else q + 1
  end.

(** The double [m * 2^e] as a binary32 value: [single_exp] is the exponent
    of the last bit binary32 keeps for it (24 bits of precision, no bit
    below [2^-149]) and [single_mant] the mantissa rounded there. *)
Definition single_exp (m : positive) (e : Z) : Z :=
  Z.max (Z.pos (digits2_pos m) + e - 24) (-149).

Definition single_mant (m : positive) (e : Z) : Z :=
  let t := single_exp m e in
  if t <=? e then Z.pos m * 2 ^ (e - t) else round_half_even (Z.pos m) (t - e).

(** The binary32 magnitude bits: the mantissa is added to the exponent
    field, so that a carry out of the mantissa bumps the exponent. *)
Definition single_magnitude (m : positive) (e : Z) : Z :=
  (single_exp m e + 149) * 2 ^ 23 + single_mant m e.

Definition sign_bit (s : bool) : Z := if s then 2 ^ 31 else 0.

(** [struct.pack('>f', x)] *)
Definition pack_f (x : spec_float) : result (list Z) :=
  match x with
  | S754_zero s => Ok (be_bytes 4 (sign_bit s))
  | S754_infinity s => Ok (be_bytes 4 (sign_bit s + 255 * 2 ^ 23))
  | S754_nan => Ok (be_bytes 4 (255 * 2 ^ 23 + 2 ^ 22))
  | S754_finite s m e =>
      let mag := single_magnitude m e in
      if mag <? 255 * 2 ^ 23 then Ok (be_bytes 4 (sign_bit s + mag))
      else Raise OverflowError
  end.

(** The double equal to [m * 2^t], mantissa aligned on 53 bits. *)
Definition double_of_single (s : bool) (m : positive) (t : Z) : spec_float :=
  let d := 53 - Z.pos (digits2_pos m) in
  S754_finite s (Pos.shiftl m (Z.to_N d)) (t - d).

(** [struct.unpack('>f', data)[0]] *)
Definition unpack_f (data : list Z) : result spec_float :=
  if (length data =? 4)%nat then
    let bits := be_value data in
    let s := 2 ^ 31 <=? bits in
    let b := (bits / 2 ^ 23) mod 256 in
    let f := bits mod 2 ^ 23 in
    Ok (if b =? 255 then (if f =? 0 then S754_infinity s else S754_nan)
        else if b =? 0 then
          match f with
          | Z.pos p => double_of_single s p (-149)
          | _ => S754_zero s
          end
        else
          match 2 ^ 23 + f with
          | Z.pos p => double_of_single s p (b - 150)
          | _ => S754_zero s
          end)
  else Raise StructError.

(** [s.encode('utf-8')] *)
Definition utf8_encode_char (c : Z) : option (list Z) :=
  if (c <? 0) || (1114111 <? c) then None
  else if c <? 128 then Some [c]
  else if c <? 2048 then Some [192 + c / 64; 128 + c mod 64]
  else if (55296 <=? c) && (c <=? 57343) then None
  else if c <? 65536 then Some [224 + c / 4096; 128 + (c / 64) mod 64; 128 + c mod 64]
  else Some [240 + c / 262144; 128 + (c / 4096) mod 64; 128 + (c / 64) mod 64; 128 + c mod 64].

Fixpoint utf8_encode (s : pystr) : option (list Z) :=
  match s with
  | [] => Some []
  | c :: s' =>
      match utf8_encode_char c, utf8_encode s' with
      | Some bs, Some rest => Some (bs ++ rest)
      | _, _ => None
      end
  end.

Definition is_cont (b : Z) : bool := (128 <=? b) && (b <? 192).

(** [data.decode('utf-8')], strict: overlong forms, surrogates, values above
    U+10FFFF and truncated sequences are errors. *)
Fixpoint utf8_decode_aux (fuel : nat) (bs : list Z) : option pystr :=
  match fuel with
  | O => match bs with [] => Some [] | _ => None end
  | S fuel' =>
      match bs with
      | [] => Some []
      | b0 :: r0 =>
          if (0 <=? b0) && (b0 <? 128) then cons b0 <$> utf8_decode_aux fuel' r0
          else if (194 <=? b0) && (b0 <? 224) then
            match r0 with
            | b1 :: r1 =>
                if is_cont b1 then
                  cons ((b0 - 192) * 64 + (b1 - 128)) <$> utf8_decode_aux fuel' r1
                else None
            | _ => None
            end
          else if (224 <=? b0) && (b0 <? 240) then
            match r0 with
            | b1 :: b2 :: r2 =>
                let c := (b0 - 224) * 4096 + (b1 - 128) * 64 + (b2 - 128) in
                if is_cont b1 && is_cont b2 && (2048 <=? c)
                   && negb ((55296 <=? c) && (c <=? 57343)) then
                  cons c <$> utf8_decode_aux fuel' r2
                else None
            | _ => None
            end
          else if (240 <=? b0) && (b0 <? 245) then
            match r0 with
            | b1 :: b2 :: b3 :: r3 =>
                let c := (b0 - 240) * 262144 + (b1 - 128) * 4096
                         + (b2 - 128) * 64 + (b3 - 128) in
                if is_cont b1 && is_cont b2 && is_cont b3
                   && (65536 <=? c) && (c <=? 1114111) then
                  cons c <$> utf8_decode_aux fuel' r3
                else None
            | _ => None
            end
          else None
      end
  end.

Definition utf8_decode (bs : list Z) : option pystr :=
  utf8_decode_aux (length bs) bs.


(** ** Types and whitelisted mapping *)

Inductive OperationMode := CONVENTIONAL | AGENTIC.
Inductive MachineMode := RUN | CLEAN | PRESSURE_TEST.
Inductive ChipID := BAFFLE | HERRINGBONE.
Inductive ManifoldID := SMALL | LARGE.
Inductive OrgSolventID := ETHANOL | IPA | ACETONE | METHANOL | CUSTOM.
Inductive ModeCmds := START | PAUSE_PLAY | CONFIRM | STOP.

#[global] Instance MachineMode_eq_dec : EqDecision MachineMode.
Proof. solve_decision. Defined.
#[global] Instance ModeCmds_eq_dec : EqDecision ModeCmds.
Proof. solve_decision. Defined.

(** [int(e)] for the members of the [IntEnum]s. *)
Definition int_OperationMode (m : OperationMode) : Z :=
  match m with CONVENTIONAL => 1 | AGENTIC => 2 end.
Definition int_MachineMode (m : MachineMode) : Z :=
  match m with RUN => 2 | CLEAN => 3 | PRESSURE_TEST => 4 end.
Definition int_ChipID (c : ChipID) : Z :=
  match c with BAFFLE => 0 | HERRINGBONE => 1 end.
Definition int_ManifoldID (m : ManifoldID) : Z :=
  match m with SMALL => 0 | LARGE => 1 end.
Definition int_OrgSolventID (s : OrgSolventID) : Z :=
  match s with ETHANOL => 0 | IPA => 1 | ACETONE => 2 | METHANOL => 3 | CUSTOM => 4 end.

Record CustomSolvent := {
  name : pystr;
  viscosity : spec_float;
  sensitivity : spec_float;
  molar_volume : spec_float
}.

Record InputPayload := {
  tfr : spec_float;
  frr : Z;
  target_volume : spec_float;
  temperature : spec_float;
  chip_id : ChipID;
  manifold_id : ManifoldID;
  lab_pressure : spec_float;
  org_solvent_id : OrgSolventID;
  operation_mode : OperationMode;
  machine_mode : MachineMode;
  custom_solvent : option CustomSolvent
}.

Inductive plc_type := REAL | INT | BOOL | STRING.

(** An entry of [DB_CONFIG]: [{'db_number': .., 'start': .., 'type': ..}]. *)
Record cfg := {
  cfg_db_number : Z;
  cfg_start : pynum;
  cfg_type : plc_type;
  cfg_length : option Z
}.

Definition entry (start : nat) (t : plc_type) : cfg :=
  {| cfg_db_number := 9; cfg_start := PInt start; cfg_type := t; cfg_length := None |}.

(** A [BOOL] entry whose start is the float literal [n]e-1, as [258.1]. *)
Definition bit_entry (tenths : Z) : cfg :=
  {| cfg_db_number := 9; cfg_start := PFloat (PyFloat.dec tenths 1);
     cfg_type := BOOL; cfg_length := None |}.

Definition DB_CONFIG : list (string * list (string * cfg)) :=
  [ ("OPERATION",
      [ ("OPERATION_MODE", entry 198 INT);
        ("MACHINE_MODE", entry 200 INT);
        ("CRUNCH_VALID", bit_entry 2020) ]);
    ("INPUTS",
      [ ("r_TFR", entry 204 REAL);
        ("i_FRR", entry 208 INT);
        ("r_TARGET_VOLUME", entry 210 REAL);
        ("r_TEMPERATURE", entry 214 REAL);
        ("i_CHIP_ID", entry 218 INT);
        ("i_MANIFOLD_ID", entry 220 INT);
        ("i_ORG_SOLVENT_ID", entry 222 INT);
        ("s_CUSTOM_ORG_SOLVENT",
          {| cfg_db_number := 9; cfg_start := PInt 224; cfg_type := STRING;
             cfg_length := Some 16 |});
        ("r_LAB_PRESSURE", entry 242 REAL) ]);
    ("CUSTOM_SOLVENT",
      [ ("r_VISCOSITY", entry 246 REAL);
        ("r_SENSITIVITY", entry 250 REAL);
        ("r_MOLAR_VOLUME", entry 254 REAL) ]);
    ("COMMANDS_RUN",
      [ ("b_START", bit_entry 2580);
        ("b_PAUSE_PLAY", bit_entry 2581);
        ("b_CONFIRM", bit_entry 2582);
        ("b_STOP", bit_entry 2583) ]);
    ("COMMANDS_CLEAN",
      [ ("b_START", bit_entry 2600);
        ("b_PAUSE_PLAY", bit_entry 2601);
        ("b_CONFIRM", bit_entry 2602);
        ("b_STOP", bit_entry 2603) ]);
    ("COMMANDS_PRESSURE_TEST",
      [ ("b_START", bit_entry 2620);
        ("b_PAUSE_PLAY", bit_entry 2621);
        ("b_CONFIRM", bit_entry 2622);
        ("b_STOP", bit_entry 2623) ]) ].

(** [d[k]] when [k in d]. *)
Fixpoint dict_get {A} (k : string) (d : list (string * A)) : option A :=
  match d with
  | [] => None
  | (k', v) :: d' => if String.eqb k k' then Some v else dict_get k d'
  end.

(** The lookup loop shared by the typed helpers:
    [for s in sections: if tag in DB_CONFIG[s]: section = s; break]
    followed by [cfg = DB_CONFIG[section][tag]]. *)
Fixpoint find_cfg (sections : list string) (tag : string) : option cfg :=
  match sections with
  | [] => None
  | s :: rest =>
      match dict_get s DB_CONFIG ≫= dict_get tag with
      | Some c => Some c
      | None => find_cfg rest tag
      end
  end.

(** [tag.split('.')] *)
Fixpoint split_dot (acc : string) (s : string) : list string :=
  match s with
  | EmptyString => [String.rev acc]
  | String c s' =>
      if Ascii.eqb c "."%char then String.rev acc :: split_dot EmptyString s'
      else split_dot (String c acc) s'
  end.

(** ** Safe simulator *)

(** The bytes literal written [b'\\x00'] in the source: with the backslash
    doubled it is the four bytes backslash, [x], [0], [0]. *)
Definition zero_literal : list Z := [92; 120; 48; 48].

(** [b * n] for a bytes object [b]. *)
Definition bytes_mul (b : list Z) (n : nat) : list Z := mjoin (replicate n b).

Module _SimClient.
Record t := {
  _connected : bool;
  _db : list Z;
  _debug : bool
}.

(** [__init__]: [bytearray(219)] *)
Definition init (debug : bool) : t :=
  {| _connected := false; _db := replicate 219 0; _debug := debug |}.

Definition set_db (c : t) (db : list Z) : t :=
  {| _connected := _connected c; _db := db; _debug := _debug c |}.

Definition connect (c : t) : t :=
  {| _connected := true; _db := _db c; _debug := _debug c |}.

Definition disconnect (c : t) : t :=
  {| _connected := false; _db := _db c; _debug := _debug c |}.

Definition get_connected (c : t) : bool := _connected c.

(** [if end > len(self._db): self._db.extend(b'\\x00' * (end - len(self._db)))] *)
Definition extend_to (end_ : nat) (db : list Z) : list Z :=
  if (length db <? end_)%nat
  then db ++ bytes_mul zero_literal (end_ - length db)
  else db.

Definition db_write (db_number : Z) (start : nat) (data : list Z) : M t unit :=
  fun c =>
    if negb (db_number =? 9) then (Raise PermissionError, c)
    else
      let end_ := (start + length data)%nat in
      let db := extend_to end_ (_db c) in
      (Ok tt, set_db c (take start db ++ data ++ drop end_ db)).

Definition db_read (db_number : Z) (start size : nat) : M t (list Z) :=
  fun c =>
    if negb (db_number =? 9) then (Raise PermissionError, c)
    else
      let end_ := (start + size)%nat in
      let db := extend_to end_ (_db c) in
      (Ok (take size (drop start db)), set_db c db).

Definition db_write_bit (db_number : Z) (byte_offset : nat) (bit_offset : Z)
    (value : Z) : M t unit :=
  fun c =>
    if negb (db_number =? 9) then (Raise PermissionError, c)
    else
      let db := extend_to (byte_offset + 1) (_db c) in
      let c' := set_db c db in
      let current_byte := default 0 (db !! byte_offset) in
      if bit_offset <? 0 then (Raise ValueError_negative_shift, c')
      else
        let new_byte :=
          if negb (value =? 0) then Z.lor current_byte (Z.shiftl 1 bit_offset)
          else Z.land current_byte (Z.lnot (Z.shiftl 1 bit_offset)) in
        if (0 <=? new_byte) && (new_byte <? 256)
        then (Ok tt, set_db c (<[byte_offset := new_byte]> db))
        else (Raise ValueError_byte_range, c').

Definition db_read_bit (db_number : Z) (byte_offset : nat) (bit_offset : Z)
    : M t bool :=
  fun c =>
    if negb (db_number =? 9) then (Raise PermissionError, c)
    else
      let db := extend_to (byte_offset + 1) (_db c) in
      let c' := set_db c db in
      let current_byte := default 0 (db !! byte_offset) in
      if bit_offset <? 0 then (Raise ValueError_negative_shift, c')
      else (Ok (negb (Z.land current_byte (Z.shiftl 1 bit_offset) =? 0)), c').
End _SimClient.


(** ** PLC interface *)

(** The driver client ([snap7.client.Client]) lives outside the repository:
    it is an arbitrary device with a state, of which the interface only uses
    [db_read] and [db_write]. *)
Record Device := {
  dev : Type;
  dev_db_read : Z -> nat -> nat -> M dev (list Z);
  dev_db_write : Z -> nat -> list Z -> M dev unit
}.

(** [self.client]: the simulator or the driver client;
    [isinstance(self.client, _SimClient)] is the match on the constructor. *)
Inductive client (D : Device) :=
| Sim (c : _SimClient.t)
| Snap7 (d : dev D).
Arguments Sim {D} c.
Arguments Snap7 {D} d.

Section PLCInterface.
Context {D : Device}.

(** Run a method of the simulator, or of the driver, on [self.client]. *)
Definition on_client {A} (sim : M _SimClient.t A) (drv : M (dev D) A)
    : M (client D) A :=
  fun c =>
    match c with
    | Sim s => let '(r, s') := sim s in (r, Sim s')
    | Snap7 d => let '(r, d') := drv d in (r, Snap7 d')
    end.

Definition db_write (db_number : Z) (start : nat) (data : list Z)
    : M (client D) unit :=
  on_client (_SimClient.db_write db_number start data)
            (dev_db_write D db_number start data).

Definition db_read (db_number : Z) (start size : nat) : M (client D) (list Z) :=
  on_client (_SimClient.db_read db_number start size)
            (dev_db_read D db_number start size).

Definition lift {A} (r : result A) : M (client D) A := fun c => (r, c).

(** [isinstance(self.client, _SimClient)] *)
Definition is_sim : M (client D) bool :=
  fun c => (Ok (match c with Sim _ => true | Snap7 _ => false end), c).

(** A method only the simulator has, called after the [isinstance] test. *)
Definition on_sim {A} (sim : M _SimClient.t A) : M (client D) A :=
  on_client sim (raise TypeError).

(** A start address used as a slice bound or passed to the driver: a float
    there is a [TypeError], raised before any byte moves. *)
Definition as_index (p : pynum) : result nat :=
  match p with
  | PInt n => Ok n
  | PFloat _ => Raise TypeError
  end.

Definition lookup_in (sections : list string) (tag : string) : result cfg :=
  match find_cfg sections tag with
  | Some c => Ok c
  | None => Raise (ValueError_unknown_tag tag)
  end.

Definition _write_real (tag : string) (value : spec_float) : M (client D) unit :=
  cfg ← lift $ lookup_in ["OPERATION"; "INPUTS"; "CUSTOM_SOLVENT"] tag;
  data ← lift (pack_f value);
  start ← lift $ as_index (cfg_start cfg);
  db_write (cfg_db_number cfg) start data.

Definition _read_real (tag : string) : M (client D) spec_float :=
  cfg ← lift $ lookup_in ["OPERATION"; "INPUTS"; "CUSTOM_SOLVENT"] tag;
  start ← lift $ as_index (cfg_start cfg);
  result ← db_read (cfg_db_number cfg) start 4;
  lift (unpack_f result).

Definition _write_int (tag : string) (value : Z) : M (client D) unit :=
  cfg ← lift $ lookup_in ["OPERATION"; "INPUTS"] tag;
  data ← lift (pack_h value);
  start ← lift $ as_index (cfg_start cfg);
  db_write (cfg_db_number cfg) start data.

(** The class defines [_read_int] twice; the later definition is the one in
    force, and differs only by copying the simulator's bytes. *)
Definition _read_int (tag : string) : M (client D) Z :=
  cfg ← lift $ lookup_in ["OPERATION"; "INPUTS"] tag;
  start ← lift $ as_index (cfg_start cfg);
  result ← db_read (cfg_db_number cfg) start 2;
  lift (unpack_h result).

(** The first lines of [_write_bool] and [_read_bool]: the entry of a tag
    given as [section.tag] or looked up directly. *)
Definition bool_cfg (tag : string) : result cfg :=
  match split_dot "" tag with
  | [_] =>
      lookup_in ["OPERATION"; "COMMANDS_RUN"; "COMMANDS_CLEAN";
                 "COMMANDS_PRESSURE_TEST"] tag
  | [section; subtag] =>
      match dict_get section DB_CONFIG ≫= dict_get subtag with
      | Some c => Ok c
      | None => Raise (ValueError_unknown_tag tag)
      end
  | _ => Raise ValueError_unpack
  end.

(** [int(cfg['start'])] *)
Definition byte_offset_of (p : pynum) : option nat :=
  match p with
  | PInt n => Some n
  | PFloat x => Z.to_nat <$> PyFloat.to_int x
  end.

(** [int((cfg['start'] % 1) * 10)] *)
Definition bit_offset_of (p : pynum) : option Z :=
  match p with
  | PInt n => Some 0
  | PFloat x => PyFloat.to_int (PyFloat.mul (PyFloat.mod1 x) (PyFloat.of_Z 10))
  end.

Definition bit_address (c : cfg) : result (nat * Z) :=
  match byte_offset_of (cfg_start c), bit_offset_of (cfg_start c) with
  | Some byte_offset, Some bit_offset => Ok (byte_offset, bit_offset)
  | _, _ => Raise OverflowError
  end.

(** [1 << bit_offset] *)
Definition shift_one (bit_offset : Z) : result Z :=
  if bit_offset <? 0 then Raise ValueError_negative_shift
  else Ok (Z.shiftl 1 bit_offset).

Definition _write_bool (tag : string) (value : bool) : M (client D) unit :=
  cfg ← lift $ bool_cfg tag;
  '(byte_offset, bit_offset) ← lift $ bit_address cfg;
  sim ← is_sim;
  if sim : bool then
    on_sim (_SimClient.db_write_bit (cfg_db_number cfg) byte_offset bit_offset
              (if value then 1 else 0))
  else
    result ← db_read (cfg_db_number cfg) byte_offset 1;
    let current_byte := default 0 (head result) in
    bit_mask ← lift $ shift_one bit_offset;
    let new_byte :=
      if value then Z.lor current_byte bit_mask
      else Z.land current_byte (Z.lnot bit_mask) in
    if (0 <=? new_byte) && (new_byte <? 256)
    then db_write (cfg_db_number cfg) byte_offset [new_byte]
    else raise ValueError_byte_range.

Definition _read_bool (tag : string) : M (client D) bool :=
  cfg ← lift $ bool_cfg tag;
  '(byte_offset, bit_offset) ← lift $ bit_address cfg;
  sim ← is_sim;
  if sim : bool then
    on_sim (_SimClient.db_read_bit (cfg_db_number cfg) byte_offset bit_offset)
  else
    result ← db_read (cfg_db_number cfg) byte_offset 1;
    match result with
    | [] => mret false
    | b :: _ =>
        bit_mask ← lift $ shift_one bit_offset;
        mret (negb (Z.land b bit_mask =? 0))
    end.

Definition _write_string (tag : string) (value : pystr) (max_len : Z)
    : M (client D) unit :=
  match dict_get "INPUTS" DB_CONFIG ≫= dict_get tag with
  | None => raise (ValueError_unknown_tag tag)
  | Some cfg =>
      match cfg_type cfg with
      | STRING =>
          let len := Z.of_nat (length value) in
          if max_len <? len then raise (ValueError_string_too_long value max_len)
          else if 255 <? max_len then raise ValueError_byte_range
          else
            match utf8_encode value with
            | None => raise UnicodeEncodeError
            | Some encoded =>
                let data := [max_len; len] ++ encoded
                            ++ replicate (Z.to_nat (max_len - len)) 0 in
                start ← lift $ as_index (cfg_start cfg);
                db_write (cfg_db_number cfg) start data
            end
      | _ => raise (ValueError_not_a_string tag)
      end
  end.

Definition _read_string (tag : string) : M (client D) pystr :=
  match dict_get "INPUTS" DB_CONFIG ≫= dict_get tag with
  | None => raise (ValueError_unknown_tag tag)
  | Some cfg =>
      match cfg_type cfg with
      | STRING =>
          start ← lift $ as_index (cfg_start cfg);
          header ← db_read (cfg_db_number cfg) start 2;
          match header with
          | max_len :: actual_len :: _ =>
              if 0 <? actual_len then
                data ← db_read (cfg_db_number cfg) (start + 2) (Z.to_nat actual_len);
                match utf8_decode data with
                | Some s => mret s
                | None => raise UnicodeDecodeError
                end
              else mret []
          | _ => raise IndexError
          end
      | _ => raise (ValueError_not_a_string tag)
      end
  end.

(** [read_crunch_valid]: the byte is read through [db_read] on either
    client. *)
Definition read_crunch_valid : M (client D) bool :=
  match dict_get "OPERATION" DB_CONFIG ≫= dict_get "CRUNCH_VALID" with
  | None => raise (ValueError_unknown_tag "CRUNCH_VALID")
  | Some cfg =>
      '(byte_offset, bit_offset) ← lift $ bit_address cfg;
      result ← db_read (cfg_db_number cfg) byte_offset 1;
      match result with
      | [] => mret false
      | b :: _ =>
          bit_mask ← lift $ shift_one bit_offset;
          mret (negb (Z.land b bit_mask =? 0))
      end
  end.
End PLCInterface.


(** ** Transactions *)

(** A queued write: the dict [{'type': .., 'tag': .., 'value': ..}], with
    ['max_len'] for strings. *)
Inductive write :=
| W_REAL (tag : string) (value : spec_float)
| W_INT (tag : string) (value : Z)
| W_BOOL (tag : string) (value : bool)
| W_STRING (tag : string) (value : pystr) (max_len : Z).

Definition write_tag (w : write) : string :=
  match w with
  | W_REAL tag _ | W_INT tag _ | W_BOOL tag _ | W_STRING tag _ _ => tag
  end.

Definition write_value (w : write) : value :=
  match w with
  | W_REAL _ v => VReal v
  | W_INT _ v => VInt v
  | W_BOOL _ v => VBool v
  | W_STRING _ v _ => VStr v
  end.

(** The literal [1e-6]. *)
Definition tolerance : spec_float := PyFloat.dec 1 6.

Section PLCTransaction.
Context {D : Device}.

(** The transaction object; [plc] is the interface it was opened on, and
    with it the state of the link. *)
Record PLCTransaction := {
  plc : client D;
  writes : list write;
  committed : bool
}.

Definition new_transaction (c : client D) : PLCTransaction :=
  {| plc := c; writes := []; committed := false |}.

Definition queue (w : write) : M PLCTransaction unit :=
  fun tx => (Ok tt, {| plc := plc tx; writes := writes tx ++ [w];
                      committed := committed tx |}).

Definition write_real (tag : string) (value : spec_float) : M PLCTransaction unit :=
  queue (W_REAL tag value).

Definition write_int (tag : string) (value : Z) : M PLCTransaction unit :=
  queue (W_INT tag value).

Definition write_bool (tag : string) (value : bool) : M PLCTransaction unit :=
  queue (W_BOOL tag value).

Definition write_string (tag : string) (value : pystr) (max_len : Z)
    : M PLCTransaction unit :=
  if max_len <? Z.of_nat (length value)
  then raise (ValueError_string_too_long value max_len)
  else queue (W_STRING tag value max_len).

(** "Execute all writes": one iteration of the first loop of [commit]. *)
Definition execute_write (w : write) : M (client D) unit :=
  match w with
  | W_REAL tag value => _write_real tag value
  | W_INT tag value => _write_int tag value
  | W_BOOL tag value => _write_bool tag value
  | W_STRING tag value max_len => _write_string tag value max_len
  end.

(** "Verify all writes": one iteration of the second loop; the result is
    what the iteration appends to [errors]. *)
Definition verify_write (w : write) : M (client D) (list verification_error) :=
  match w with
  | W_REAL tag value =>
      actual ← _read_real tag;
      mret (if PyFloat.gt (PyFloat.abs (PyFloat.sub actual value)) tolerance
            then [VerificationFailed tag (VReal value) (VReal actual)] else [])
  | W_INT tag value =>
      actual ← _read_int tag;
      mret (if bool_decide (actual ≠ value)
            then [VerificationFailed tag (VInt value) (VInt actual)] else [])
  | W_BOOL tag value =>
      actual ← _read_bool tag;
      mret (if bool_decide (actual ≠ value)
            then [VerificationFailed tag (VBool value) (VBool actual)] else [])
  | W_STRING tag value _ =>
      actual ← _read_string tag;
      mret (if bool_decide (actual ≠ value)
            then [VerificationFailed tag (VStr value) (VStr actual)] else [])
  end.

Fixpoint verify_writes (ws : list write) : M (client D) (list verification_error) :=
  match ws with
  | [] => mret []
  | w :: ws' =>
      errors ← verify_write w;
      rest ← verify_writes ws';
      mret (errors ++ rest)
  end.

(** The body of the [try] block of [commit]. *)
Definition write_and_verify (ws : list write) : M (client D) unit :=
  for_each ws execute_write;;
  errors ← verify_writes ws;
  match errors with
  | [] => mret tt
  | _ => raise (ValueError_verification errors)
  end.

(** The neutral write of the rollback loop and its re-verification; the
    result is [true] when the read-back is not the neutral value. *)
Definition neutralise (w : write) : M (client D) bool :=
  match w with
  | W_REAL tag _ =>
      _write_real tag PyFloat.zero;;
      actual ← _read_real tag;
      mret (PyFloat.gt (PyFloat.abs actual) tolerance)
  | W_INT tag _ =>
      _write_int tag 0;;
      actual ← _read_int tag;
      mret (bool_decide (actual ≠ 0))
  | W_BOOL tag _ =>
      _write_bool tag false;;
      _read_bool tag
  | W_STRING tag _ max_len =>
      _write_string tag [] max_len;;
      actual ← _read_string tag;
      mret (bool_decide (actual ≠ []))
  end.

(** One iteration of the rollback loop, with its own [try]: it never
    raises, and returns what it appends to [rollback_errors]. *)
Definition rollback_write (w : write) (c : client D)
    : list (string * option exn) * client D :=
  match neutralise w c with
  | (Ok false, c') => ([], c')
  | (Ok true, c') => ([(write_tag w, None)], c')
  | (Raise e, c') => ([(write_tag w, Some e)], c')
  end.

Fixpoint rollback (ws : list write) (c : client D)
    : list (string * option exn) * client D :=
  match ws with
  | [] => ([], c)
  | w :: ws' =>
      let '(errors, c1) := rollback_write w c in
      let '(rest, c2) := rollback ws' c1 in
      (errors ++ rest, c2)
  end.

Definition commit : M PLCTransaction unit :=
  fun tx =>
    if committed tx then (Ok tt, tx)
    else
      match write_and_verify (writes tx) (plc tx) with
      | (Ok _, c) =>
          (Ok tt, {| plc := c; writes := writes tx; committed := true |})
      | (Raise e, c) =>
          let '(rollback_errors, c') := rollback (writes tx) c in
          let tx' := {| plc := c'; writes := writes tx; committed := false |} in
          match rollback_errors with
          | [] => (Raise (ValueError_rolled_back e), tx')
          | _ => (Raise (ValueError_rollback_errors e rollback_errors), tx')
          end
      end.

(** [with self.transaction() as tx: body]: the body runs on a new
    transaction; [commit] is called when the body ends without raising. *)
Definition transaction (body : M PLCTransaction unit) : M (client D) unit :=
  fun c =>
    let '(r, tx) := (body;; commit) (new_transaction c) in (r, plc tx).

(** A call on the interface made inside the [with] block. *)
Definition on_plc {A} (m : M (client D) A) : M PLCTransaction A :=
  fun tx =>
    let '(r, c) := m (plc tx) in
    (r, {| plc := c; writes := writes tx; committed := committed tx |}).

(** ** Sanitized operations *)

(** The writes shared by [write_parameters_to_plc] and
    [write_payload_to_plc], from "Core parameters" on. *)
Definition queue_parameters (payload : InputPayload) : M PLCTransaction unit :=
  write_real "r_TFR" (tfr payload);;
  write_int "i_FRR" (frr payload);;
  write_real "r_TARGET_VOLUME" (target_volume payload);;
  write_real "r_TEMPERATURE" (temperature payload);;
  write_int "i_CHIP_ID" (int_ChipID (chip_id payload));;
  write_int "i_MANIFOLD_ID" (int_ManifoldID (manifold_id payload));;
  write_real "r_LAB_PRESSURE" (lab_pressure payload);;
  write_int "i_ORG_SOLVENT_ID" (int_OrgSolventID (org_solvent_id payload));;
  match org_solvent_id payload with
  | CUSTOM =>
      match custom_solvent payload with
      | None => raise ValueError_custom_solvent_required
      | Some solvent =>
          write_string "s_CUSTOM_ORG_SOLVENT" (name solvent) 16;;
          write_real "r_VISCOSITY" (viscosity solvent);;
          write_real "r_SENSITIVITY" (sensitivity solvent);;
          write_real "r_MOLAR_VOLUME" (molar_volume solvent)
      end
  | _ =>
      write_string "s_CUSTOM_ORG_SOLVENT" [] 16;;
      write_real "r_VISCOSITY" PyFloat.zero;;
      write_real "r_SENSITIVITY" PyFloat.zero;;
      write_real "r_MOLAR_VOLUME" PyFloat.zero
  end.

Definition write_parameters_to_plc (payload : InputPayload) : M (client D) unit :=
  transaction (
    write_int "OPERATION_MODE" (int_OperationMode (operation_mode payload));;
    queue_parameters payload).

Definition write_payload_to_plc (payload : InputPayload) : M (client D) unit :=
  transaction (
    write_int "OPERATION_MODE" (int_OperationMode (operation_mode payload));;
    write_int "MACHINE_MODE" (int_MachineMode (machine_mode payload));;
    queue_parameters payload).

Definition mode_keys : list string :=
  ["COMMANDS_RUN"; "COMMANDS_CLEAN"; "COMMANDS_PRESSURE_TEST"].

Definition cmd_keys : list string :=
  ["b_START"; "b_PAUSE_PLAY"; "b_CONFIRM"; "b_STOP"].

(** [f"{mode_key}.{cmd_key}"] *)
Definition cmd_tag (mode_key cmd_key : string) : string :=
  mode_key +:+ "." +:+ cmd_key.

Definition clear_all_cmd_bits : M (client D) unit :=
  for_each mode_keys (fun mode_key =>
    for_each cmd_keys (fun cmd_key =>
      let tag := cmd_tag mode_key cmd_key in
      _write_bool tag false;;
      actual ← _read_bool tag;
      if actual : bool then raise (ValueError_failed_to_clear tag) else mret tt)).

Definition mode_map (mode : MachineMode) : string :=
  match mode with
  | RUN => "COMMANDS_RUN"
  | CLEAN => "COMMANDS_CLEAN"
  | PRESSURE_TEST => "COMMANDS_PRESSURE_TEST"
  end.

Definition cmd_map (cmd : ModeCmds) : string :=
  match cmd with
  | START => "b_START"
  | PAUSE_PLAY => "b_PAUSE_PLAY"
  | CONFIRM => "b_CONFIRM"
  | STOP => "b_STOP"
  end.

Definition is_START (cmd : ModeCmds) : bool :=
  match cmd with START => true | _ => false end.

Definition is_STOP (cmd : ModeCmds) : bool :=
  match cmd with STOP => true | _ => false end.

Definition pulse_cmd (mode : MachineMode) (cmd : ModeCmds) (value : bool)
    : M (client D) unit :=
  let mode_key := mode_map mode in
  let cmd_key := cmd_map cmd in
  let target_tag := cmd_tag mode_key cmd_key in
  (if is_START cmd && value then
     for_each (mode_map <$> [RUN; CLEAN; PRESSURE_TEST]) (fun other_mode =>
       if bool_decide (other_mode ≠ mode_key)
       then _write_bool (cmd_tag other_mode "b_START") false
       else mret tt)
   else if is_STOP cmd && value then
     for_each ["b_START"; "b_PAUSE_PLAY"; "b_CONFIRM"] (fun other_cmd =>
       _write_bool (cmd_tag mode_key other_cmd) false)
   else mret tt);;
  _write_bool target_tag value;;
  actual ← _read_bool target_tag;
  if bool_decide (actual ≠ value)
  then raise (ValueError_failed_to_set target_tag value)
  else mret tt.

Definition read_status : M (client D) Z := _read_int "MACHINE_MODE".

Definition set_machine_mode (mode : Z) : M (client D) unit :=
  transaction (write_int "MACHINE_MODE" mode).

Definition start_operation (payload : InputPayload) : M (client D) unit :=
  transaction (
    write_int "MACHINE_MODE" (int_MachineMode (machine_mode payload));;
    on_plc clear_all_cmd_bits;;
    on_plc (_write_bool (cmd_tag (mode_map (machine_mode payload)) "b_START") true)).
End PLCTransaction.

Arguments PLCTransaction : clear implicits.


(** ** A driver-side double

    A PLC whose controller program keeps driving some bytes: a driver write
    to a held byte is acknowledged and has no effect: a link on which a
    write can fail its read-back. *)
Module HeldPLC.
Record t := {
  mem : nat -> Z;
  held : nat -> bool
}.

Definition db_read (db_number : Z) (start size : nat) : M t (list Z) :=
  fun d => (Ok (mem d <$> seq start size), d).

Definition store (d : t) (start : nat) (data : list Z) (i : nat) : Z :=
  if held d i then mem d i
  else if (start <=? i)%nat then default (mem d i) (data !! (i - start)%nat)
  else mem d i.

Definition db_write (db_number : Z) (start : nat) (data : list Z) : M t unit :=
  fun d => (Ok tt, {| mem := store d start data; held := held d |}).

Definition device : Device :=
  {| dev := t; dev_db_read := db_read; dev_db_write := db_write |}.

(** All bytes zero except [byte], which holds [v] against writes. *)
Definition holding (byte : nat) (v : Z) : t :=
  {| mem := fun i => if (i =? byte)%nat then v else 0;
     held := fun i => (i =? byte)%nat |}.
End HeldPLC.

(** A driver-side double whose bytes at the addresses of [stuck] never
    change: a read returns the bytes in place, a write stores its bytes
    everywhere else.  With a stuck byte under a tag it is the link on which
    a write is "engineered to fail verification" of the specification. *)
Module StuckPLC.
Definition t := nat -> Z.

Definition db_read (db_number : Z) (start size : nat) : M t (list Z) :=
  fun m => (Ok (m <$> seq start size), m).

Definition db_write (stuck : nat -> bool) (db_number : Z) (start : nat) (data : list Z)
    : M t unit :=
  fun m => (Ok tt, fun i => if stuck i then m i
                            else if (start <=? i)%nat
                                 then default (m i) (data !! (i - start)%nat)
                                 else m i).

Definition device (stuck : nat -> bool) : Device :=
  {| dev := t; dev_db_read := db_read; dev_db_write := db_write stuck |}.
End StuckPLC.

(** A device for the developments that only use the simulator. *)
Definition no_device : Device :=
  {| dev := unit;
     dev_db_read := fun _ _ _ => raise PermissionError;
     dev_db_write := fun _ _ _ => raise PermissionError |}.

(** [PLCInterface(simulate=True)]: a new simulator, connected. *)
Definition new_sim {D} : client D :=
  Sim (_SimClient.connect (_SimClient.init false)).

(** * Specification vocabulary *)

(** What a read of byte [i] of the simulator returns: the stored byte, or
    the byte the extension puts there. *)
Definition peek (db : list Z) (i : nat) : Z :=
  match db !! i with
  | Some b => b
  | None => default 0 (zero_literal !! ((i - length db) mod 4)%nat)
  end.

Definition sim_mem (s : _SimClient.t) : nat -> Z := peek (_SimClient._db s).

(** Memory [m] with [data] stored from [start]. *)
Definition upd (m : nat -> Z) (start : nat) (data : list Z) (i : nat) : Z :=
  if (start <=? i)%nat then default (m i) (data !! (i - start)%nat) else m i.

(** [m[start : start + size]] *)
Definition span (m : nat -> Z) (start size : nat) : list Z :=
  m <$> seq start size.

(** The declared kind of a tag: the ['type'] of its entry, for the tags a
    typed helper of that kind accepts. *)
Definition declared (t : plc_type) (tag : string) : Prop :=
  match t with
  | REAL => cfg_type <$> find_cfg ["OPERATION"; "INPUTS"; "CUSTOM_SOLVENT"] tag = Some REAL
  | INT => cfg_type <$> find_cfg ["OPERATION"; "INPUTS"] tag = Some INT
  | BOOL =>
      match bool_cfg tag with
      | Ok c => cfg_type c = BOOL
      | Raise _ => False
      end
  | STRING => cfg_type <$> (dict_get "INPUTS" DB_CONFIG ≫= dict_get tag) = Some STRING
  end.

(** A queued write whose kind is the declared kind of its tag; a string is
    queued with the declared length of its tag. *)
Definition well_typed (w : write) : Prop :=
  match w with
  | W_REAL tag _ => declared REAL tag
  | W_INT tag _ => declared INT tag
  | W_BOOL tag _ => declared BOOL tag
  | W_STRING tag _ max_len =>
      declared STRING tag
      /\ cfg_length <$> (dict_get "INPUTS" DB_CONFIG ≫= dict_get tag) = Some (Some max_len)
  end.

(** The tag of a queued write reads back as the neutral value of its kind
    ([0.0] up to the tolerance of the verification, [0], [False], [""]). *)
Definition reads_neutral {D} (w : write) (c : client D) : Prop :=
  match w with
  | W_REAL tag _ =>
      exists v, fst (_read_real tag c) = Ok v
                /\ PyFloat.gt (PyFloat.abs v) tolerance = false
  | W_INT tag _ => fst (_read_int tag c) = Ok 0
  | W_BOOL tag _ => fst (_read_bool tag c) = Ok false
  | W_STRING tag _ _ => fst (_read_string tag c) = Ok []
  end.

(** A device that behaves as a memory whose writes can be lost: a read
    returns the bytes in place and changes none; after a write each byte
    holds what it held or what was written to it. *)
Record memory_like (D : Device) (dpeek : dev D -> nat -> Z) : Prop := {
  ml_read : forall db_number start size d,
    fst (dev_db_read D db_number start size d) = Ok (span (dpeek d) start size)
    /\ forall i, dpeek (snd (dev_db_read D db_number start size d)) i = dpeek d i;
  ml_write : forall db_number start data d,
    fst (dev_db_write D db_number start data d) = Ok tt
    /\ forall i, dpeek (snd (dev_db_write D db_number start data d)) i = dpeek d i
                 \/ dpeek (snd (dev_db_write D db_number start data d)) i
                    = upd (dpeek d) start data i
}.

(** The command operations of the interface. *)
Inductive command :=
| PulseCmd (mode : MachineMode) (cmd : ModeCmds) (value : bool)
| ClearAll.

Definition run_command {D} (op : command) : M (client D) unit :=
  match op with
  | PulseCmd mode cmd value => pulse_cmd mode cmd value
  | ClearAll => clear_all_cmd_bits
  end.

(** [mode]'s Start bit, as [_read_bool] returns it. *)
Definition start_bit {D} (mode : MachineMode) (c : client D) : result bool :=
  fst (_read_bool (cmd_tag (mode_map mode) "b_START") c).

Definition cmd_bit {D} (mode : MachineMode) (cmd : ModeCmds) (c : client D)
    : result bool :=
  fst (_read_bool (cmd_tag (mode_map mode) (cmd_map cmd)) c).

(** At most one mode has Start set. *)
Definition start_exclusive {D} (c : client D) : Prop :=
  forall m1 m2, start_bit m1 c = Ok true -> start_bit m2 c = Ok true -> m1 = m2.


(** The simulator's region holds bytes. *)
Definition sim_ok (s : _SimClient.t) : Prop :=
  Forall (fun b => 0 <= b < 256) (_SimClient._db s).

(** [bool(x & (1 << bit))] *)
Definition get_bit (x bit : Z) : bool := negb (Z.land x (Z.shiftl 1 bit) =? 0).

(** [x | (1 << bit)] or [x & ~(1 << bit)] *)
Definition put_bit (x bit : Z) (v : bool) : Z :=
  if v then Z.lor x (Z.shiftl 1 bit) else Z.land x (Z.lnot (Z.shiftl 1 bit)).

(** Memory [m] with bit [bit] of byte [byte] set to [v]. *)
Definition set_bit (m : nat -> Z) (byte : nat) (bit : Z) (v : bool) : nat -> Z :=
  upd m byte [put_bit (m byte) bit v].

(** Where the command bits are found once the float addresses of
    [DB_CONFIG] have gone through [int(start)] and [int((start % 1) * 10)]:
    [x.2] gives bit 1, so Confirm shares its bit with PausePlay. *)
Definition mode_byte (mode : MachineMode) : nat :=
  match mode with RUN => 258 | CLEAN => 260 | PRESSURE_TEST => 262 end.

Definition cmd_bit_offset (cmd : ModeCmds) : Z :=
  match cmd with START => 0 | PAUSE_PLAY => 1 | CONFIRM => 1 | STOP => 3 end.

Definition other_modes (mode : MachineMode) : list MachineMode :=
  filter (fun m => m <> mode) [RUN; CLEAN; PRESSURE_TEST].

(** The data base, byte and bit a [BOOL] tag resolves to. *)
Definition bool_target (tag : string) : result (Z * nat * Z) :=
  match bool_cfg tag with
  | Ok c =>
      match bit_address c with
      | Ok (byte_offset, bit_offset) => Ok (cfg_db_number c, byte_offset, bit_offset)
      | Raise e => Raise e
      end
  | Raise e => Raise e
  end.

(** The effect of [pulse_cmd] on a memory that stores what is written. *)
Definition pulse_mem (mode : MachineMode) (cmd : ModeCmds) (v : bool)
    (m : nat -> Z) : nat -> Z :=
  let m1 :=
    if is_START cmd && v then
      foldl (fun m o => set_bit m (mode_byte o) 0 false) m (other_modes mode)
    else if is_STOP cmd && v then
      foldl (fun m k => set_bit m (mode_byte mode) k false) m [0; 1; 1]
    else m in
  set_bit m1 (mode_byte mode) (cmd_bit_offset cmd) v.

(** The effect of [clear_all_cmd_bits] on a memory that stores what is
    written. *)
Definition clear_all_mem (m : nat -> Z) : nat -> Z :=
  foldl (fun m mode =>
           foldl (fun m cmd => set_bit m (mode_byte mode) (cmd_bit_offset cmd) false)
                 m [START; PAUSE_PLAY; CONFIRM; STOP])
        m [RUN; CLEAN; PRESSURE_TEST].

(** The memory behind a client: the simulator's region as reads see it,
    or the device's memory as [dpeek] shows it. *)
Definition cmem {D} (dpeek : dev D -> nat -> Z) (c : client D) : nat -> Z :=
  match c with
  | Sim s => sim_mem s
  | Snap7 d => dpeek d
  end.

(** [self.client] stays the object it is. *)
Definition same_kind {D} (c c' : client D) : Prop :=
  match c, c' with
  | Sim _, Sim _ => True
  | Snap7 _, Snap7 _ => True
  | _, _ => False
  end.

(** The simulator, or a driver whose device is memory-like. *)
Definition good_client {D} (dpeek : dev D -> nat -> Z) (c : client D) : Prop :=
  match c with
  | Sim _ => True
  | Snap7 _ => memory_like D dpeek
  end.

(** The typed reads as functions of the memory. *)
Definition rd_int (m : nat -> Z) (start : nat) : result Z := unpack_h (span m start 2).

Definition rd_real (m : nat -> Z) (start : nat) : result spec_float :=
  unpack_f (span m start 4).

Definition rd_string (m : nat -> Z) (start : nat) : result pystr :=
  let actual_len := m (start + 1)%nat in
  if 0 <? actual_len then
    match utf8_decode (span m (start + 2) (Z.to_nat actual_len)) with
    | Some s => Ok s
    | None => Raise UnicodeDecodeError
    end
  else Ok [].

(** Every entry of [DB_CONFIG]. *)
Definition all_entries : list cfg := DB_CONFIG ≫= fun section => snd <$> snd section.

(** What holds of every [BOOL] entry: data block 9, a bit offset of a byte,
    and a byte among CRUNCH_VALID's and the three command bytes. *)
Definition bool_entry_ok (c : cfg) : bool :=
  match cfg_type c with
  | BOOL =>
      match bit_address c with
      | Ok (byte_offset, bit_offset) =>
          (cfg_db_number c =? 9) && (0 <=? bit_offset) && (bit_offset <? 8)
          && bool_decide (byte_offset ∈ [202; 258; 260; 262]%nat)
      | Raise _ => false
      end
  | _ => true
  end.

(** The writes [write_parameters_to_plc] queues before the solvent fields. *)
Definition core_writes (payload : InputPayload) : list write :=
  [ W_INT "OPERATION_MODE" (int_OperationMode (operation_mode payload));
    W_REAL "r_TFR" (tfr payload);
    W_INT "i_FRR" (frr payload);
    W_REAL "r_TARGET_VOLUME" (target_volume payload);
    W_REAL "r_TEMPERATURE" (temperature payload);
    W_INT "i_CHIP_ID" (int_ChipID (chip_id payload));
    W_INT "i_MANIFOLD_ID" (int_ManifoldID (manifold_id payload));
    W_REAL "r_LAB_PRESSURE" (lab_pressure payload);
    W_INT "i_ORG_SOLVENT_ID" (int_OrgSolventID (org_solvent_id payload)) ].

(** The solvent fields, custom or cleared. *)
Definition solvent_writes (name : pystr) (v1 v2 v3 : spec_float) : list write :=
  [ W_STRING "s_CUSTOM_ORG_SOLVENT" name 16;
    W_REAL "r_VISCOSITY" v1;
    W_REAL "r_SENSITIVITY" v2;
    W_REAL "r_MOLAR_VOLUME" v3 ].

(** The start of a tag found in [sections], when it is an [int]. *)
Definition start_in (sections : list string) (tag : string) : nat :=
  match find_cfg sections tag with
  | Some {| cfg_start := PInt n |} => n
  | _ => 0%nat
  end.

(** The bytes a queued [REAL], [INT] or [STRING] write stores: first byte
    and length. *)
Definition footprint (w : write) : nat * nat :=
  match w with
  | W_REAL tag _ => (start_in ["OPERATION"; "INPUTS"; "CUSTOM_SOLVENT"] tag, 4%nat)
  | W_INT tag _ => (start_in ["OPERATION"; "INPUTS"] tag, 2%nat)
  | W_STRING tag value max_len =>
      (224%nat,
       match utf8_encode value with
       | Some encoded =>
           (2 + length encoded + Z.to_nat (max_len - Z.of_nat (length value)))%nat
       | None => 0%nat
       end)
  | W_BOOL _ _ => (0%nat, 0%nat)
  end.

Definition outside (fp : nat * nat) (i : nat) : Prop :=
  (i < fst fp)%nat \/ (fst fp + snd fp <= i)%nat.

(** A write of the kind [write_parameters_to_plc] queues. *)
Definition param_write (w : write) : Prop :=
  match w with
  | W_REAL tag _ => declared REAL tag
  | W_INT tag _ => declared INT tag
  | W_STRING tag _ _ => tag = "s_CUSTOM_ORG_SOLVENT"
  | W_BOOL _ _ => False
  end.

(** The tag stored from byte [start]. *)
Definition tag_at (start : nat) : string :=
  match start with
  | 198 => "OPERATION_MODE"
  | 200 => "MACHINE_MODE"
  | 204 => "r_TFR"
  | 208 => "i_FRR"
  | 210 => "r_TARGET_VOLUME"
  | 214 => "r_TEMPERATURE"
  | 218 => "i_CHIP_ID"
  | 220 => "i_MANIFOLD_ID"
  | 222 => "i_ORG_SOLVENT_ID"
  | 224 => "s_CUSTOM_ORG_SOLVENT"
  | 242 => "r_LAB_PRESSURE"
  | 246 => "r_VISCOSITY"
  | 250 => "r_SENSITIVITY"
  | 254 => "r_MOLAR_VOLUME"
  | _ => ""
  end%nat.

(** The memory reads as the neutral value at the tag of a queued write. *)
Definition neutral_mem (w : write) (m : nat -> Z) : Prop :=
  match w with
  | W_REAL tag _ =>
      exists v, rd_real m (start_in ["OPERATION"; "INPUTS"; "CUSTOM_SOLVENT"] tag) = Ok v
                /\ PyFloat.gt (PyFloat.abs v) tolerance = false
  | W_INT tag _ => rd_int m (start_in ["OPERATION"; "INPUTS"] tag) = Ok 0
  | W_BOOL tag _ =>
      match bool_target tag with
      | Ok (_, byte_offset, bit_offset) => Z.testbit (m byte_offset) bit_offset = false
      | Raise _ => False
      end
  | W_STRING _ _ _ => rd_string m 224 = Ok []
  end.

(** The memory after the neutral write of the rollback, were it stored in
    full. *)
Definition neutral_image (w : write) (m : nat -> Z) : nat -> Z :=
  match w with
  | W_REAL tag _ =>
      upd m (start_in ["OPERATION"; "INPUTS"; "CUSTOM_SOLVENT"] tag) [0; 0; 0; 0]
  | W_INT tag _ => upd m (start_in ["OPERATION"; "INPUTS"] tag) [0; 0]
  | W_BOOL tag _ =>
      match bool_target tag with
      | Ok (_, byte_offset, bit_offset) => set_bit m byte_offset bit_offset false
      | Raise _ => m
      end
  | W_STRING _ _ max_len => upd m 224 ([max_len; 0] ++ replicate (Z.to_nat max_len) 0)
  end.

(** A write that can be lost byte by byte: each byte of [m'] is the byte of
    [m] or the byte of [target]. *)
Definition lossy (m target m' : nat -> Z) : Prop :=
  forall i, m' i = m i \/ m' i = target i.

(** What a rollback step can do to the memory: each byte is what it was, or
    what the neutral write puts there. *)
Definition cleared (w : write) (m m' : nat -> Z) : Prop :=
  lossy m (neutral_image w m) m'.

(** The bytes the neutral write of a queued write can change, and the bytes
    its re-verification reads: first byte and length. *)
Definition clear_span (w : write) : nat * nat :=
  match w with
  | W_REAL tag _ => (start_in ["OPERATION"; "INPUTS"; "CUSTOM_SOLVENT"] tag, 4%nat)
  | W_INT tag _ => (start_in ["OPERATION"; "INPUTS"] tag, 2%nat)
  | W_BOOL tag _ =>
      match bool_target tag with
      | Ok (_, byte_offset, _) => (byte_offset, 1%nat)
      | Raise _ => (0%nat, 0%nat)
      end
  | W_STRING _ _ _ => (224%nat, 18%nat)
  end.

(** Two memories with the same bytes. *)
Definition mem_eq (m m' : nat -> Z) : Prop := forall i, m i = m' i.

(** Every cell of the memory holds a byte. *)
Definition byte_mem (m : nat -> Z) : Prop := forall i, 0 <= m i < 256.

(** A device that behaves as a memory some bytes of which are stuck: a read
    returns the bytes in place and changes none; a write stores its bytes,
    except at the addresses of [stuck], which keep what they hold. *)
Record stuck_memory (D : Device) (dpeek : dev D -> nat -> Z) (stuck : nat -> bool)
    : Prop := {
  sm_read : forall db_number start size d,
    fst (dev_db_read D db_number start size d) = Ok (span (dpeek d) start size)
    /\ forall i, dpeek (snd (dev_db_read D db_number start size d)) i = dpeek d i;
  sm_write : forall db_number start data d,
    fst (dev_db_write D db_number start data d) = Ok tt
    /\ forall i, dpeek (snd (dev_db_write D db_number start data d)) i
                 = if stuck i then dpeek d i else upd (dpeek d) start data i
}.

(** The simulator, which stores every byte, or a driver whose device is a
    memory with the stuck bytes [stuck]. *)
Definition firm_client {D} (dpeek : dev D -> nat -> Z) (stuck : nat -> bool)
    (c : client D) : Prop :=
  match c with
  | Sim _ => True
  | Snap7 _ => stuck_memory D dpeek stuck
  end.

(** The bytes that writes through the client cannot change. *)
Definition cstuck {D} (stuck : nat -> bool) (c : client D) (i : nat) : bool :=
  match c with
  | Sim _ => false
  | Snap7 _ => stuck i
  end.

(** None of the bytes of the tag of a queued write is stuck. *)
Definition free_span {D} (stuck : nat -> bool) (c : client D) (w : write) : Prop :=
  forall i, ~ outside (clear_span w) i -> cstuck stuck c i = false.

(** The tag of a queued write reads back as the neutral value of its kind
    itself: [0.0], [0], [False], [""]. *)
Definition reads_zero {D} (w : write) (c : client D) : Prop :=
  match w with
  | W_REAL tag _ => fst (_read_real tag c) = Ok PyFloat.zero
  | W_INT tag _ => fst (_read_int tag c) = Ok 0
  | W_BOOL tag _ => fst (_read_bool tag c) = Ok false
  | W_STRING tag _ _ => fst (_read_string tag c) = Ok []
  end.

(** The memory holds the neutral value at the tag of a queued write: zero
    bytes for a number, a cleared bit, a zero length byte for the string. *)
Definition zeroed (w : write) (m : nat -> Z) : Prop :=
  match w with
  | W_BOOL tag _ =>
      match bool_target tag with
      | Ok (_, byte_offset, bit_offset) => Z.testbit (m byte_offset) bit_offset = false
      | Raise _ => False
      end
  | W_STRING _ _ _ => m 225%nat = 0
  | _ => forall i, ~ outside (clear_span w) i -> m i = 0
  end.

(** The dyadic rational [z * 2^e]. *)
Definition dyadic (z e : Z) : Q := inject_Z z * Qpower 2 e.

(** A computation that leaves [self.client] the kind of object it was. *)
Definition keeps_kind {D : Device} {A} (m : M (client D) A) : Prop :=
  forall c, same_kind c (snd (m c)).

(** Bytes that are ASCII characters. *)
Definition ascii_only (bs : list Z) : Prop := Forall (fun b => 0 <= b < 128) bs.

(** The payload of the test suite: preset solvent, RUN mode. *)
Definition sample_payload : InputPayload :=
  {| tfr := PyFloat.of_Z 1; frr := 5; target_volume := PyFloat.of_Z 10;
     temperature := PyFloat.of_Z 25; chip_id := BAFFLE; manifold_id := SMALL;
     lab_pressure := PyFloat.of_Z 1000; org_solvent_id := ETHANOL;
     operation_mode := AGENTIC; machine_mode := RUN; custom_solvent := None |}.

(** A custom solvent named with nine euro signs: nine characters, 27 bytes
    of UTF-8. *)
Definition euro_payload : InputPayload :=
  {| tfr := PyFloat.of_Z 1; frr := 5; target_volume := PyFloat.of_Z 10;
     temperature := PyFloat.of_Z 25; chip_id := BAFFLE; manifold_id := SMALL;
     lab_pressure := PyFloat.of_Z 1000; org_solvent_id := CUSTOM;
     operation_mode := AGENTIC; machine_mode := RUN;
     custom_solvent := Some {| name := replicate 9 8364;
                               viscosity := PyFloat.of_Z 1;
                               sensitivity := PyFloat.of_Z 1;
                               molar_volume := PyFloat.of_Z 1 |} |}.

(** A custom solvent named with ten euro signs and six e-acute: 16
    characters, 42 bytes of UTF-8. *)
Definition accent_payload : InputPayload :=
  {| tfr := PyFloat.of_Z 1; frr := 5; target_volume := PyFloat.of_Z 10;
     temperature := PyFloat.of_Z 25; chip_id := BAFFLE; manifold_id := SMALL;
     lab_pressure := PyFloat.of_Z 1000; org_solvent_id := CUSTOM;
     operation_mode := AGENTIC; machine_mode := RUN;
     custom_solvent := Some {| name := replicate 10 8364 ++ replicate 6 233;
                               viscosity := PyFloat.of_Z 1;
                               sensitivity := PyFloat.of_Z 1;
                               molar_volume := PyFloat.of_Z 1 |} |}.

(** The transaction of the specification's example: [r_TFR = 1.0] and
    [i_FRR = 5], on a PLC whose low byte of [i_FRR] is stuck at zero, so
    that the second write fails its verification. *)
Definition example_tx : PLCTransaction (StuckPLC.device (Nat.eqb 209)) :=
  {| plc := Snap7 (D := StuckPLC.device (Nat.eqb 209)) (fun _ => 0);
     writes := [W_REAL "r_TFR" (PyFloat.of_Z 1); W_INT "i_FRR" 5];
     committed := false |}.

(** ** Further operations of the interface *)

(** What [read_operation_mode] does: it returns a member of
    [OperationMode], raises its own [ValueError("Invalid operation mode
    value: ...")], or lets the exception of [_read_int] through. *)
Inductive operation_mode_result :=
| ModeRead (mode : OperationMode)
| ModeInvalid (value : Z)
| ModeRaise (e : exn).

(** [OperationMode(n)] *)
Definition OperationMode_of_int (n : Z) : option OperationMode :=
  if n =? 1 then Some CONVENTIONAL
  else if n =? 2 then Some AGENTIC
  else None.

Definition read_operation_mode {D : Device} (c : client D)
    : operation_mode_result * client D :=
  match _read_int "OPERATION_MODE" c with
  | (Ok mode, c') =>
      (match OperationMode_of_int mode with
       | Some m => ModeRead m
       | None => ModeInvalid mode
       end, c')
  | (Raise e, c') => (ModeRaise e, c')
  end.

(** The two [ValueError]s of [_get_command_tag]. *)
Inductive command_tag_error :=
| InvalidModeKey (mode_key : string)
| InvalidCommandKey (cmd_key : string).

Definition _get_command_tag (mode_key cmd_key : string) : command_tag_error + string :=
  if bool_decide (mode_key ∈ mode_keys) then
    if bool_decide (cmd_key ∈ cmd_keys) then inr (cmd_tag mode_key cmd_key)
    else inl (InvalidCommandKey cmd_key)
  else inl (InvalidModeKey mode_key).

(** The tag of a queued write passes the check of the verification: an
    [INT], a [BOOL] or a [STRING] reads back as the value queued for it; for
    a [REAL], [abs(actual - value) > 1e-6] is false of the value read back,
    as it is of a NaN. *)
Definition reads_queued {D : Device} (w : write) (c : client D) : Prop :=
  match w with
  | W_REAL tag value =>
      exists actual, fst (_read_real tag c) = Ok actual
                     /\ PyFloat.gt (PyFloat.abs (PyFloat.sub actual value)) tolerance = false
  | W_INT tag value => fst (_read_int tag c) = Ok value
  | W_BOOL tag value => fst (_read_bool tag c) = Ok value
  | W_STRING tag value _ => fst (_read_string tag c) = Ok value
  end.

(** What a [REAL] tag holds once [value] has been written to it:
    [struct.unpack('>f', struct.pack('>f', value))[0]], the binary32
    rounding of [value]. *)
Definition stored_real (value : spec_float) : result spec_float :=
  match pack_f value with
  | Ok data => unpack_f data
  | Raise e => Raise e
  end.

(** A queued string is plain when its UTF-8 encoding has one byte per
    character: it is stored in the bytes its length promises. *)
Definition plain (w : write) : Prop :=
  match w with
  | W_STRING _ value _ => utf8_encode value = Some value
  | _ => True
  end.

(** The tag of a queued write holds what was queued for it: an [INT], a
    [BOOL] or a [STRING] reads back as the value queued, a [REAL] as its
    binary32 rounding, which the comparison of the verification accepts. *)
Definition reads_stored {D : Device} (w : write) (c : client D) : Prop :=
  match w with
  | W_REAL tag value =>
      exists actual, stored_real value = Ok actual
                     /\ fst (_read_real tag c) = Ok actual
                     /\ PyFloat.gt (PyFloat.abs (PyFloat.sub actual value)) tolerance = false
  | _ => reads_queued w c
  end.

(** The three bytes of the command bits. *)
Definition command_byte (i : nat) : Prop := i = 258%nat \/ i = 260%nat \/ i = 262%nat.

(** The writes [write_payload_to_plc] queues before the solvent fields. *)
Definition payload_writes (payload : InputPayload) : list write :=
  [ W_INT "OPERATION_MODE" (int_OperationMode (operation_mode payload));
    W_INT "MACHINE_MODE" (int_MachineMode (machine_mode payload));
    W_REAL "r_TFR" (tfr payload);
    W_INT "i_FRR" (frr payload);
    W_REAL "r_TARGET_VOLUME" (target_volume payload);
    W_REAL "r_TEMPERATURE" (temperature payload);
    W_INT "i_CHIP_ID" (int_ChipID (chip_id payload));
    W_INT "i_MANIFOLD_ID" (int_ManifoldID (manifold_id payload));
    W_REAL "r_LAB_PRESSURE" (lab_pressure payload);
    W_INT "i_ORG_SOLVENT_ID" (int_OrgSolventID (org_solvent_id payload)) ].

(** The solvent fields a payload asks for: those of its custom solvent, or
    the cleared fields of a preset solvent. *)
Definition solvent_of (payload : InputPayload) : list write :=
  match org_solvent_id payload, custom_solvent payload with
  | CUSTOM, Some solvent =>
      solvent_writes (name solvent) (viscosity solvent) (sensitivity solvent)
        (molar_volume solvent)
  | CUSTOM, None => []
  | _, _ => solvent_writes [] PyFloat.zero PyFloat.zero PyFloat.zero
  end.

(** The custom solvent of the test suite, named [test_solvent], and the
    sample payload with it. *)
Definition sample_custom_solvent : CustomSolvent :=
  {| name := [116; 101; 115; 116; 95; 115; 111; 108; 118; 101; 110; 116];
     viscosity := PyFloat.dec 123 2;
     sensitivity := PyFloat.dec 45 3;
     molar_volume := PyFloat.dec 1234 2 |}.

Definition custom_payload : InputPayload :=
  {| tfr := PyFloat.of_Z 1; frr := 5; target_volume := PyFloat.of_Z 10;
     temperature := PyFloat.of_Z 25; chip_id := BAFFLE; manifold_id := SMALL;
     lab_pressure := PyFloat.of_Z 1000; org_solvent_id := CUSTOM;
     operation_mode := AGENTIC; machine_mode := RUN;
     custom_solvent := Some sample_custom_solvent |}.

(** An entry of [DB_CONFIG] that lies in data block 9, within bytes 198 to
    262: its byte address, and the four bytes from an [int] start. *)
Definition entry_in_block (c : cfg) : bool :=
  (cfg_db_number c =? 9)
  && match bit_address c with
     | Ok (byte_offset, _) => (198 <=? byte_offset)%nat && (byte_offset <? 263)%nat
     | Raise _ => false
     end
  && match cfg_start c with
     | PInt n => (198 <=? n)%nat && (n + 4 <=? 263)%nat
     | PFloat _ => true
     end.

(** The client is still the simulator, and no byte outside 198 to 262 has
    changed. *)
Definition only_block_changed {D : Device} (s : _SimClient.t) (c' : client D) : Prop :=
  exists s', c' = Sim s'
             /\ forall i, (i < 198 \/ 263 <= i)%nat -> sim_mem s' i = sim_mem s i.

(** ** Static validation ([tamara_graph.py])

    The four messages of [static_validate]: "TFR must be between 0.8 and
    15.0 mL/min", "FRR must be a positive integer", "Temperature must be
    between 5 C and 60 C", "Target volume must be positive". *)
Inductive validation_message :=
| TFR_out_of_range
| FRR_not_positive
| Temperature_out_of_range
| Target_volume_not_positive.

(** [static_validate(payload)]: the pair [(is_valid, messages)], built as
    the source builds it, check after check.  The comparisons are those of
    Python floats: with a NaN they are false. *)
Definition static_validate (payload : InputPayload) : bool * list validation_message :=
  let messages := [] in
  let is_valid := true in
  let '(messages, is_valid) :=
    if negb (SFleb (PyFloat.dec 8 1) (tfr payload)
             && SFleb (tfr payload) (PyFloat.of_Z 15))
    then (messages ++ [TFR_out_of_range], false)
    else (messages, is_valid) in
  let '(messages, is_valid) :=
    if frr payload <=? 0
    then (messages ++ [FRR_not_positive], false)
    else (messages, is_valid) in
  let '(messages, is_valid) :=
    if negb (SFleb (PyFloat.of_Z 5) (temperature payload)
             && SFleb (temperature payload) (PyFloat.of_Z 60))
    then (messages ++ [Temperature_out_of_range], false)
    else (messages, is_valid) in
  let '(messages, is_valid) :=
    if SFleb (target_volume payload) (PyFloat.of_Z 0)
    then (messages ++ [Target_volume_not_positive], false)
    else (messages, is_valid) in
  (is_valid, messages).

(** A float as Python has them: a finite one is a binary64 number in its
    canonical form. *)
Definition valid_double (x : spec_float) : Prop :=
  match x with
  | S754_finite _ m e => bounded PyFloat.prec PyFloat.emax m e = true
  | _ => True
  end.

(** A finite float between two rationals. *)
Definition in_range (lo hi : Q) (x : spec_float) : Prop :=
  PyFloat.is_finite x = true /\ (lo <= PyFloat.to_Q x)%Q /\ (PyFloat.to_Q x <= hi)%Q.

(** A float that is not [<= 0]: a positive number, plus infinity, or a NaN. *)
Definition above_zero (x : spec_float) : Prop :=
  match x with
  | S754_nan => True
  | S754_infinity s => s = false
  | _ => (0 < PyFloat.to_Q x)%Q
  end.

(** * Properties *)

(** ** The monad *)

Lemma bind_eq {S A B} (m : M S A) (k : A -> M S B) (s : S) :
  (m ≫= k) s = match m s with
               | (Ok a, s') => k a s'
               | (Raise e, s') => (Raise e, s')
               end.
Proof. reflexivity. Qed.

Lemma for_each_cons {S A} (x : A) (xs : list A) (body : A -> M S unit) (s : S) :
  for_each (x :: xs) body s
  = match body x s with
    | (Ok _, s') => for_each xs body s'
    | (Raise e, s') => (Raise e, s')
    end.
Proof. reflexivity. Qed.

(** ** Queueing and committing *)

(** C7.  A string longer than [max_len] is refused when it is queued: the
    call raises and the transaction, queue and link included, is what it
    was.  A string that fits is appended to the queue, and the link is
    untouched. *)
Theorem write_string_fail_fast {D} (tx : PLCTransaction D) (tag : string)
    (value : pystr) (max_len : Z) :
  (max_len < Z.of_nat (length value) ->
     write_string tag value max_len tx
     = (Raise (ValueError_string_too_long value max_len), tx))
  /\ (Z.of_nat (length value) <= max_len ->
        write_string tag value max_len tx
        = (Ok tt, {| plc := plc tx;
                     writes := writes tx ++ [W_STRING tag value max_len];
                     committed := committed tx |})).
Proof.
  unfold write_string. split; intros Hlen.
  - apply Z.ltb_lt in Hlen. rewrite Hlen. reflexivity.
  - apply Z.ltb_ge in Hlen. rewrite Hlen. reflexivity.
Qed.

Lemma write_string_fail_fast_witness :
  let tx := new_transaction (D := no_device) new_sim in
  (2 < Z.of_nat (length [65; 66; 67]) /\
   write_string "s_CUSTOM_ORG_SOLVENT" [65; 66; 67] 2 tx
   = (Raise (ValueError_string_too_long [65; 66; 67] 2), tx))
  /\ (Z.of_nat (length [65; 66]) <= 2 /\
      write_string "s_CUSTOM_ORG_SOLVENT" [65; 66] 2 tx
      = (Ok tt, {| plc := plc tx;
                   writes := [W_STRING "s_CUSTOM_ORG_SOLVENT" [65; 66] 2];
                   committed := false |})).
Proof.
  intros tx.
  pose proof (write_string_fail_fast tx "s_CUSTOM_ORG_SOLVENT" [65; 66; 67] 2) as [H1 _].
  pose proof (write_string_fail_fast tx "s_CUSTOM_ORG_SOLVENT" [65; 66] 2) as [_ H2].
  split; split; [simpl; lia | apply H1; simpl; lia | simpl; lia | apply H2; simpl; lia].
Defined.

Lemma commit_ok_committed {D} (tx tx' : PLCTransaction D) :
  commit tx = (Ok tt, tx') -> committed tx' = true.
Proof.
  unfold commit. destruct (committed tx) eqn:Hc.
  - intros [= <-]. exact Hc.
  - destruct (write_and_verify (writes tx) (plc tx)) as [[[]|e] c].
    + intros [= <-]. reflexivity.
    + destruct (rollback (writes tx) c) as [[|r rb] c']; discriminate.
Qed.

(** C10.  Once [commit] has returned normally on a transaction, a further
    [commit] on it returns at once: the transaction, and the link state it
    holds, are unchanged. *)
Theorem commit_idempotent {D} (tx tx' : PLCTransaction D) :
  commit tx = (Ok tt, tx') -> commit tx' = (Ok tt, tx').
Proof.
  intros H. apply commit_ok_committed in H.
  unfold commit. rewrite H. reflexivity.
Qed.

Lemma commit_idempotent_witness :
  let tx := {| plc := new_sim (D := no_device);
               writes := [W_REAL "r_TFR" (PyFloat.of_Z 1); W_INT "i_FRR" 5];
               committed := false |} in
  commit tx = (Ok tt, snd (commit tx))
  /\ commit (snd (commit tx)) = (Ok tt, snd (commit tx)).
Proof.
  intros tx.
  assert (H : commit tx = (Ok tt, snd (commit tx))) by (vm_compute; reflexivity).
  split; [exact H | exact (commit_idempotent tx (snd (commit tx)) H)].
Defined.

(** ** The simulator's extension *)

(** C4, evaluated.  The region starts as 219 zero bytes, but a read past
    its end returns the bytes of the literal [b'\\x00'] (backslash, [x],
    [0], [0]), not zeros; and on a new simulator the never-written command
    bit [COMMANDS_CLEAN.b_STOP] (byte 260, bit 3) reads true. *)
Theorem sim_extension_not_zero :
  _SimClient._db (_SimClient.init false) = replicate 219 0
  /\ fst (_SimClient.db_read 9 219 4 (_SimClient.init false)) = Ok [92; 120; 48; 48]
  /\ fst (_read_bool "COMMANDS_CLEAN.b_STOP" (new_sim (D := no_device))) = Ok true.
Proof. repeat split; vm_compute; reflexivity. Qed.

(** ** Command bits on a lossy link *)

(** C6, evaluated.  On a PLC that holds byte 258 with [COMMANDS_RUN.b_START]
    set, [pulse_cmd(CLEAN, START, True)] returns normally although its
    cascade clear of [COMMANDS_RUN.b_START] had no effect: the clear is
    never read back, and two modes are left with Start set. *)
Theorem pulse_cmd_cascade_not_read_back :
  let c := Snap7 (D := HeldPLC.device) (HeldPLC.holding 258 1) in
  fst (pulse_cmd CLEAN START true c) = Ok tt
  /\ start_bit RUN (snd (pulse_cmd CLEAN START true c)) = Ok true
  /\ start_bit CLEAN (snd (pulse_cmd CLEAN START true c)) = Ok true.
Proof. repeat split; vm_compute; reflexivity. Qed.

(** ** The simulator as a memory *)

#[global] Instance mem_eq_equivalence : Equivalence mem_eq.
Proof.
  split.
  - intros m i. reflexivity.
  - intros m m' H i. symmetry. apply H.
  - intros m1 m2 m3 H12 H23 i. rewrite H12. apply H23.
Qed.

Lemma span_ext (m m' : nat -> Z) (start size : nat) :
  mem_eq m m' -> span m start size = span m' start size.
Proof.
  intros H. unfold span. apply list_fmap_ext. intros _ i _. apply H.
Qed.

Lemma upd_ext (m m' : nat -> Z) (start : nat) (data : list Z) :
  mem_eq m m' -> mem_eq (upd m start data) (upd m' start data).
Proof.
  intros H i. unfold upd. rewrite (H i). reflexivity.
Qed.

Lemma upd_outside (m : nat -> Z) (start : nat) (data : list Z) (i : nat) :
  (i < start \/ start + length data <= i)%nat -> upd m start data i = m i.
Proof.
  intros H. unfold upd. destruct (Nat.leb_spec start i) as [Hle|Hlt]; [|reflexivity].
  rewrite lookup_ge_None_2 by lia. reflexivity.
Qed.

Lemma upd_inside (m : nat -> Z) (start : nat) (data : list Z) (i : nat) (b : Z) :
  data !! i = Some b -> upd m start data (start + i) = b.
Proof.
  intros H. unfold upd.
  destruct (Nat.leb_spec start (start + i)) as [_|Hlt]; [|lia].
  replace (start + i - start)%nat with i by lia. rewrite H. reflexivity.
Qed.

Lemma length_span (m : nat -> Z) (start size : nat) : length (span m start size) = size.
Proof. unfold span. rewrite length_fmap, length_seq. reflexivity. Qed.

Lemma lookup_span (m : nat -> Z) (start size i : nat) :
  (i < size)%nat -> span m start size !! i = Some (m (start + i)%nat).
Proof.
  intros H. unfold span. rewrite list_lookup_fmap, lookup_seq_lt by exact H.
  reflexivity.
Qed.

Lemma span_upd_same (m : nat -> Z) (start : nat) (data : list Z) :
  span (upd m start data) start (length data) = data.
Proof.
  apply list_eq. intros i.
  destruct (decide (i < length data)%nat) as [Hi|Hi].
  - rewrite lookup_span by exact Hi.
    destruct (lookup_lt_is_Some_2 data i Hi) as [b Hb].
    rewrite Hb. f_equal. apply upd_inside. exact Hb.
  - rewrite !lookup_ge_None_2; [reflexivity | lia | rewrite length_span; lia].
Qed.

Lemma span_upd_disjoint (m : nat -> Z) (start : nat) (data : list Z) (st sz : nat) :
  (st + sz <= start \/ start + length data <= st)%nat ->
  span (upd m start data) st sz = span m st sz.
Proof.
  intros H. unfold span. apply list_fmap_ext. intros k i Hk.
  apply lookup_seq in Hk as [-> Hlt]. apply upd_outside. lia.
Qed.

Lemma mod4_sub (a k : nat) : (4 * k <= a -> (a - 4 * k) mod 4 = a mod 4)%nat.
Proof.
  intros H. rewrite <- (Nat.Div0.mod_add (a - 4 * k) k 4). f_equal. lia.
Qed.

Lemma bytes_mul_S (b : list Z) (n : nat) : bytes_mul b (S n) = b ++ bytes_mul b n.
Proof. reflexivity. Qed.

Lemma length_bytes_mul (n : nat) : length (bytes_mul zero_literal n) = (4 * n)%nat.
Proof.
  induction n as [|n IH]; [reflexivity|].
  rewrite bytes_mul_S, length_app, IH. simpl. lia.
Qed.

Lemma lookup_bytes_mul (n i : nat) :
  (i < 4 * n)%nat -> bytes_mul zero_literal n !! i = zero_literal !! (i mod 4)%nat.
Proof.
  revert i. induction n as [|n IH]; intros i Hi; [lia|].
  rewrite bytes_mul_S.
  destruct (decide (i < 4)%nat) as [Hlt|Hge].
  - rewrite lookup_app_l by (simpl; lia).
    rewrite Nat.mod_small by lia. reflexivity.
  - rewrite lookup_app_r by (simpl; lia).
    change (length zero_literal) with 4%nat.
    rewrite IH by lia. f_equal.
    apply (mod4_sub i 1). lia.
Qed.

Lemma peek_extend_to (n : nat) (db : list Z) :
  mem_eq (peek (_SimClient.extend_to n db)) (peek db).
Proof.
  intros i. unfold _SimClient.extend_to.
  destruct (Nat.ltb_spec (length db) n) as [Hlt|Hge]; [|reflexivity].
  unfold peek.
  destruct (decide (i < length db)%nat) as [Hi|Hi].
  - rewrite lookup_app_l by exact Hi.
    destruct (lookup_lt_is_Some_2 db i Hi) as [b ->]. reflexivity.
  - rewrite lookup_app_r by lia.
    rewrite (lookup_ge_None_2 db i) by lia.
    destruct (decide (i - length db < 4 * (n - length db))%nat) as [Hin|Hout].
    + rewrite lookup_bytes_mul by exact Hin.
      destruct (zero_literal !! ((i - length db) mod 4)%nat) as [b|] eqn:Hb; [reflexivity|].
      apply lookup_ge_None_1 in Hb. simpl in Hb.
      pose proof (Nat.mod_upper_bound (i - length db) 4). lia.
    + rewrite lookup_ge_None_2 by (rewrite length_bytes_mul; lia).
      rewrite length_app, length_bytes_mul. do 2 f_equal.
      replace (i - (length db + 4 * (n - length db)))%nat
        with (i - length db - 4 * (n - length db))%nat by lia.
      apply mod4_sub. lia.
Qed.

Lemma length_extend_to (n : nat) (db : list Z) :
  (n <= length (_SimClient.extend_to n db))%nat.
Proof.
  unfold _SimClient.extend_to.
  destruct (Nat.ltb_spec (length db) n) as [Hlt|Hge]; [|lia].
  rewrite length_app, length_bytes_mul. lia.
Qed.

Lemma peek_lookup (db : list Z) (i : nat) (b : Z) : db !! i = Some b -> peek db i = b.
Proof. intros H. unfold peek. rewrite H. reflexivity. Qed.

Lemma peek_in_range (db : list Z) (i : nat) :
  (i < length db)%nat -> db !! i = Some (peek db i).
Proof.
  intros H. destruct (lookup_lt_is_Some_2 db i H) as [b Hb].
  rewrite (peek_lookup _ _ _ Hb). exact Hb.
Qed.

Lemma peek_splice (db data : list Z) (start : nat) :
  (start + length data <= length db)%nat ->
  mem_eq (peek (take start db ++ data ++ drop (start + length data) db))
         (upd (peek db) start data).
Proof.
  intros Hlen i. unfold upd.
  assert (Htake : length (take start db) = start) by (rewrite length_take; lia).
  destruct (Nat.leb_spec start i) as [Hle|Hlt].
  - destruct (decide (i - start < length data)%nat) as [Hin|Hout].
    + destruct (lookup_lt_is_Some_2 data _ Hin) as [b Hb]. rewrite Hb. simpl.
      apply peek_lookup.
      rewrite lookup_app_r by lia. rewrite Htake.
      rewrite lookup_app_l by exact Hin. exact Hb.
    + rewrite (lookup_ge_None_2 data) by lia. simpl.
      unfold peek.
      rewrite lookup_app_r by lia. rewrite Htake.
      rewrite lookup_app_r by lia.
      rewrite lookup_drop.
      replace (start + length data + (i - start - length data))%nat with i by lia.
      rewrite !length_app, Htake, length_drop.
      replace (start + (length data + (length db - (start + length data))))%nat
        with (length db) by lia.
      reflexivity.
  - unfold peek. rewrite lookup_app_l by lia.
    rewrite lookup_take_lt by lia.
    destruct (lookup_lt_is_Some_2 db i ltac:(lia)) as [b ->]. reflexivity.
Qed.

Lemma sim_db_read_ok (start size : nat) (s : _SimClient.t) :
  exists s', _SimClient.db_read 9 start size s = (Ok (span (sim_mem s) start size), s')
             /\ mem_eq (sim_mem s') (sim_mem s).
Proof.
  eexists. split; [unfold _SimClient.db_read; simpl; f_equal; f_equal|].
  - apply list_eq. intros i. unfold sim_mem.
    destruct (decide (i < size)%nat) as [Hi|Hi].
    + rewrite lookup_span by exact Hi.
      rewrite lookup_take_lt by exact Hi. rewrite lookup_drop.
      rewrite <- (peek_extend_to (start + size) _ (start + i)%nat).
      apply peek_in_range.
      pose proof (length_extend_to (start + size) (_SimClient._db s)). lia.
    + rewrite lookup_take_ge by lia.
      rewrite lookup_ge_None_2 by (rewrite length_span; lia). reflexivity.
  - unfold sim_mem. simpl. apply peek_extend_to.
Qed.

Lemma sim_db_write_ok (start : nat) (data : list Z) (s : _SimClient.t) :
  exists s', _SimClient.db_write 9 start data s = (Ok tt, s')
             /\ mem_eq (sim_mem s') (upd (sim_mem s) start data).
Proof.
  eexists. split; [reflexivity|].
  unfold sim_mem. simpl.
  etransitivity.
  - apply peek_splice. apply length_extend_to.
  - apply upd_ext. apply peek_extend_to.
Qed.

(** ** Bits of a byte *)

Lemma get_bit_testbit (x bit : Z) : 0 <= bit -> get_bit x bit = Z.testbit x bit.
Proof.
  intros Hbit. unfold get_bit. rewrite Z.shiftl_1_l.
  destruct (Z.testbit x bit) eqn:Hx.
  - apply negb_true_iff, Z.eqb_neq. intros H0.
    assert (Hb : Z.testbit (Z.land x (2 ^ bit)) bit = true).
    { rewrite Z.land_spec, Hx, Z.pow2_bits_true by exact Hbit. reflexivity. }
    rewrite H0, Z.bits_0 in Hb. discriminate.
  - apply negb_false_iff, Z.eqb_eq. apply Z.bits_inj'. intros n Hn.
    rewrite Z.land_spec, Z.bits_0, Z.pow2_bits_eqb by exact Hbit.
    destruct (Z.eqb_spec bit n) as [->|Hne]; [rewrite Hx; reflexivity|].
    apply andb_false_r.
Qed.

Lemma testbit_put_bit (x bit n : Z) (v : bool) :
  0 <= bit -> 0 <= n ->
  Z.testbit (put_bit x bit v) n = if Z.eqb bit n then v else Z.testbit x n.
Proof.
  intros Hbit Hn. unfold put_bit. rewrite Z.shiftl_1_l. destruct v.
  - rewrite Z.lor_spec, Z.pow2_bits_eqb by exact Hbit.
    destruct (Z.eqb bit n); [apply orb_true_r | apply orb_false_r].
  - rewrite Z.land_spec, Z.lnot_spec, Z.pow2_bits_eqb by assumption.
    destruct (Z.eqb bit n); [apply andb_false_r | apply andb_true_r].
Qed.

Lemma byte_of_bits (x : Z) :
  0 <= x -> (forall n, 8 <= n -> Z.testbit x n = false) -> x < 256.
Proof.
  intros Hx Hbits. destruct (Z.ltb_spec x 256) as [Hlt|Hge]; [exact Hlt|].
  assert (Hlog : 8 <= Z.log2 x) by (apply (Z.log2_le_pow2 x 8); lia).
  pose proof (Z.bit_log2 x ltac:(lia)) as Hb.
  rewrite (Hbits _ Hlog) in Hb. discriminate.
Qed.

Lemma bits_of_byte (x n : Z) : 0 <= x < 256 -> 8 <= n -> Z.testbit x n = false.
Proof.
  intros Hx Hn. destruct (Z.eq_dec x 0) as [->|Hne]; [apply Z.bits_0|].
  apply Z.bits_above_log2; [lia|].
  assert (Z.log2 x < 8) by (apply Z.log2_lt_pow2; lia). lia.
Qed.

Lemma put_bit_byte (x bit : Z) (v : bool) :
  0 <= x < 256 -> 0 <= bit < 8 -> 0 <= put_bit x bit v < 256.
Proof.
  intros Hx Hbit.
  assert (Hnn : 0 <= put_bit x bit v).
  { unfold put_bit. rewrite Z.shiftl_1_l. destruct v.
    - apply Z.lor_nonneg. split; [lia | apply Z.pow_nonneg; lia].
    - apply Z.land_nonneg. left. lia. }
  split; [exact Hnn|]. apply byte_of_bits; [exact Hnn|].
  intros n Hn. rewrite testbit_put_bit by lia.
  destruct (Z.eqb_spec bit n) as [->|_]; [lia|].
  apply bits_of_byte; assumption.
Qed.

(** ** The simulator's bit operations *)

Lemma sim_ok_mem (s : _SimClient.t) (i : nat) : sim_ok s -> 0 <= sim_mem s i < 256.
Proof.
  unfold sim_ok, sim_mem, peek. intros H.
  destruct (_SimClient._db s !! i) as [b|] eqn:Hb.
  - rewrite Forall_lookup in H. exact (H _ _ Hb).
  - pose proof (Nat.mod_upper_bound (i - length (_SimClient._db s)) 4 ltac:(lia)) as Hm.
    destruct ((i - length (_SimClient._db s)) mod 4)%nat as [|[|[|[|k]]]];
      simpl; lia.
Qed.

Lemma sim_ok_extend_to (n : nat) (db : list Z) :
  Forall (fun b => 0 <= b < 256) db ->
  Forall (fun b => 0 <= b < 256) (_SimClient.extend_to n db).
Proof.
  intros H. unfold _SimClient.extend_to.
  destruct (length db <? n)%nat; [|exact H].
  apply Forall_app. split; [exact H|].
  generalize (n - length db)%nat. intros k. induction k as [|k IH].
  - constructor.
  - rewrite bytes_mul_S. apply Forall_app. split; [|exact IH].
    repeat constructor; lia.
Qed.

Lemma peek_insert (db : list Z) (i : nat) (b : Z) :
  (i < length db)%nat -> mem_eq (peek (<[i := b]> db)) (upd (peek db) i [b]).
Proof.
  intros Hi j. unfold upd, peek. rewrite length_insert.
  destruct (decide (i = j)) as [->|Hne].
  - rewrite list_lookup_insert_eq by exact Hi.
    rewrite Nat.leb_refl, Nat.sub_diag. reflexivity.
  - rewrite list_lookup_insert_ne by exact Hne.
    destruct (Nat.leb_spec i j) as [Hle|Hlt]; [|reflexivity].
    rewrite (lookup_ge_None_2 [b]) by (simpl; lia). reflexivity.
Qed.

Lemma sim_db_write_bit_ok (byte : nat) (bit : Z) (v : bool) (s : _SimClient.t) :
  0 <= bit -> 0 <= put_bit (sim_mem s byte) bit v < 256 ->
  exists s', _SimClient.db_write_bit 9 byte bit (if v then 1 else 0) s = (Ok tt, s')
             /\ mem_eq (sim_mem s') (set_bit (sim_mem s) byte bit v)
             /\ (sim_ok s -> sim_ok s').
Proof.
  intros Hbit Hrange.
  pose proof (length_extend_to (byte + 1) (_SimClient._db s)) as Hlen.
  pose proof (peek_extend_to (byte + 1) (_SimClient._db s)) as Hext.
  assert (Hcur : default 0 (_SimClient.extend_to (byte + 1) (_SimClient._db s) !! byte)
                 = sim_mem s byte).
  { rewrite peek_in_range by lia. simpl. apply Hext. }
  assert (Hnew : (if negb ((if v then 1 else 0) =? 0)
                  then Z.lor (sim_mem s byte) (Z.shiftl 1 bit)
                  else Z.land (sim_mem s byte) (Z.lnot (Z.shiftl 1 bit)))
                 = put_bit (sim_mem s byte) bit v) by (destruct v; reflexivity).
  eexists. split; [|split].
  - unfold _SimClient.db_write_bit. cbn [Z.eqb negb].
    rewrite Hcur, Hnew.
    rewrite (proj2 (Z.ltb_ge bit 0)) by exact Hbit.
    rewrite (proj2 (Z.leb_le 0 _)) by lia.
    rewrite (proj2 (Z.ltb_lt _ 256)) by lia.
    reflexivity.
  - unfold sim_mem, set_bit. simpl. intros i.
    rewrite peek_insert by lia. unfold upd. rewrite !Hext. reflexivity.
  - unfold sim_ok. simpl. intros Hok.
    apply Forall_insert; [apply sim_ok_extend_to; exact Hok | exact Hrange].
Qed.

Lemma sim_db_read_bit_ok (byte : nat) (bit : Z) (s : _SimClient.t) :
  0 <= bit ->
  exists s', _SimClient.db_read_bit 9 byte bit s
             = (Ok (Z.testbit (sim_mem s byte) bit), s')
             /\ mem_eq (sim_mem s') (sim_mem s)
             /\ (sim_ok s -> sim_ok s').
Proof.
  intros Hbit.
  pose proof (length_extend_to (byte + 1) (_SimClient._db s)) as Hlen.
  pose proof (peek_extend_to (byte + 1) (_SimClient._db s)) as Hext.
  eexists. split; [|split].
  - unfold _SimClient.db_read_bit. cbn [Z.eqb negb].
    rewrite (proj2 (Z.ltb_ge bit 0)) by exact Hbit.
    rewrite peek_in_range by lia. cbn [default].
    rewrite Hext. rewrite <- get_bit_testbit by exact Hbit.
    reflexivity.
  - unfold sim_mem. simpl. exact Hext.
  - unfold sim_ok. simpl. apply sim_ok_extend_to.
Qed.

(** ** [BOOL] tags on the simulator *)

Lemma set_bit_same (m : nat -> Z) (byte : nat) (bit : Z) (v : bool) :
  set_bit m byte bit v byte = put_bit (m byte) bit v.
Proof.
  unfold set_bit, upd. rewrite Nat.leb_refl, Nat.sub_diag. reflexivity.
Qed.

Lemma set_bit_other (m : nat -> Z) (byte i : nat) (bit : Z) (v : bool) :
  i <> byte -> set_bit m byte bit v i = m i.
Proof. intros H. unfold set_bit. apply upd_outside. simpl. lia. Qed.

Lemma set_bit_ext (m m' : nat -> Z) (byte : nat) (bit : Z) (v : bool) :
  mem_eq m m' -> mem_eq (set_bit m byte bit v) (set_bit m' byte bit v).
Proof.
  intros H i. unfold set_bit, upd. rewrite (H i), (H byte). reflexivity.
Qed.

Section SimBool.
Context {D : Device}.

Lemma write_bool_unfold (tag : string) (v : bool) (c : client D) :
  _write_bool tag v c
  = match bool_target tag with
    | Raise e => (Raise e, c)
    | Ok (db_number, byte_offset, bit_offset) =>
        match c with
        | Sim s =>
            let '(r, s') := _SimClient.db_write_bit db_number byte_offset bit_offset
                              (if v then 1 else 0) s in
            (r, Sim s')
        | Snap7 _ =>
            (result ← db_read db_number byte_offset 1;
             bit_mask ← lift $ shift_one bit_offset;
             let new_byte := if v then Z.lor (default 0 (head result)) bit_mask
                             else Z.land (default 0 (head result)) (Z.lnot bit_mask) in
             if (0 <=? new_byte) && (new_byte <? 256)
             then db_write db_number byte_offset [new_byte]
             else raise ValueError_byte_range) c
        end
    end.
Proof.
  unfold _write_bool, bool_target. rewrite bind_eq. unfold lift at 1.
  destruct (bool_cfg tag) as [cfg|e]; [|reflexivity].
  rewrite bind_eq. unfold lift at 1.
  destruct (bit_address cfg) as [[byte bit]|e]; [|reflexivity].
  destruct c; reflexivity.
Qed.

Lemma read_bool_unfold (tag : string) (c : client D) :
  _read_bool tag c
  = match bool_target tag with
    | Raise e => (Raise e, c)
    | Ok (db_number, byte_offset, bit_offset) =>
        match c with
        | Sim s =>
            let '(r, s') := _SimClient.db_read_bit db_number byte_offset bit_offset s in
            (r, Sim s')
        | Snap7 _ =>
            (result ← db_read db_number byte_offset 1;
             match result with
             | [] => mret false
             | b :: _ =>
                 bit_mask ← lift $ shift_one bit_offset;
                 mret (negb (Z.land b bit_mask =? 0))
             end) c
        end
    end.
Proof.
  unfold _read_bool, bool_target. rewrite bind_eq. unfold lift at 1.
  destruct (bool_cfg tag) as [cfg|e]; [|reflexivity].
  rewrite bind_eq. unfold lift at 1.
  destruct (bit_address cfg) as [[byte bit]|e]; [|reflexivity].
  destruct c; reflexivity.
Qed.

Lemma sim_write_bool (tag : string) (v : bool) (s : _SimClient.t) (byte : nat) (bit : Z) :
  bool_target tag = Ok (9, byte, bit) -> 0 <= bit < 8 -> sim_ok s ->
  exists s', _write_bool tag v (Sim (D := D) s) = (Ok tt, Sim s')
             /\ mem_eq (sim_mem s') (set_bit (sim_mem s) byte bit v)
             /\ sim_ok s'.
Proof.
  intros Ht Hbit Hok.
  destruct (sim_db_write_bit_ok byte bit v s) as (s' & E & Hm & Hok'); [lia| |].
  - apply put_bit_byte; [apply sim_ok_mem; exact Hok | exact Hbit].
  - exists s'. rewrite write_bool_unfold, Ht, E. auto.
Qed.

Lemma sim_read_bool (tag : string) (s : _SimClient.t) (byte : nat) (bit : Z) :
  bool_target tag = Ok (9, byte, bit) -> 0 <= bit ->
  exists s', _read_bool tag (Sim (D := D) s)
             = (Ok (Z.testbit (sim_mem s byte) bit), Sim s')
             /\ mem_eq (sim_mem s') (sim_mem s)
             /\ (sim_ok s -> sim_ok s').
Proof.
  intros Ht Hbit.
  destruct (sim_db_read_bit_ok byte bit s Hbit) as (s' & E & Hm & Hok').
  exists s'. rewrite read_bool_unfold, Ht, E. auto.
Qed.

Lemma bool_target_cmd (mode : MachineMode) (cmd : ModeCmds) :
  bool_target (cmd_tag (mode_map mode) (cmd_map cmd))
  = Ok (9, mode_byte mode, cmd_bit_offset cmd).
Proof. destruct mode, cmd; vm_compute; reflexivity. Qed.

Lemma cmd_bit_offset_range (cmd : ModeCmds) : 0 <= cmd_bit_offset cmd < 8.
Proof. destruct cmd; simpl; lia. Qed.

(** Reading a command bit on the simulator. *)
Lemma sim_cmd_bit (mode : MachineMode) (cmd : ModeCmds) (s : _SimClient.t) :
  cmd_bit mode cmd (Sim (D := D) s)
  = Ok (Z.testbit (sim_mem s (mode_byte mode)) (cmd_bit_offset cmd)).
Proof.
  unfold cmd_bit.
  destruct (sim_read_bool _ s _ _ (bool_target_cmd mode cmd)) as (s' & E & _).
  - pose proof (cmd_bit_offset_range cmd). lia.
  - rewrite E. reflexivity.
Qed.
End SimBool.

(** ** [pulse_cmd] on the simulator *)

Ltac sim_write_step :=
  rewrite ?bind_eq, ?for_each_cons;
  match goal with
  | |- context [@_write_bool ?D ?tag ?v (Sim ?s)] =>
      let s' := fresh "s" in
      let E := fresh "E" in
      let Hm := fresh "Hm" in
      let Hok' := fresh "Hok" in
      edestruct (sim_write_bool (D := D) tag v s) as (s' & E & Hm & Hok');
      [vm_compute; reflexivity | lia | eassumption | rewrite E; clear E]
  end.

Ltac sim_read_step :=
  rewrite ?bind_eq;
  match goal with
  | |- context [@_read_bool ?D ?tag (Sim ?s)] =>
      let s' := fresh "s" in
      let E := fresh "E" in
      let Hm := fresh "Hm" in
      let Hok' := fresh "Hok" in
      edestruct (sim_read_bool (D := D) tag s) as (s' & E & Hm & Hok');
      [vm_compute; reflexivity | lia | rewrite E; clear E];
      try (specialize (Hok' ltac:(assumption)))
  end.

Lemma ret_eq {S A} (a : A) (s : S) : mret (M := M S) a s = (Ok a, s).
Proof. reflexivity. Qed.

Lemma for_each_nil {S A} (body : A -> M S unit) (s : S) : for_each [] body s = (Ok tt, s).
Proof. reflexivity. Qed.

(** Decide the comparisons of two literal strings, or of two literal
    booleans, that the goal contains. *)
Ltac eval_decides :=
  repeat match goal with
         | |- context [bool_decide (?a <> ?b)] =>
             let r := eval vm_compute in (bool_decide (a <> b)) in
             change (bool_decide (a <> b)) with r
         end.

Ltac mem_chain :=
  repeat first
    [ reflexivity
    | apply set_bit_ext
    | etransitivity; [eassumption|] ].

Section SimPulse.
Context {D : Device}.

Lemma sim_pulse_cmd (mode : MachineMode) (cmd : ModeCmds) (v : bool) (s : _SimClient.t) :
  sim_ok s ->
  exists s', pulse_cmd mode cmd v (Sim (D := D) s) = (Ok tt, Sim s')
             /\ sim_ok s'
             /\ mem_eq (sim_mem s') (pulse_mem mode cmd v (sim_mem s)).
Proof.
  intros Hok. unfold pulse_cmd.
  destruct mode, cmd, v.
  all: cbn [is_START is_STOP andb mode_map cmd_map fmap list_fmap].
  all: repeat first
         [ sim_write_step
         | progress cbv beta iota
         | rewrite for_each_cons
         | rewrite for_each_nil
         | rewrite ret_eq
         | progress eval_decides
         | rewrite bind_eq ].
  all: sim_read_step.
  all: match goal with
       | |- context [Z.testbit (sim_mem ?sw ?b) ?k] =>
           match goal with
           | H : mem_eq (sim_mem sw) _ |- _ =>
               rewrite (H b), set_bit_same, testbit_put_bit by lia;
               change (k =? k) with true; cbv iota
           end
       end.
  all: eval_decides; cbv iota; rewrite ret_eq.
  all: eexists; split; [reflexivity|]; split; [auto|].
  all: unfold pulse_mem; cbn [is_START is_STOP andb mode_byte cmd_bit_offset].
  all: repeat match goal with
              | |- context [other_modes ?m] =>
                  let r := eval vm_compute in (other_modes m) in
                  change (other_modes m) with r
              end.
  all: cbn [foldl mode_byte]; mem_chain.
Qed.
End SimPulse.

(** The bit just written is the bit read back. *)
Ltac sim_resolve_bit :=
  match goal with
  | |- context [Z.testbit (sim_mem ?sw ?b) ?k] =>
      match goal with
      | H : mem_eq (sim_mem sw) (set_bit _ b k _) |- _ =>
          rewrite (H b), set_bit_same, testbit_put_bit by lia;
          change (k =? k) with true; cbv iota
      end
  end.

Ltac sim_steps :=
  repeat first
    [ sim_write_step
    | sim_read_step
    | sim_resolve_bit
    | progress cbv beta iota
    | rewrite for_each_cons
    | rewrite for_each_nil
    | rewrite ret_eq
    | progress eval_decides
    | rewrite bind_eq ].

Section SimClearAll.
Context {D : Device}.

Lemma sim_clear_all_cmd_bits (s : _SimClient.t) :
  sim_ok s ->
  exists s', clear_all_cmd_bits (Sim (D := D) s) = (Ok tt, Sim s')
             /\ sim_ok s'
             /\ mem_eq (sim_mem s') (clear_all_mem (sim_mem s)).
Proof.
  intros Hok. unfold clear_all_cmd_bits, mode_keys, cmd_keys.
  sim_steps.
  eexists; split; [reflexivity|]; split; [auto 20|].
  unfold clear_all_mem. cbn [foldl mode_byte cmd_bit_offset].
  mem_chain.
Qed.
End SimClearAll.

(** ** Command bits after a command *)

Ltac bit_norm :=
  repeat first
    [ rewrite set_bit_same
    | rewrite set_bit_other by (simpl; lia)
    | rewrite testbit_put_bit by lia ].

(** After [pulse_cmd], a Start bit is set only if it was set before, or if
    it is the Start bit just set. *)
Lemma pulse_mem_start (mode : MachineMode) (cmd : ModeCmds) (v : bool)
    (m : nat -> Z) (m' : MachineMode) :
  Z.testbit (pulse_mem mode cmd v m (mode_byte m')) 0 = true ->
  (is_START cmd && v = true /\ m' = mode)
  \/ (is_START cmd && v = false /\ Z.testbit (m (mode_byte m')) 0 = true).
Proof.
  unfold pulse_mem.
  destruct mode, cmd, v, m'.
  all: cbn [is_START is_STOP andb mode_byte cmd_bit_offset].
  all: repeat match goal with
              | |- context [other_modes ?m] =>
                  let r := eval vm_compute in (other_modes m) in
                  change (other_modes m) with r
              end.
  all: cbn [foldl mode_byte]; bit_norm; cbn [Z.eqb].
  all: intros H; try discriminate H; auto.
Qed.

Lemma clear_all_mem_bit (m : nat -> Z) (mode : MachineMode) (cmd : ModeCmds) :
  Z.testbit (clear_all_mem m (mode_byte mode)) (cmd_bit_offset cmd) = false.
Proof.
  unfold clear_all_mem.
  destruct mode, cmd; cbn [foldl mode_byte cmd_bit_offset]; bit_norm; reflexivity.
Qed.

Lemma pulse_mem_stop (mode : MachineMode) (m : nat -> Z) (cmd : ModeCmds) :
  Z.testbit (pulse_mem mode STOP true m (mode_byte mode)) (cmd_bit_offset cmd)
  = is_STOP cmd.
Proof.
  unfold pulse_mem.
  destruct mode, cmd; cbn [is_START is_STOP andb foldl mode_byte cmd_bit_offset];
    bit_norm; reflexivity.
Qed.

Lemma sim_ok_new : sim_ok (_SimClient.connect (_SimClient.init false)).
Proof. apply (Forall_replicate (fun b => 0 <= b < 256) 219 0). lia. Qed.

Lemma sim_ok_set_db (s : _SimClient.t) (db : list Z) :
  Forall (fun b => 0 <= b < 256) db -> sim_ok (_SimClient.set_db s db).
Proof. intros H. exact H. Qed.

(** C2.  On the simulator, from a state in which a mode's Start, PausePlay
    and Confirm bits read true, [pulse_cmd(mode, STOP, True)] returns and
    leaves these three bits reading false and the mode's Stop bit reading
    true. *)
Theorem stop_cascade_clear {D} (mode : MachineMode) (s : _SimClient.t) :
  sim_ok s ->
  cmd_bit mode START (Sim (D := D) s) = Ok true ->
  cmd_bit mode PAUSE_PLAY (Sim (D := D) s) = Ok true ->
  cmd_bit mode CONFIRM (Sim (D := D) s) = Ok true ->
  exists c', pulse_cmd mode STOP true (Sim (D := D) s) = (Ok tt, c')
             /\ cmd_bit mode START c' = Ok false
             /\ cmd_bit mode PAUSE_PLAY c' = Ok false
             /\ cmd_bit mode CONFIRM c' = Ok false
             /\ cmd_bit mode STOP c' = Ok true.
Proof.
  intros Hok _ _ _.
  destruct (sim_pulse_cmd (D := D) mode STOP true s Hok) as (s' & E & _ & Hm).
  exists (Sim s'). split; [exact E|].
  rewrite !sim_cmd_bit, !(Hm (mode_byte mode)), !pulse_mem_stop.
  repeat split.
Qed.

Lemma stop_cascade_clear_witness :
  let s := _SimClient.set_db (_SimClient.init false) (replicate 258 0 ++ [3]) in
  sim_ok s
  /\ cmd_bit RUN START (Sim (D := no_device) s) = Ok true
  /\ cmd_bit RUN PAUSE_PLAY (Sim (D := no_device) s) = Ok true
  /\ cmd_bit RUN CONFIRM (Sim (D := no_device) s) = Ok true
  /\ exists c', pulse_cmd RUN STOP true (Sim (D := no_device) s) = (Ok tt, c')
                /\ cmd_bit RUN START c' = Ok false
                /\ cmd_bit RUN PAUSE_PLAY c' = Ok false
                /\ cmd_bit RUN CONFIRM c' = Ok false
                /\ cmd_bit RUN STOP c' = Ok true.
Proof.
  intros s.
  assert (Hok : sim_ok s).
  { apply sim_ok_set_db, Forall_app. split; [apply Forall_replicate; lia|].
    repeat constructor; lia. }
  assert (H0 : cmd_bit RUN START (Sim (D := no_device) s) = Ok true)
    by (vm_compute; reflexivity).
  assert (H1 : cmd_bit RUN PAUSE_PLAY (Sim (D := no_device) s) = Ok true)
    by (vm_compute; reflexivity).
  assert (H2 : cmd_bit RUN CONFIRM (Sim (D := no_device) s) = Ok true)
    by (vm_compute; reflexivity).
  repeat split; try assumption.
  exact (stop_cascade_clear RUN s Hok H0 H1 H2).
Defined.

Lemma sim_start_exclusive_step {D} (op : command) (s : _SimClient.t) :
  sim_ok s -> start_exclusive (Sim (D := D) s) ->
  exists s', run_command op (Sim (D := D) s) = (Ok tt, Sim s')
             /\ sim_ok s' /\ start_exclusive (Sim (D := D) s').
Proof.
  intros Hok Hex. destruct op as [mode cmd v|]; simpl.
  - destruct (sim_pulse_cmd (D := D) mode cmd v s Hok) as (s' & E & Hok' & Hm).
    exists s'. split; [exact E|]. split; [exact Hok'|].
    intros m1 m2. unfold start_exclusive, start_bit in *.
    specialize (Hex m1 m2). revert Hex.
    change "b_START" with (cmd_map START).
    fold (cmd_bit (D := D) m1 START (Sim s)) (cmd_bit (D := D) m2 START (Sim s)).
    fold (cmd_bit (D := D) m1 START (Sim s')) (cmd_bit (D := D) m2 START (Sim s')).
    rewrite !sim_cmd_bit. cbn [cmd_bit_offset].
    rewrite (Hm (mode_byte m1)), (Hm (mode_byte m2)).
    intros Hex [= H1] [= H2].
    apply pulse_mem_start in H1, H2.
    destruct H1 as [[Hv1 ->]|[Hv1 H1]], H2 as [[Hv2 ->]|[Hv2 H2]];
      try reflexivity; try congruence.
    apply Hex; f_equal; assumption.
  - destruct (sim_clear_all_cmd_bits (D := D) s Hok) as (s' & E & Hok' & Hm).
    exists s'. split; [exact E|]. split; [exact Hok'|].
    intros m1 m2. unfold start_bit.
    change "b_START" with (cmd_map START).
    fold (cmd_bit (D := D) m1 START (Sim s')).
    rewrite sim_cmd_bit, (Hm (mode_byte m1)), clear_all_mem_bit. discriminate.
Qed.

Lemma start_bit_sim {D} (mode : MachineMode) (s : _SimClient.t) :
  start_bit mode (Sim (D := D) s) = Ok (Z.testbit (sim_mem s (mode_byte mode)) 0).
Proof. exact (sim_cmd_bit mode START s). Qed.

(** C3.  On the simulator: Start set in one mode and then in another leaves
    the first mode's Start reading false and the second's reading true; and
    from a state with at most one Start bit set, every sequence of command
    operations returns and leaves at most one Start bit set. *)
Theorem start_exclusivity {D} :
  (forall (m1 m2 : MachineMode) (s : _SimClient.t),
      m1 <> m2 -> sim_ok s ->
      exists c', (pulse_cmd m1 START true;; pulse_cmd m2 START true) (Sim (D := D) s)
                 = (Ok tt, c')
                 /\ start_bit m1 c' = Ok false
                 /\ start_bit m2 c' = Ok true)
  /\ (forall (ops : list command) (s : _SimClient.t),
         sim_ok s -> start_exclusive (Sim (D := D) s) ->
         exists c', for_each ops run_command (Sim (D := D) s) = (Ok tt, c')
                    /\ start_exclusive c').
Proof.
  split.
  - intros m1 m2 s Hne Hok.
    destruct (sim_pulse_cmd (D := D) m1 START true s Hok) as (s1 & E1 & Hok1 & Hm1).
    destruct (sim_pulse_cmd (D := D) m2 START true s1 Hok1) as (s2 & E2 & Hok2 & Hm2).
    exists (Sim s2). rewrite bind_eq, E1, E2. split; [reflexivity|].
    rewrite !start_bit_sim, (Hm2 (mode_byte m1)), (Hm2 (mode_byte m2)).
    unfold pulse_mem.
    destruct m1, m2; try congruence.
    all: cbn [is_START is_STOP andb mode_byte cmd_bit_offset].
    all: repeat match goal with
                | |- context [other_modes ?m] =>
                    let r := eval vm_compute in (other_modes m) in
                    change (other_modes m) with r
                end.
    all: cbn [foldl mode_byte]; bit_norm; split; reflexivity.
  - intros ops. induction ops as [|op ops IH]; intros s Hok Hex.
    + exists (Sim s). split; [reflexivity | exact Hex].
    + destruct (sim_start_exclusive_step op s Hok Hex) as (s' & E & Hok' & Hex').
      destruct (IH s' Hok' Hex') as (c' & E' & Hc').
      exists c'. rewrite for_each_cons, E. split; assumption.
Qed.

Lemma start_exclusivity_witness :
  let s := _SimClient.connect (_SimClient.init false) in
  let ops := [PulseCmd RUN START true; PulseCmd CLEAN CONFIRM true;
              PulseCmd CLEAN START true; PulseCmd RUN STOP true; ClearAll;
              PulseCmd PRESSURE_TEST START true] in
  (RUN <> CLEAN /\ sim_ok s
   /\ exists c', (pulse_cmd RUN START true;; pulse_cmd CLEAN START true)
                   (Sim (D := no_device) s) = (Ok tt, c')
                 /\ start_bit RUN c' = Ok false
                 /\ start_bit CLEAN c' = Ok true)
  /\ (sim_ok s /\ start_exclusive (Sim (D := no_device) s)
      /\ exists c', for_each ops run_command (Sim (D := no_device) s) = (Ok tt, c')
                    /\ start_exclusive c').
Proof.
  intros s ops.
  assert (Hne : RUN <> CLEAN) by discriminate.
  assert (Hex : start_exclusive (Sim (D := no_device) s)).
  { intros m1 m2 H1. exfalso. destruct m1; vm_compute in H1; discriminate. }
  destruct (start_exclusivity (D := no_device)) as [Hpair Hseq].
  split.
  - split; [exact Hne|]. split; [exact sim_ok_new|].
    exact (Hpair RUN CLEAN s Hne sim_ok_new).
  - split; [exact sim_ok_new|]. split; [exact Hex|].
    exact (Hseq ops s sim_ok_new Hex).
Defined.

(** ** Typed tags on the simulator *)

Section SimTyped.
Context {D : Device}.

Lemma sim_db_write (start : nat) (data : list Z) (s : _SimClient.t) :
  exists s', db_write (D := D) 9 start data (Sim s) = (Ok tt, Sim s')
             /\ mem_eq (sim_mem s') (upd (sim_mem s) start data).
Proof.
  destruct (sim_db_write_ok start data s) as (s' & E & Hm).
  exists s'. unfold db_write, on_client. rewrite E. auto.
Qed.

Lemma sim_db_read (start size : nat) (s : _SimClient.t) :
  exists s', db_read (D := D) 9 start size (Sim s)
             = (Ok (span (sim_mem s) start size), Sim s')
             /\ mem_eq (sim_mem s') (sim_mem s).
Proof.
  destruct (sim_db_read_ok start size s) as (s' & E & Hm).
  exists s'. unfold db_read, on_client. rewrite E. auto.
Qed.

Lemma write_int_unfold (tag : string) (v : Z) (c : client D) :
  _write_int tag v c
  = match lookup_in ["OPERATION"; "INPUTS"] tag with
    | Raise e => (Raise e, c)
    | Ok cfg =>
        match pack_h v with
        | Raise e => (Raise e, c)
        | Ok data =>
            match as_index (cfg_start cfg) with
            | Raise e => (Raise e, c)
            | Ok start => db_write (cfg_db_number cfg) start data c
            end
        end
    end.
Proof.
  unfold _write_int. rewrite bind_eq. unfold lift at 1.
  destruct (lookup_in _ tag) as [cfg|e]; [|reflexivity].
  rewrite bind_eq. unfold lift at 1.
  destruct (pack_h v) as [data|e]; [|reflexivity].
  rewrite bind_eq. unfold lift at 1.
  destruct (as_index (cfg_start cfg)) as [start|e]; reflexivity.
Qed.

Lemma read_int_unfold (tag : string) (c : client D) :
  _read_int tag c
  = match lookup_in ["OPERATION"; "INPUTS"] tag with
    | Raise e => (Raise e, c)
    | Ok cfg =>
        match as_index (cfg_start cfg) with
        | Raise e => (Raise e, c)
        | Ok start =>
            match db_read (cfg_db_number cfg) start 2 c with
            | (Ok result, c') => (unpack_h result, c')
            | (Raise e, c') => (Raise e, c')
            end
        end
    end.
Proof.
  unfold _read_int. rewrite bind_eq. unfold lift at 1.
  destruct (lookup_in _ tag) as [cfg|e]; [|reflexivity].
  rewrite bind_eq. unfold lift at 1.
  destruct (as_index (cfg_start cfg)) as [start|e]; [|reflexivity].
  rewrite bind_eq. reflexivity.
Qed.

Lemma write_real_unfold (tag : string) (v : spec_float) (c : client D) :
  _write_real tag v c
  = match lookup_in ["OPERATION"; "INPUTS"; "CUSTOM_SOLVENT"] tag with
    | Raise e => (Raise e, c)
    | Ok cfg =>
        match pack_f v with
        | Raise e => (Raise e, c)
        | Ok data =>
            match as_index (cfg_start cfg) with
            | Raise e => (Raise e, c)
            | Ok start => db_write (cfg_db_number cfg) start data c
            end
        end
    end.
Proof.
  unfold _write_real. rewrite bind_eq. unfold lift at 1.
  destruct (lookup_in _ tag) as [cfg|e]; [|reflexivity].
  rewrite bind_eq. unfold lift at 1.
  destruct (pack_f v) as [data|e]; [|reflexivity].
  rewrite bind_eq. unfold lift at 1.
  destruct (as_index (cfg_start cfg)) as [start|e]; reflexivity.
Qed.

Lemma read_real_unfold (tag : string) (c : client D) :
  _read_real tag c
  = match lookup_in ["OPERATION"; "INPUTS"; "CUSTOM_SOLVENT"] tag with
    | Raise e => (Raise e, c)
    | Ok cfg =>
        match as_index (cfg_start cfg) with
        | Raise e => (Raise e, c)
        | Ok start =>
            match db_read (cfg_db_number cfg) start 4 c with
            | (Ok result, c') => (unpack_f result, c')
            | (Raise e, c') => (Raise e, c')
            end
        end
    end.
Proof.
  unfold _read_real. rewrite bind_eq. unfold lift at 1.
  destruct (lookup_in _ tag) as [cfg|e]; [|reflexivity].
  rewrite bind_eq. unfold lift at 1.
  destruct (as_index (cfg_start cfg)) as [start|e]; [|reflexivity].
  rewrite bind_eq. reflexivity.
Qed.
End SimTyped.

(** The tags of each declared kind. *)
Ltac tag_cases tag :=
  repeat match goal with
         | H : context [String.eqb tag ?x] |- _ =>
             destruct (String.eqb_spec tag x); [subst tag|]
         end.

Lemma declared_INT_cases (tag : string) :
  declared INT tag ->
  exists start, find_cfg ["OPERATION"; "INPUTS"] tag = Some (entry start INT)
                /\ In start [198; 200; 208; 218; 220; 222]%nat.
Proof.
  unfold declared. cbn. intros H. tag_cases tag.
  all: try discriminate H.
  all: eexists; split; [reflexivity | simpl; tauto].
Qed.

Lemma declared_REAL_cases (tag : string) :
  declared REAL tag ->
  exists start,
    find_cfg ["OPERATION"; "INPUTS"; "CUSTOM_SOLVENT"] tag = Some (entry start REAL)
    /\ In start [204; 210; 214; 242; 246; 250; 254]%nat.
Proof.
  unfold declared. cbn. intros H. tag_cases tag.
  all: try discriminate H.
  all: eexists; split; [reflexivity | simpl; tauto].
Qed.

(** ** [INT] round trip *)

Lemma length_be_bytes (n : nat) (z : Z) : length (be_bytes n z) = n.
Proof.
  revert z. induction n as [|n IH]; intros z; [reflexivity|].
  cbn [be_bytes]. rewrite length_app, IH. simpl. lia.
Qed.

Lemma pack_h_length (v : Z) (data : list Z) : pack_h v = Ok data -> length data = 2%nat.
Proof.
  unfold pack_h. destruct (_ && _); [|discriminate].
  intros [= <-]. reflexivity.
Qed.

Lemma unpack_pack_h (v : Z) (data : list Z) : pack_h v = Ok data -> unpack_h data = Ok v.
Proof.
  unfold pack_h.
  destruct (Z.leb_spec (-32768) v) as [Hlo|]; [|discriminate].
  destruct (Z.leb_spec v 32767) as [Hhi|]; [|discriminate].
  intros [= <-]. unfold unpack_h. cbn [be_bytes app length Nat.eqb be_value foldl].
  f_equal.
  destruct (Z.ltb_spec ((0 * 256 + (v mod 65536 / 256) mod 256) * 256
                        + v mod 65536 mod 256) 32768);
    Z.to_euclidean_division_equations; lia.
Qed.

Lemma pack_h_out_of_range (v : Z) :
  v < -32768 \/ 32767 < v -> pack_h v = Raise StructError.
Proof.
  intros H. unfold pack_h.
  destruct (Z.leb_spec (-32768) v), (Z.leb_spec v 32767); try reflexivity; lia.
Qed.

Lemma lookup_in_Some (sections : list string) (tag : string) (c : cfg) :
  find_cfg sections tag = Some c -> lookup_in sections tag = Ok c.
Proof. intros H. unfold lookup_in. rewrite H. reflexivity. Qed.

Section SimInt.
Context {D : Device}.

Lemma sim_write_int (tag : string) (v : Z) (s : _SimClient.t) (start : nat)
    (t : plc_type) (data : list Z) :
  find_cfg ["OPERATION"; "INPUTS"] tag = Some (entry start t) ->
  pack_h v = Ok data ->
  exists s', _write_int tag v (Sim (D := D) s) = (Ok tt, Sim s')
             /\ mem_eq (sim_mem s') (upd (sim_mem s) start data).
Proof.
  intros Hc Hp. rewrite write_int_unfold, (lookup_in_Some _ _ _ Hc), Hp.
  apply sim_db_write.
Qed.

Lemma sim_read_int (tag : string) (s : _SimClient.t) (start : nat) (t : plc_type) :
  find_cfg ["OPERATION"; "INPUTS"] tag = Some (entry start t) ->
  exists s', _read_int tag (Sim (D := D) s)
             = (unpack_h (span (sim_mem s) start 2), Sim s')
             /\ mem_eq (sim_mem s') (sim_mem s).
Proof.
  intros Hc. rewrite read_int_unfold, (lookup_in_Some _ _ _ Hc).
  destruct (sim_db_read (D := D) start 2 s) as (s' & E & Hm).
  exists s'. cbn [as_index entry cfg_start cfg_db_number]. rewrite E. auto.
Qed.

(** C8.  On the simulator, an integer of [-32768, 32767] written to an
    [INT] tag is read back as written.  On any link, an integer outside
    that range makes [_write_int] raise [struct.error] and leaves the link
    as it was: nothing is written. *)
Theorem int_round_trip (tag : string) (v : Z) :
  declared INT tag ->
  (-32768 <= v <= 32767 ->
   forall s, exists c',
     (_write_int tag v;; _read_int tag) (Sim (D := D) s) = (Ok v, c'))
  /\ (v < -32768 \/ 32767 < v ->
      forall c : client D, _write_int tag v c = (Raise StructError, c)).
Proof.
  intros Hdecl. destruct (declared_INT_cases tag Hdecl) as (start & Hc & _).
  split.
  - intros Hv s.
    assert (Hp : exists data, pack_h v = Ok data).
    { unfold pack_h.
      rewrite (proj2 (Z.leb_le (-32768) v)), (proj2 (Z.leb_le v 32767)) by lia.
      eexists. reflexivity. }
    destruct Hp as [data Hp].
    destruct (sim_write_int tag v s start INT data Hc Hp) as (s1 & E1 & Hm1).
    destruct (sim_read_int tag s1 start INT Hc) as (s2 & E2 & Hm2).
    exists (Sim s2). rewrite bind_eq, E1, E2. f_equal.
    rewrite (span_ext _ _ start 2 Hm1).
    rewrite <- (pack_h_length v data Hp), span_upd_same.
    apply unpack_pack_h. exact Hp.
  - intros Hv c.
    rewrite write_int_unfold, (lookup_in_Some _ _ _ Hc), pack_h_out_of_range by exact Hv.
    reflexivity.
Qed.
End SimInt.

Lemma int_round_trip_witness :
  declared INT "i_FRR"
  /\ (-32768 <= -5 <= 32767
      /\ exists c',
           (_write_int "i_FRR" (-5);; _read_int "i_FRR") (new_sim (D := no_device))
           = (Ok (-5), c'))
  /\ ((40000 < -32768 \/ 32767 < 40000)
      /\ _write_int "i_FRR" 40000 (new_sim (D := no_device))
         = (Raise StructError, new_sim)).
Proof.
  assert (Hd : declared INT "i_FRR") by reflexivity.
  destruct (int_round_trip (D := no_device) "i_FRR" (-5) Hd) as [Hin _].
  destruct (int_round_trip (D := no_device) "i_FRR" 40000 Hd) as [_ Hout].
  split; [exact Hd|]. split.
  - split; [lia|]. apply Hin. lia.
  - split; [lia|]. apply Hout. lia.
Defined.

(** ** [REAL] round trip *)

Lemma to_Q_finite (s : bool) (m : positive) (e : Z) :
  PyFloat.to_Q (S754_finite s m e) = dyadic (cond_Zopp s (Z.pos m)) e.
Proof. reflexivity. Qed.

Lemma two_neq_0 : ~ (2 == 0)%Q.
Proof. intros H. discriminate H. Qed.

Lemma dyadic_shift (z e n : Z) : 0 <= n -> (dyadic (z * 2 ^ n) e == dyadic z (e + n))%Q.
Proof.
  intros Hn. unfold dyadic.
  rewrite inject_Z_mult, Zpower_Qpower by exact Hn.
  rewrite (Qpower_plus 2 e n two_neq_0).
  change (inject_Z 2) with 2%Q. ring.
Qed.

Lemma dyadic_minus (a b e : Z) : (dyadic a e - dyadic b e == dyadic (a - b) e)%Q.
Proof.
  unfold dyadic, Z.sub. rewrite inject_Z_plus, inject_Z_opp. ring.
Qed.

Lemma dyadic_0 (e : Z) : (dyadic 0 e == 0)%Q.
Proof. unfold dyadic. change (inject_Z 0) with 0%Q. ring. Qed.

Lemma dyadic_opp (z e : Z) : (dyadic (- z) e == - dyadic z e)%Q.
Proof. unfold dyadic. rewrite inject_Z_opp. ring. Qed.

Lemma Qpower_2_pos (e : Z) : (0 < Qpower 2 e)%Q.
Proof. apply Qpower_0_lt. reflexivity. Qed.

Lemma dyadic_abs_le (z e k : Z) :
  0 <= k -> Z.abs z <= 2 ^ k -> (Qabs (dyadic z e) <= Qpower 2 (k + e))%Q.
Proof.
  intros Hk Hz. unfold dyadic.
  rewrite Qabs_Qmult, (Qabs_pos (Qpower 2 e)) by (apply Qlt_le_weak, Qpower_2_pos).
  rewrite (Qpower_plus 2 k e two_neq_0).
  apply Qmult_le_compat_r; [|apply Qlt_le_weak, Qpower_2_pos].
  rewrite <- (Zpower_Qpower 2 k Hk).
  change (Qabs (inject_Z z)) with (inject_Z (Z.abs z)).
  rewrite <- Zle_Qle. exact Hz.
Qed.

Lemma digits2_pos_bounds (p : positive) :
  2 ^ (Z.pos (digits2_pos p) - 1) <= Z.pos p < 2 ^ Z.pos (digits2_pos p).
Proof.
  induction p as [p IH|p IH|]; cbn [digits2_pos].
  - rewrite Pos2Z.inj_succ.
    replace (Z.succ (Z.pos (digits2_pos p)) - 1) with (Z.succ (Z.pos (digits2_pos p) - 1)) by lia.
    rewrite !Z.pow_succ_r by lia. lia.
  - rewrite Pos2Z.inj_succ.
    replace (Z.succ (Z.pos (digits2_pos p)) - 1) with (Z.succ (Z.pos (digits2_pos p) - 1)) by lia.
    rewrite !Z.pow_succ_r by lia. lia.
  - simpl. lia.
Qed.

Lemma round_half_even_error (m n : Z) :
  0 <= m -> 0 < n ->
  2 * Z.abs (round_half_even m n * 2 ^ n - m) <= 2 ^ n
  /\ m / 2 ^ n <= round_half_even m n <= m / 2 ^ n + 1.
Proof.
  intros Hm Hn. unfold round_half_even.
  assert (Hpow : 2 ^ n = 2 * 2 ^ (n - 1)).
  { replace n with (Z.succ (n - 1)) at 1 by lia. apply Z.pow_succ_r. lia. }
  assert (Hh : 0 < 2 ^ (n - 1)) by (apply Z.pow_pos_nonneg; lia).
  pose proof (Z.div_mod m (2 ^ n) ltac:(lia)) as Hdm.
  pose proof (Z.mod_pos_bound m (2 ^ n) ltac:(lia)) as Hr.
  set (q := m / 2 ^ n) in *. set (r := m mod 2 ^ n) in *.
  set (h := 2 ^ (n - 1)) in *.
  destruct (Z.compare_spec r h) as [Heq|Hlt|Hgt].
  - destruct (Z.even q); nia.
  - nia.
  - nia.
Qed.


Lemma single_exp_min (m : positive) (e : Z) : -149 <= single_exp m e.
Proof. unfold single_exp. lia. Qed.

Lemma pow2_split (a b : Z) : 0 <= a -> 0 <= b -> 2 ^ (a + b) = 2 ^ a * 2 ^ b.
Proof. intros Ha Hb. apply Z.pow_add_r; assumption. Qed.

(** The rounded mantissa fits 24 bits, up to the carry [2^24], and is
    normal as soon as the exponent is above the subnormal one. *)
Lemma single_mant_range (m : positive) (e : Z) :
  0 <= single_mant m e <= 2 ^ 24
  /\ (-149 < single_exp m e -> 2 ^ 23 <= single_mant m e).
Proof.
  pose proof (digits2_pos_bounds m) as Hd.
  unfold single_mant.
  set (t := single_exp m e).
  assert (Ht : t = Z.max (Z.pos (digits2_pos m) + e - 24) (-149)) by reflexivity.
  set (d := Z.pos (digits2_pos m)) in *.
  assert (Hd0 : 0 < d) by (unfold d; lia).
  destruct (Z.leb_spec t e) as [Hle|Hgt].
  - (* exact: shift left by e - t <= 24 - d *)
    assert (Hs : 0 <= e - t <= 24 - d) by lia.
    assert (Hup : Z.pos m * 2 ^ (e - t) < 2 ^ 24).
    { replace 24 with (d + (24 - d)) by lia.
      rewrite pow2_split by lia.
      assert (2 ^ (e - t) <= 2 ^ (24 - d)) by (apply Z.pow_le_mono_r; lia).
      assert (0 < 2 ^ (e - t)) by (apply Z.pow_pos_nonneg; lia).
      nia. }
    split.
    + split; [|lia]. apply Z.mul_nonneg_nonneg; [lia | apply Z.pow_nonneg; lia].
    + intros Hn. assert (He : e - t = 24 - d) by lia. rewrite He.
      replace 23 with ((d - 1) + (24 - d)) by lia.
      rewrite pow2_split by lia.
      assert (0 < 2 ^ (24 - d)) by (apply Z.pow_pos_nonneg; lia).
      nia.
  - (* rounded: shift right by n = t - e >= d - 24 *)
    set (n := t - e) in *.
    assert (Hn : 0 < n) by (unfold n; lia).
    destruct (round_half_even_error (Z.pos m) n ltac:(lia) Hn) as [_ [Hlo Hhi]].
    assert (Hpn : 0 < 2 ^ n) by (apply Z.pow_pos_nonneg; lia).
    assert (Hq0 : 0 <= Z.pos m / 2 ^ n) by (apply Z.div_pos; lia).
    assert (Hq : Z.pos m / 2 ^ n < 2 ^ 24).
    { apply Z.div_lt_upper_bound; [lia|].
      destruct (Z.le_gt_cases d n) as [Hdn|Hdn].
      - assert (2 ^ d <= 2 ^ n) by (apply Z.pow_le_mono_r; lia).
        assert (0 < 2 ^ 24) by (apply Z.pow_pos_nonneg; lia). nia.
      - assert (2 ^ d <= 2 ^ (n + 24)) by (apply Z.pow_le_mono_r; unfold n; lia).
        rewrite pow2_split in H by lia. lia. }
    split; [lia|].
    intros Hsub. assert (Hnd : n = d - 24) by (unfold n; lia).
    assert (2 ^ 23 <= Z.pos m / 2 ^ n); [|lia].
    apply Z.div_le_lower_bound; [lia|].
    replace (d - 1) with (n + 23) in Hd by lia.
    rewrite pow2_split in Hd by lia. lia.
Qed.

Lemma be_value_be_bytes_4 (x : Z) : 0 <= x < 2 ^ 32 -> be_value (be_bytes 4 x) = x.
Proof.
  intros Hx. change (2 ^ 32) with 4294967296 in Hx.
  cbn [be_bytes app be_value foldl].
  Z.to_euclidean_division_equations. lia.
Qed.

Lemma to_Q_double_of_single (s : bool) (p : positive) (t : Z) :
  Z.pos p <= 2 ^ 24 ->
  (PyFloat.to_Q (double_of_single s p t) == dyadic (cond_Zopp s (Z.pos p)) t)%Q.
Proof.
  intros Hp. unfold double_of_single. rewrite to_Q_finite.
  pose proof (digits2_pos_bounds p) as Hd.
  set (d := Z.pos (digits2_pos p)) in *.
  assert (Hd24 : d <= 25).
  { destruct (Z.le_gt_cases d 25) as [H|H]; [exact H|].
    assert (2 ^ 25 <= 2 ^ (d - 1)) by (apply Z.pow_le_mono_r; lia).
    change (2 ^ 25) with 33554432 in H0. change (2 ^ 24) with 16777216 in Hp. lia. }
  assert (Hsh : Z.pos (Pos.shiftl p (Z.to_N (53 - d))) = Z.pos p * 2 ^ (53 - d)).
  { change (Z.pos (Pos.shiftl p (Z.to_N (53 - d))))
      with (Z.of_N (N.shiftl (N.pos p) (Z.to_N (53 - d)))).
    rewrite N.shiftl_mul_pow2, N2Z.inj_mul, N2Z.inj_pow, Z2N.id by lia.
    reflexivity. }
  assert (Hc : cond_Zopp s (Z.pos (Pos.shiftl p (Z.to_N (53 - d))))
               = cond_Zopp s (Z.pos p) * 2 ^ (53 - d)).
  { rewrite Hsh. destruct s; simpl; lia. }
  rewrite Hc, dyadic_shift by lia.
  replace (t - (53 - d) + (53 - d)) with t by lia. reflexivity.
Qed.

Lemma cond_Zopp_0 (s : bool) : cond_Zopp s 0 = 0.
Proof. destruct s; reflexivity. Qed.

Lemma cond_Zopp_mul (s : bool) (a b : Z) : cond_Zopp s (a * b) = cond_Zopp s a * b.
Proof. destruct s; simpl; lia. Qed.

(** Decoding the four bytes [pack_f] produced for a finite double gives the
    rounded mantissa at the binary32 exponent. *)
Lemma unpack_pack_f_finite (s : bool) (m : positive) (e : Z) (data : list Z) :
  pack_f (S754_finite s m e) = Ok data ->
  length data = 4%nat
  /\ exists r, unpack_f data = Ok r
               /\ (PyFloat.to_Q r
                   == dyadic (cond_Zopp s (single_mant m e)) (single_exp m e))%Q.
Proof.
  cbn [pack_f]. unfold single_magnitude.
  pose proof (single_mant_range m e) as [[HM0 HM24] Hnorm].
  pose proof (single_exp_min m e) as Ht.
  set (M := single_mant m e) in *. set (t := single_exp m e) in *.
  change (2 ^ 23) with 8388608 in *. change (2 ^ 24) with 16777216 in *.
  destruct (Z.ltb_spec ((t + 149) * 8388608 + M) (255 * 8388608)) as [Hov|];
    [|discriminate].
  intros Hdata.
  assert (data = be_bytes 4 (sign_bit s + ((t + 149) * 8388608 + M))) as ->
    by congruence.
  clear Hdata. split; [apply length_be_bytes|].
  unfold unpack_f. rewrite length_be_bytes. cbn [Nat.eqb].
  assert (Hs : sign_bit s = 0 \/ sign_bit s = 2147483648) by (destruct s; auto).
  rewrite be_value_be_bytes_4
    by (change (2 ^ 32) with 4294967296; destruct Hs as [-> | ->]; lia).
  set (bits := sign_bit s + ((t + 149) * 8388608 + M)).
  change (2 ^ 31) with 2147483648. change (2 ^ 23) with 8388608.
  assert (Hsign : (2147483648 <=? bits) = s).
  { subst bits. destruct s; cbn [sign_bit];
      change (2 ^ 31) with 2147483648;
      [apply Z.leb_le | apply Z.leb_gt]; lia. }
  rewrite Hsign.
  destruct (Z.lt_ge_cases M 8388608) as [Hsub|Hnor].
  - (* subnormal: t = -149 and the bits are the mantissa *)
    assert (Ht' : t = -149) by lia.
    assert (Hb : (bits / 8388608) mod 256 = 0).
    { subst bits. destruct Hs as [-> | ->]; Z.to_euclidean_division_equations; lia. }
    assert (Hf : bits mod 8388608 = M).
    { subst bits. destruct Hs as [-> | ->]; Z.to_euclidean_division_equations; lia. }
    rewrite Hb, Hf. cbn [Z.eqb]. rewrite Ht'.
    destruct M as [|p|p] eqn:EM; [| |lia].
    + eexists. split; [reflexivity|]. rewrite cond_Zopp_0, dyadic_0. reflexivity.
    + eexists. split; [reflexivity|]. apply to_Q_double_of_single.
      change (2 ^ 24) with 16777216. lia.
  - destruct (Z.eq_dec M 16777216) as [Hcarry|Hnc].
    + (* the rounding carried into the next binade *)
      assert (Hb : (bits / 8388608) mod 256 = t + 151).
      { subst bits. destruct Hs as [-> | ->]; Z.to_euclidean_division_equations; lia. }
      assert (Hf : bits mod 8388608 = 0).
      { subst bits. destruct Hs as [-> | ->]; Z.to_euclidean_division_equations; lia. }
      rewrite Hb, Hf.
      rewrite (proj2 (Z.eqb_neq (t + 151) 255)) by lia.
      rewrite (proj2 (Z.eqb_neq (t + 151) 0)) by lia.
      eexists. split; [reflexivity|].
      change (8388608 + 0) with (Z.pos 8388608). cbv iota.
      rewrite to_Q_double_of_single by (change (2 ^ 24) with 16777216; lia).
      replace (t + 151 - 150) with (t + 1) by lia.
      rewrite <- dyadic_shift by lia.
      rewrite Hcarry. destruct s; reflexivity.
    + assert (Hb : (bits / 8388608) mod 256 = t + 150).
      { subst bits. destruct Hs as [-> | ->]; Z.to_euclidean_division_equations; lia. }
      assert (Hf : bits mod 8388608 = M - 8388608).
      { subst bits. destruct Hs as [-> | ->]; Z.to_euclidean_division_equations; lia. }
      rewrite Hb, Hf.
      rewrite (proj2 (Z.eqb_neq (t + 150) 255)) by lia.
      rewrite (proj2 (Z.eqb_neq (t + 150) 0)) by lia.
      replace (8388608 + (M - 8388608)) with M by lia.
      destruct M as [|p|p] eqn:EM; [lia| |lia].
      eexists. split; [reflexivity|].
      rewrite to_Q_double_of_single by (change (2 ^ 24) with 16777216; lia).
      replace (t + 150 - 150) with t by lia. reflexivity.
Qed.

Lemma round_half_even_exact (m n : Z) :
  0 < n -> m mod 2 ^ n = 0 -> round_half_even m n * 2 ^ n = m.
Proof.
  intros Hn Hr. unfold round_half_even. rewrite Hr.
  assert (Hh : 0 < 2 ^ (n - 1)) by (apply Z.pow_pos_nonneg; lia).
  destruct (Z.compare_spec 0 (2 ^ (n - 1))) as [H|H|H]; try lia.
  pose proof (Z.div_mod m (2 ^ n) ltac:(apply Z.pow_nonzero; lia)) as Hdm.
  lia.
Qed.

Lemma dyadic_pow2 (k e : Z) : 0 <= k -> (dyadic (2 ^ k) e == Qpower 2 (k + e))%Q.
Proof.
  intros Hk. unfold dyadic. rewrite (Zpower_Qpower 2 k Hk).
  rewrite (Qpower_plus 2 k e two_neq_0). reflexivity.
Qed.

Lemma dyadic_le (a b e : Z) : a <= b -> (dyadic a e <= dyadic b e)%Q.
Proof.
  intros H. unfold dyadic.
  apply Qmult_le_compat_r; [rewrite <- Zle_Qle; exact H|].
  apply Qlt_le_weak, Qpower_2_pos.
Qed.

Lemma dyadic_le_inv (a b e : Z) : (dyadic a e <= dyadic b e)%Q -> a <= b.
Proof.
  unfold dyadic. intros H.
  apply Qmult_le_r in H; [|apply Qpower_2_pos].
  rewrite <- Zle_Qle in H. exact H.
Qed.

Lemma Qabs_dyadic_cond (s : bool) (z e : Z) :
  (Qabs (dyadic (cond_Zopp s z) e) == Qabs (dyadic z e))%Q.
Proof.
  destruct s; [|reflexivity]. cbn [cond_Zopp].
  rewrite dyadic_opp. apply Qabs_opp.
Qed.

Lemma pow2_neg20 (k : Z) : k <= -20 -> (Qpower 2 k <= 1 # 1000000)%Q.
Proof.
  intros Hk. apply Qle_trans with (Qpower 2 (-20)).
  - apply Qpower_le_compat_l; [exact Hk | discriminate].
  - vm_compute. discriminate.
Qed.

(** Rounding a double of magnitude at most 32 to binary32 moves it by at
    most [2^-20], and leaves it well inside the binary32 range. *)
Lemma single_rounding_error (s : bool) (m : positive) (e : Z) :
  (dyadic (Z.pos m) e <= 32)%Q ->
  single_exp m e <= -18
  /\ (Qabs (dyadic (cond_Zopp s (single_mant m e)) (single_exp m e)
            - dyadic (cond_Zopp s (Z.pos m)) e) <= 1 # 1000000)%Q.
Proof.
  intros Hv.
  pose proof (digits2_pos_bounds m) as Hd.
  unfold single_mant, single_exp.
  set (d := Z.pos (digits2_pos m)) in *.
  assert (Hd0 : 0 < d) by (unfold d; lia).
  assert (Hde : d - 1 + e <= 5).
  { apply (Qpower_le_compat_l_inv 2); [|reflexivity].
    rewrite <- dyadic_pow2 by lia.
    apply Qle_trans with (dyadic (Z.pos m) e); [apply dyadic_le; lia | exact Hv]. }
  set (t := Z.max (d + e - 24) (-149)).
  split; [lia|].
  destruct (Z.leb_spec t e) as [Hle|Hgt].
  - (* nothing is rounded off *)
    rewrite cond_Zopp_mul, dyadic_shift by lia.
    replace (t + (e - t)) with e by lia.
    match goal with
    | |- (Qabs (?x - ?x) <= _)%Q =>
        assert (Hz : (x - x == 0)%Q) by ring; rewrite Hz
    end.
    vm_compute. discriminate.
  - set (n := t - e).
    assert (Hn : 0 < n) by (unfold n; lia).
    set (M := round_half_even (Z.pos m) n).
    assert (Hshift : (dyadic (cond_Zopp s M) t == dyadic (cond_Zopp s (M * 2 ^ n)) e)%Q).
    { rewrite cond_Zopp_mul, dyadic_shift by lia.
      replace (e + n) with t by (unfold n; lia). reflexivity. }
    rewrite Hshift, dyadic_minus.
    replace (cond_Zopp s (M * 2 ^ n) - cond_Zopp s (Z.pos m))
      with (cond_Zopp s (M * 2 ^ n - Z.pos m)) by (destruct s; simpl; lia).
    rewrite Qabs_dyadic_cond.
    destruct (Z.eq_dec (d + e) 6) as [H6|H6].
    + (* the value is 32 itself: a power of two, rounded exactly *)
      assert (Hm : Z.pos m = 2 ^ (d - 1)).
      { apply Z.le_antisymm; [|lia].
        apply (dyadic_le_inv _ _ e). rewrite dyadic_pow2 by lia.
        replace (d - 1 + e) with 5 by lia. exact Hv. }
      assert (Hnd : n = d - 24) by (unfold n, t; lia).
      assert (Hex : M * 2 ^ n = Z.pos m).
      { apply round_half_even_exact; [exact Hn|].
        rewrite Hm. replace (d - 1) with ((d - 1 - n) + n) by lia.
        rewrite pow2_split by lia. apply Z.mod_mul.
        apply Z.pow_nonzero; lia. }
      rewrite Hex, Z.sub_diag, dyadic_0. vm_compute. discriminate.
    + destruct (round_half_even_error (Z.pos m) n ltac:(lia) Hn) as [Herr _].
      fold M in Herr.
      assert (Hpow : 2 ^ n = 2 * 2 ^ (n - 1)).
      { replace n with (Z.succ (n - 1)) at 1 by lia. apply Z.pow_succ_r. lia. }
      apply Qle_trans with (Qpower 2 (n - 1 + e)).
      * apply dyadic_abs_le; lia.
      * apply pow2_neg20. unfold n, t. lia.
Qed.

Section SimReal.
Context {D : Device}.

Lemma sim_write_real (tag : string) (v : spec_float) (s : _SimClient.t) (start : nat)
    (t : plc_type) (data : list Z) :
  find_cfg ["OPERATION"; "INPUTS"; "CUSTOM_SOLVENT"] tag = Some (entry start t) ->
  pack_f v = Ok data ->
  exists s', _write_real tag v (Sim (D := D) s) = (Ok tt, Sim s')
             /\ mem_eq (sim_mem s') (upd (sim_mem s) start data).
Proof.
  intros Hc Hp. rewrite write_real_unfold, (lookup_in_Some _ _ _ Hc), Hp.
  apply sim_db_write.
Qed.

Lemma sim_read_real (tag : string) (s : _SimClient.t) (start : nat) (t : plc_type) :
  find_cfg ["OPERATION"; "INPUTS"; "CUSTOM_SOLVENT"] tag = Some (entry start t) ->
  exists s', _read_real tag (Sim (D := D) s)
             = (unpack_f (span (sim_mem s) start 4), Sim s')
             /\ mem_eq (sim_mem s') (sim_mem s).
Proof.
  intros Hc. rewrite read_real_unfold, (lookup_in_Some _ _ _ Hc).
  destruct (sim_db_read (D := D) start 4 s) as (s' & E & Hm).
  exists s'. cbn [as_index entry cfg_start cfg_db_number]. rewrite E. auto.
Qed.

(** Writing a [REAL] tag and reading it back decodes the bytes that were
    packed. *)
Lemma sim_real_round_trip (tag : string) (v : spec_float) (s : _SimClient.t)
    (data : list Z) :
  declared REAL tag -> pack_f v = Ok data -> length data = 4%nat ->
  exists s', (_write_real tag v;; _read_real tag) (Sim (D := D) s)
             = (unpack_f data, Sim s').
Proof.
  intros Hdecl Hp Hlen.
  destruct (declared_REAL_cases tag Hdecl) as (start & Hc & _).
  destruct (sim_write_real tag v s start REAL data Hc Hp) as (s1 & E1 & Hm1).
  destruct (sim_read_real tag s1 start REAL Hc) as (s2 & E2 & Hm2).
  exists s2. rewrite bind_eq, E1, E2. f_equal.
  rewrite (span_ext _ _ start 4 Hm1), <- Hlen, span_upd_same. reflexivity.
Qed.

(** C9, amended.  On the simulator, a finite value of [-32, 32] written to
    a [REAL] tag is read back within [1e-6] of what was written. *)
Theorem real_round_trip_within_32 (tag : string) (v : spec_float) (s : _SimClient.t) :
  declared REAL tag ->
  PyFloat.is_finite v = true ->
  (- (32) <= PyFloat.to_Q v)%Q -> (PyFloat.to_Q v <= 32)%Q ->
  exists r c',
    (_write_real tag v;; _read_real tag) (Sim (D := D) s) = (Ok r, c')
    /\ (Qabs (PyFloat.to_Q r - PyFloat.to_Q v) <= 1 # 1000000)%Q.
Proof.
  intros Hdecl Hfin Hlo Hhi.
  destruct v as [sg|sg| |sg m e]; try discriminate Hfin.
  - (* a zero *)
    destruct (sim_real_round_trip tag (S754_zero sg) s (be_bytes 4 (sign_bit sg)) Hdecl)
      as (s' & E); [reflexivity | apply length_be_bytes|].
    exists (S754_zero sg), (Sim s'). split.
    + rewrite E. destruct sg; reflexivity.
    + vm_compute. discriminate.
  - assert (Hmag : (dyadic (Z.pos m) e <= 32)%Q).
    { rewrite to_Q_finite in Hlo, Hhi. destruct sg; cbn [cond_Zopp] in *.
      - rewrite dyadic_opp in Hlo. apply Qopp_le_compat in Hlo.
        rewrite !Qopp_involutive in Hlo. exact Hlo.
      - exact Hhi. }
    destruct (single_rounding_error sg m e Hmag) as [Ht Herr].
    pose proof (single_mant_range m e) as [[_ HM] _].
    assert (Hp : exists data, pack_f (S754_finite sg m e) = Ok data).
    { cbn [pack_f]. unfold single_magnitude.
      change (2 ^ 23) with 8388608. change (2 ^ 24) with 16777216 in HM.
      rewrite (proj2 (Z.ltb_lt _ _)) by lia. eexists. reflexivity. }
    destruct Hp as [data Hp].
    destruct (unpack_pack_f_finite sg m e data Hp) as (Hlen & r & Hr & Hq).
    destruct (sim_real_round_trip tag _ s data Hdecl Hp Hlen) as (s' & E).
    exists r, (Sim s'). split.
    + rewrite E, Hr. reflexivity.
    + rewrite Hq, to_Q_finite. exact Herr.
Qed.
End SimReal.

Lemma real_round_trip_within_32_witness :
  declared REAL "r_TFR"
  /\ PyFloat.is_finite (PyFloat.dec 123 2) = true
  /\ (- (32) <= PyFloat.to_Q (PyFloat.dec 123 2))%Q
  /\ (PyFloat.to_Q (PyFloat.dec 123 2) <= 32)%Q
  /\ exists r c',
       (_write_real "r_TFR" (PyFloat.dec 123 2);; _read_real "r_TFR")
         (new_sim (D := no_device)) = (Ok r, c')
       /\ (Qabs (PyFloat.to_Q r - PyFloat.to_Q (PyFloat.dec 123 2)) <= 1 # 1000000)%Q.
Proof.
  assert (H1 : declared REAL "r_TFR") by reflexivity.
  assert (H2 : PyFloat.is_finite (PyFloat.dec 123 2) = true) by reflexivity.
  assert (H3 : (- (32) <= PyFloat.to_Q (PyFloat.dec 123 2))%Q)
    by (vm_compute; discriminate).
  assert (H4 : (PyFloat.to_Q (PyFloat.dec 123 2) <= 32)%Q)
    by (vm_compute; discriminate).
  repeat split; try assumption.
  exact (real_round_trip_within_32 (D := no_device) "r_TFR" (PyFloat.dec 123 2)
           (_SimClient.connect (_SimClient.init false)) H1 H2 H3 H4).
Defined.

(** C9 as stated fails: 100.1 lies in [-1e6, 1e6], and on a new simulator
    it is read back from [r_TFR] more than [1e-6] away, binary32 keeping
    24 bits of it. *)
Lemma real_round_trip_counterexample :
  declared REAL "r_TFR"
  /\ PyFloat.is_finite (PyFloat.dec 1001 1) = true
  /\ (- (1000000) <= PyFloat.to_Q (PyFloat.dec 1001 1))%Q
  /\ (PyFloat.to_Q (PyFloat.dec 1001 1) <= 1000000)%Q
  /\ exists r,
       fst ((_write_real "r_TFR" (PyFloat.dec 1001 1);; _read_real "r_TFR")
              (new_sim (D := no_device))) = Ok r
       /\ ~ (Qabs (PyFloat.to_Q r - PyFloat.to_Q (PyFloat.dec 1001 1))
             <= 1 # 1000000)%Q.
Proof.
  split; [reflexivity|]. split; [reflexivity|].
  split; [vm_compute; discriminate|]. split; [vm_compute; discriminate|].
  eexists. split; [vm_compute; reflexivity|].
  vm_compute. intros H. apply H. reflexivity.
Qed.

(** ** Reads on any memory-like link *)

Lemma rd_int_ext (m m' : nat -> Z) (start : nat) :
  mem_eq m m' -> rd_int m start = rd_int m' start.
Proof. intros H. unfold rd_int. rewrite (span_ext m m' _ _ H). reflexivity. Qed.

Lemma rd_real_ext (m m' : nat -> Z) (start : nat) :
  mem_eq m m' -> rd_real m start = rd_real m' start.
Proof. intros H. unfold rd_real. rewrite (span_ext m m' _ _ H). reflexivity. Qed.

Lemma rd_string_ext (m m' : nat -> Z) (start : nat) :
  mem_eq m m' -> rd_string m start = rd_string m' start.
Proof.
  intros H. unfold rd_string. rewrite (H (start + 1)%nat).
  rewrite (span_ext m m' _ _ H). reflexivity.
Qed.

Lemma same_kind_refl {D} (c : client D) : same_kind c c.
Proof. destruct c; exact I. Qed.

Lemma same_kind_trans {D} (c1 c2 c3 : client D) :
  same_kind c1 c2 -> same_kind c2 c3 -> same_kind c1 c3.
Proof. destruct c1, c2, c3; simpl; tauto. Qed.

Lemma good_client_same_kind {D} (dpeek : dev D -> nat -> Z) (c c' : client D) :
  same_kind c c' -> good_client dpeek c -> good_client dpeek c'.
Proof. destruct c, c'; simpl; tauto. Qed.

Section Reads.
Context {D : Device} (dpeek : dev D -> nat -> Z).

Lemma client_db_read (c : client D) (start size : nat) :
  good_client dpeek c ->
  exists c', db_read 9 start size c = (Ok (span (cmem dpeek c) start size), c')
             /\ same_kind c c' /\ mem_eq (cmem dpeek c') (cmem dpeek c).
Proof.
  intros Hg. destruct c as [s|d].
  - destruct (sim_db_read (D := D) start size s) as (s' & E & Hm).
    exists (Sim s'). simpl. auto.
  - destruct (ml_read D dpeek Hg 9 start size d) as [E Hm].
    exists (Snap7 (snd (dev_db_read D 9 start size d))).
    unfold db_read, on_client.
    destruct (dev_db_read D 9 start size d) as [r d'] eqn:Er.
    simpl in E, Hm. subst r. simpl. auto.
Qed.

Lemma client_read_int (c : client D) (tag : string) (start : nat) (t : plc_type) :
  good_client dpeek c ->
  find_cfg ["OPERATION"; "INPUTS"] tag = Some (entry start t) ->
  exists c', _read_int tag c = (rd_int (cmem dpeek c) start, c')
             /\ same_kind c c' /\ mem_eq (cmem dpeek c') (cmem dpeek c).
Proof.
  intros Hg Hc. rewrite read_int_unfold, (lookup_in_Some _ _ _ Hc).
  destruct (client_db_read c start 2 Hg) as (c' & E & Hk & Hm).
  exists c'. cbn [as_index entry cfg_start cfg_db_number]. rewrite E. auto.
Qed.

Lemma client_read_real (c : client D) (tag : string) (start : nat) (t : plc_type) :
  good_client dpeek c ->
  find_cfg ["OPERATION"; "INPUTS"; "CUSTOM_SOLVENT"] tag = Some (entry start t) ->
  exists c', _read_real tag c = (rd_real (cmem dpeek c) start, c')
             /\ same_kind c c' /\ mem_eq (cmem dpeek c') (cmem dpeek c).
Proof.
  intros Hg Hc. rewrite read_real_unfold, (lookup_in_Some _ _ _ Hc).
  destruct (client_db_read c start 4 Hg) as (c' & E & Hk & Hm).
  exists c'. cbn [as_index entry cfg_start cfg_db_number]. rewrite E. auto.
Qed.

Lemma client_read_bool (c : client D) (tag : string) (byte : nat) (bit : Z) :
  good_client dpeek c ->
  bool_target tag = Ok (9, byte, bit) -> 0 <= bit ->
  exists c', _read_bool tag c = (Ok (Z.testbit (cmem dpeek c byte) bit), c')
             /\ same_kind c c' /\ mem_eq (cmem dpeek c') (cmem dpeek c).
Proof.
  intros Hg Ht Hbit. destruct c as [s|d].
  - destruct (sim_read_bool (D := D) tag s byte bit Ht Hbit) as (s' & E & Hm & _).
    exists (Sim s'). simpl. auto.
  - rewrite read_bool_unfold, Ht.
    destruct (client_db_read (Snap7 d) byte 1 Hg) as (c' & E & Hk & Hm).
    exists c'. rewrite bind_eq, E. cbn [span seq fmap list_fmap].
    rewrite bind_eq. unfold lift, shift_one.
    rewrite (proj2 (Z.ltb_ge bit 0)) by exact Hbit.
    rewrite ret_eq. fold (get_bit (cmem dpeek (Snap7 d) byte) bit).
    rewrite get_bit_testbit by exact Hbit. auto.
Qed.

Lemma string_cfg :
  dict_get "INPUTS" DB_CONFIG ≫= dict_get "s_CUSTOM_ORG_SOLVENT"
  = Some {| cfg_db_number := 9; cfg_start := PInt 224; cfg_type := STRING;
            cfg_length := Some 16 |}.
Proof. reflexivity. Qed.

Lemma client_read_string (c : client D) :
  good_client dpeek c ->
  exists c', _read_string "s_CUSTOM_ORG_SOLVENT" c = (rd_string (cmem dpeek c) 224, c')
             /\ same_kind c c' /\ mem_eq (cmem dpeek c') (cmem dpeek c).
Proof.
  intros Hg. unfold _read_string. rewrite string_cfg.
  cbn [cfg_type cfg_start cfg_db_number as_index].
  rewrite bind_eq. unfold lift at 1. rewrite bind_eq.
  destruct (client_db_read c 224 2 Hg) as (c1 & E1 & Hk1 & Hm1).
  rewrite E1. cbn [span seq fmap list_fmap]. unfold rd_string.
  change (224 + 1)%nat with 225%nat. change (224 + 2)%nat with 226%nat.
  destruct (Z.ltb_spec 0 (cmem dpeek c 225)) as [Hpos|Hnp].
  - rewrite bind_eq.
    destruct (client_db_read c1 226 (Z.to_nat (cmem dpeek c 225))
                (good_client_same_kind dpeek c c1 Hk1 Hg)) as (c2 & E2 & Hk2 & Hm2).
    rewrite E2. rewrite (span_ext _ _ _ _ Hm1).
    exists c2. split.
    + destruct (utf8_decode _); reflexivity.
    + split; [exact (same_kind_trans _ _ _ Hk1 Hk2)|].
      etransitivity; eassumption.
  - exists c1. auto.
Qed.
End Reads.

(** ** The client stays the client *)

Section Kind.
Context {D : Device}.

Lemma on_client_kind {A} (sim : M _SimClient.t A) (drv : M (dev D) A) (c : client D) :
  same_kind c (snd (on_client sim drv c)).
Proof.
  destruct c as [s|d]; unfold on_client.
  - destruct (sim s); exact I.
  - destruct (drv d); exact I.
Qed.

Lemma keeps_kind_bind {A B} (m : M (client D) A) (k : A -> M (client D) B) :
  keeps_kind (D := D) m -> (forall a, keeps_kind (D := D) (k a)) -> keeps_kind (D := D) (m ≫= k).
Proof.
  intros Hm Hk c. rewrite bind_eq. specialize (Hm c).
  destruct (m c) as [[a|e] c1]; simpl in *; [|exact Hm].
  exact (same_kind_trans _ _ _ Hm (Hk a c1)).
Qed.

Lemma keeps_kind_ret {A} (a : A) : keeps_kind (D := D) (mret a).
Proof. intros c. apply same_kind_refl. Qed.

Lemma keeps_kind_raise {A} (e : exn) : keeps_kind (D := D) (raise (A := A) e).
Proof. intros c. apply same_kind_refl. Qed.

Lemma keeps_kind_lift {A} (r : result A) : keeps_kind (D := D) (lift r).
Proof. intros c. apply same_kind_refl. Qed.

Lemma keeps_kind_db_read (db_number : Z) (start size : nat) :
  keeps_kind (D := D) (db_read db_number start size).
Proof. intros c. apply on_client_kind. Qed.

Lemma keeps_kind_db_write (db_number : Z) (start : nat) (data : list Z) :
  keeps_kind (D := D) (db_write db_number start data).
Proof. intros c. apply on_client_kind. Qed.

Lemma keeps_kind_on_sim {A} (sim : M _SimClient.t A) : keeps_kind (D := D) (on_sim sim).
Proof. intros c. apply on_client_kind. Qed.

Lemma keeps_kind_is_sim : keeps_kind (D := D) is_sim.
Proof. intros c. apply same_kind_refl. Qed.

Ltac kind :=
  repeat first
    [ apply keeps_kind_ret
    | apply keeps_kind_raise
    | apply keeps_kind_lift
    | apply keeps_kind_db_read
    | apply keeps_kind_db_write
    | apply keeps_kind_on_sim
    | apply keeps_kind_is_sim
    | apply keeps_kind_bind; [|intros ?]
    | match goal with
      | |- keeps_kind (match ?x with _ => _ end) => destruct x
      | |- keeps_kind (let '(_, _) := ?x in _) => destruct x
      end ].

Lemma keeps_kind_write_real (tag : string) (v : spec_float) :
  keeps_kind (D := D) (_write_real tag v).
Proof. unfold _write_real. kind. Qed.

Lemma keeps_kind_read_real (tag : string) : keeps_kind (D := D) (_read_real tag).
Proof. unfold _read_real. kind. Qed.

Lemma keeps_kind_write_int (tag : string) (v : Z) : keeps_kind (D := D) (_write_int tag v).
Proof. unfold _write_int. kind. Qed.

Lemma keeps_kind_read_int (tag : string) : keeps_kind (D := D) (_read_int tag).
Proof. unfold _read_int. kind. Qed.

Lemma keeps_kind_write_bool (tag : string) (v : bool) : keeps_kind (D := D) (_write_bool tag v).
Proof. unfold _write_bool. kind. Qed.

Lemma keeps_kind_read_bool (tag : string) : keeps_kind (D := D) (_read_bool tag).
Proof. unfold _read_bool. kind. Qed.

Lemma keeps_kind_write_string (tag : string) (v : pystr) (max_len : Z) :
  keeps_kind (D := D) (_write_string tag v max_len).
Proof. unfold _write_string. kind. Qed.

Lemma keeps_kind_read_string (tag : string) : keeps_kind (D := D) (_read_string tag).
Proof. unfold _read_string. kind. Qed.

Lemma keeps_kind_for_each {A} (xs : list A) (body : A -> M (client D) unit) :
  (forall x, keeps_kind (D := D) (body x)) -> keeps_kind (D := D) (for_each xs body).
Proof.
  intros H. induction xs as [|x xs IH].
  - apply keeps_kind_ret.
  - cbn [for_each]. apply keeps_kind_bind; [apply H | intros _; exact IH].
Qed.

Lemma keeps_kind_execute_write (w : write) : keeps_kind (D := D) (execute_write w).
Proof.
  destruct w; cbn [execute_write];
    auto using keeps_kind_write_real, keeps_kind_write_int, keeps_kind_write_bool,
               keeps_kind_write_string.
Qed.

Lemma keeps_kind_verify_write (w : write) : keeps_kind (D := D) (verify_write w).
Proof.
  destruct w; cbn [verify_write]; apply keeps_kind_bind;
    auto using keeps_kind_read_real, keeps_kind_read_int, keeps_kind_read_bool,
               keeps_kind_read_string, keeps_kind_ret.
Qed.

Lemma keeps_kind_verify_writes (ws : list write) : keeps_kind (D := D) (verify_writes ws).
Proof.
  induction ws as [|w ws IH]; cbn [verify_writes].
  - apply keeps_kind_ret.
  - apply keeps_kind_bind; [apply keeps_kind_verify_write|]. intros errs.
    apply keeps_kind_bind; [exact IH|]. intros rest. apply keeps_kind_ret.
Qed.

Lemma keeps_kind_write_and_verify (ws : list write) : keeps_kind (D := D) (write_and_verify ws).
Proof.
  unfold write_and_verify.
  apply keeps_kind_bind; [apply keeps_kind_for_each, keeps_kind_execute_write|].
  intros _. apply keeps_kind_bind; [apply keeps_kind_verify_writes|].
  intros [|e errs]; [apply keeps_kind_ret | apply keeps_kind_raise].
Qed.
End Kind.

(** ** The tags of each declared kind, continued *)

Lemma dict_get_elem {A} (k : string) (d : list (string * A)) (v : A) :
  dict_get k d = Some v -> (k, v) ∈ d.
Proof.
  induction d as [|[k' v'] d IH]; cbn [dict_get]; [discriminate|].
  destruct (String.eqb_spec k k') as [->|Hne].
  - intros [= ->]. apply list_elem_of_here.
  - intros H. apply list_elem_of_further, IH, H.
Qed.

Lemma section_get_entry (section tag : string) (c : cfg) :
  dict_get section DB_CONFIG ≫= dict_get tag = Some c -> c ∈ all_entries.
Proof.
  destruct (dict_get section DB_CONFIG) as [d|] eqn:Hd; [|discriminate].
  cbn [mbind option_bind]. intros Hc.
  apply dict_get_elem in Hd, Hc. unfold all_entries.
  apply list_elem_of_bind. exists (section, d). split; [|exact Hd].
  apply list_elem_of_fmap. exists (tag, c). auto.
Qed.

Lemma find_cfg_entry (sections : list string) (tag : string) (c : cfg) :
  find_cfg sections tag = Some c -> c ∈ all_entries.
Proof.
  induction sections as [|s sections IH]; cbn [find_cfg]; [discriminate|].
  destruct (dict_get s DB_CONFIG ≫= dict_get tag) as [c'|] eqn:Hc.
  - intros [= <-]. exact (section_get_entry _ _ _ Hc).
  - exact IH.
Qed.

Lemma bool_cfg_entry (tag : string) (c : cfg) : bool_cfg tag = Ok c -> c ∈ all_entries.
Proof.
  unfold bool_cfg, lookup_in.
  destruct (split_dot "" tag) as [|x [|y [|z l]]]; try discriminate.
  - destruct (find_cfg _ tag) as [c'|] eqn:Hc; [|discriminate].
    intros [= <-]. exact (find_cfg_entry _ _ _ Hc).
  - destruct (dict_get x DB_CONFIG ≫= dict_get y) as [c'|] eqn:Hc; [|discriminate].
    intros [= <-]. exact (section_get_entry _ _ _ Hc).
Qed.

Lemma all_entries_bool_ok (c : cfg) : c ∈ all_entries -> bool_entry_ok c = true.
Proof.
  assert (H : forallb bool_entry_ok all_entries = true) by (vm_compute; reflexivity).
  intros Hc. apply list_elem_of_In in Hc.
  exact (proj1 (forallb_forall _ _) H c Hc).
Qed.

Lemma declared_BOOL_target (tag : string) :
  declared BOOL tag ->
  exists byte bit, bool_target tag = Ok (9, byte, bit) /\ 0 <= bit < 8
                   /\ byte ∈ [202; 258; 260; 262]%nat.
Proof.
  unfold declared, bool_target.
  destruct (bool_cfg tag) as [c|e] eqn:Hc; [|tauto].
  intros Ht. apply bool_cfg_entry in Hc.
  pose proof (all_entries_bool_ok c Hc) as Hok.
  unfold bool_entry_ok in Hok. rewrite Ht in Hok.
  destruct (bit_address c) as [[byte bit]|e]; [|discriminate].
  apply andb_prop in Hok as [Hok Hin]. apply andb_prop in Hok as [Hok Hhi].
  apply andb_prop in Hok as [Hdb Hlo].
  apply Z.eqb_eq in Hdb. apply Z.leb_le in Hlo. apply Z.ltb_lt in Hhi.
  apply bool_decide_eq_true_1 in Hin.
  exists byte, bit. rewrite Hdb. auto.
Qed.

Lemma declared_STRING_tag (tag : string) :
  declared STRING tag -> tag = "s_CUSTOM_ORG_SOLVENT".
Proof.
  unfold declared. cbn. intros H. tag_cases tag; try discriminate H. reflexivity.
Qed.

(** ** Verification only reads *)

Section Verify.
Context {D : Device} (dpeek : dev D -> nat -> Z).

Lemma verify_string_mem (c : client D) (value : pystr) (max_len : Z) :
  good_client dpeek c ->
  exists c',
    verify_write (W_STRING "s_CUSTOM_ORG_SOLVENT" value max_len) c
    = (match rd_string (cmem dpeek c) 224 with
       | Ok actual =>
           Ok (if bool_decide (actual ≠ value)
               then [VerificationFailed "s_CUSTOM_ORG_SOLVENT" (VStr value) (VStr actual)]
               else [])
       | Raise e => Raise e
       end, c')
    /\ same_kind c c' /\ mem_eq (cmem dpeek c') (cmem dpeek c).
Proof.
  intros Hg. destruct (client_read_string dpeek c Hg) as (c' & E & Hk & Hm).
  exists c'. cbn [verify_write]. rewrite bind_eq, E.
  destruct (rd_string (cmem dpeek c) 224); auto.
Qed.

Lemma verify_write_mem (w : write) (c : client D) :
  good_client dpeek c -> well_typed w ->
  mem_eq (cmem dpeek (snd (verify_write w c))) (cmem dpeek c).
Proof.
  intros Hg Hw. destruct w as [tag v|tag v|tag v|tag v max_len]; cbn [well_typed] in Hw.
  - destruct (declared_REAL_cases tag Hw) as (start & Hc & _).
    destruct (client_read_real dpeek c tag start REAL Hg Hc) as (c' & E & _ & Hm).
    cbn [verify_write]. rewrite bind_eq, E.
    destruct (rd_real (cmem dpeek c) start); exact Hm.
  - destruct (declared_INT_cases tag Hw) as (start & Hc & _).
    destruct (client_read_int dpeek c tag start INT Hg Hc) as (c' & E & _ & Hm).
    cbn [verify_write]. rewrite bind_eq, E.
    destruct (rd_int (cmem dpeek c) start); exact Hm.
  - destruct (declared_BOOL_target tag Hw) as (byte & bit & Ht & Hbit & _).
    destruct (client_read_bool dpeek c tag byte bit Hg Ht ltac:(lia)) as (c' & E & _ & Hm).
    cbn [verify_write]. rewrite bind_eq, E. exact Hm.
  - destruct Hw as [Hw _]. apply declared_STRING_tag in Hw. subst tag.
    destruct (verify_string_mem c v max_len Hg) as (c' & E & _ & Hm).
    rewrite E. exact Hm.
Qed.

Lemma verify_writes_mem (ws : list write) (c : client D) :
  good_client dpeek c -> Forall well_typed ws ->
  mem_eq (cmem dpeek (snd (verify_writes ws c))) (cmem dpeek c).
Proof.
  revert c. induction ws as [|w ws IH]; intros c Hg Hws; [reflexivity|].
  apply Forall_cons in Hws as [Hw Hws].
  cbn [verify_writes]. rewrite bind_eq.
  pose proof (verify_write_mem w c Hg Hw) as Hm.
  pose proof (keeps_kind_verify_write w c) as Hk.
  destruct (verify_write w c) as [[errs|e] c1]; cbn [snd] in *; [|exact Hm].
  rewrite bind_eq.
  pose proof (IH c1 (good_client_same_kind dpeek _ _ Hk Hg) Hws) as Hm'.
  destruct (verify_writes ws c1) as [[rest|e] c2]; cbn [snd] in *;
    etransitivity; eassumption.
Qed.

(** When the whole verification reports nothing, so does the verification
    of each write, made on the memory the verification started from. *)
Lemma verify_writes_nil_inv (ws1 ws2 : list write) (w : write) (c c' : client D) :
  good_client dpeek c -> Forall well_typed ws1 ->
  verify_writes (ws1 ++ w :: ws2) c = (Ok [], c') ->
  exists c1, same_kind c c1 /\ mem_eq (cmem dpeek c1) (cmem dpeek c)
             /\ fst (verify_write w c1) = Ok [].
Proof.
  revert c c'. induction ws1 as [|w1 ws1 IH]; intros c c' Hg Hws.
  - cbn [app verify_writes]. rewrite bind_eq.
    destruct (verify_write w c) as [[errs|e] c1] eqn:E; [|discriminate].
    rewrite bind_eq.
    destruct (verify_writes ws2 c1) as [[rest|e] c2]; [|discriminate].
    rewrite ret_eq. intros [= Herr _].
    apply app_eq_nil in Herr as [-> _].
    exists c. split; [apply same_kind_refl|]. split; [reflexivity|].
    rewrite E. reflexivity.
  - apply Forall_cons in Hws as [Hw1 Hws].
    cbn [app verify_writes]. rewrite bind_eq.
    pose proof (verify_write_mem w1 c Hg Hw1) as Hm.
    pose proof (keeps_kind_verify_write w1 c) as Hk.
    destruct (verify_write w1 c) as [[errs|e] c1]; cbn [snd] in *; [|discriminate].
    rewrite bind_eq.
    destruct (verify_writes (ws1 ++ w :: ws2) c1) as [[rest|e] c2] eqn:E;
      [|discriminate].
    rewrite ret_eq. intros [= Herr _].
    apply app_eq_nil in Herr as [_ ->].
    destruct (IH c1 c2 (good_client_same_kind dpeek _ _ Hk Hg) Hws) as (c3 & Hk3 & Hm3 & Hv).
    { rewrite E. reflexivity. }
    exists c3. split; [exact (same_kind_trans _ _ _ Hk Hk3)|].
    split; [etransitivity; eassumption | exact Hv].
Qed.
End Verify.

(** ** UTF-8 *)

Lemma utf8_decode_aux_length (fuel : nat) (bs : list Z) (cs : pystr) :
  utf8_decode_aux fuel bs = Some cs ->
  (length cs <= length bs)%nat
  /\ (length cs = length bs -> cs = bs /\ ascii_only bs).
Proof.
  revert bs cs. induction fuel as [|fuel IH]; intros bs cs.
  - destruct bs; [|discriminate]. intros [= <-].
    split; [reflexivity|]. intros _. split; [reflexivity | constructor].
  - destruct bs as [|b0 r0]; cbn [utf8_decode_aux].
    { intros [= <-]. split; [reflexivity|]. intros _. split; [reflexivity | constructor]. }
    destruct ((0 <=? b0) && (b0 <? 128)) eqn:H1.
    { destruct (utf8_decode_aux fuel r0) as [cs'|] eqn:E; [|discriminate].
      cbn [fmap option_fmap option_map]. intros [= <-].
      destruct (IH _ _ E) as [Hle Heq]. cbn [length]. split; [lia|].
      intros Hl. destruct Heq as [-> Ha]; [lia|].
      split; [reflexivity|]. constructor; [lia | exact Ha]. }
    destruct ((194 <=? b0) && (b0 <? 224)).
    { destruct r0 as [|b1 r1]; [discriminate|].
      destruct (is_cont b1); [|discriminate].
      destruct (utf8_decode_aux fuel r1) as [cs'|] eqn:E; [|discriminate].
      cbn [fmap option_fmap option_map]. intros [= <-].
      destruct (IH _ _ E) as [Hle _]. cbn [length]. split; lia. }
    destruct ((224 <=? b0) && (b0 <? 240)).
    { destruct r0 as [|b1 [|b2 r2]]; try discriminate.
      match goal with |- (if ?b then _ else None) = _ -> _ => destruct b end;
        [|discriminate].
      destruct (utf8_decode_aux fuel r2) as [cs'|] eqn:E; [|discriminate].
      cbn [fmap option_fmap option_map]. intros [= <-].
      destruct (IH _ _ E) as [Hle _]. cbn [length]. split; lia. }
    destruct ((240 <=? b0) && (b0 <? 245)); [|discriminate].
    destruct r0 as [|b1 [|b2 [|b3 r3]]]; try discriminate.
    match goal with |- (if ?b then _ else None) = _ -> _ => destruct b end;
      [|discriminate].
    destruct (utf8_decode_aux fuel r3) as [cs'|] eqn:E; [|discriminate].
    cbn [fmap option_fmap option_map]. intros [= <-].
    destruct (IH _ _ E) as [Hle _]. cbn [length]. split; lia.
Qed.

Lemma utf8_encode_char_length (c : Z) (bs : list Z) :
  utf8_encode_char c = Some bs -> (1 <= length bs)%nat.
Proof.
  unfold utf8_encode_char.
  repeat match goal with
         | |- context [if ?b then _ else _] => destruct b
         end; intros [= <-]; simpl; lia.
Qed.

Lemma utf8_encode_length (s : pystr) (bs : list Z) :
  utf8_encode s = Some bs ->
  (length s <= length bs)%nat /\ (ascii_only s -> bs = s).
Proof.
  revert bs. induction s as [|c s IH]; intros bs; cbn [utf8_encode].
  - intros [= <-]. auto.
  - destruct (utf8_encode_char c) as [b1|] eqn:Ec; [|discriminate].
    destruct (utf8_encode s) as [rest|]; [|discriminate].
    intros [= <-]. destruct (IH rest eq_refl) as [Hle Ha].
    pose proof (utf8_encode_char_length c b1 Ec).
    rewrite length_app. cbn [length]. split; [lia|].
    intros Hasc. apply Forall_cons in Hasc as [Hc Hs].
    rewrite (Ha Hs). unfold utf8_encode_char in Ec.
    rewrite (proj2 (Z.ltb_ge c 0)) in Ec by lia.
    rewrite (proj2 (Z.ltb_ge 1114111 c)) in Ec by lia.
    rewrite (proj2 (Z.ltb_lt c 128)) in Ec by lia.
    cbn [orb] in Ec. injection Ec as <-. reflexivity.
Qed.

(** ** The write phase on the simulator *)

Lemma for_each_app {S A} (xs ys : list A) (body : A -> M S unit) (s : S) :
  for_each (xs ++ ys) body s
  = match for_each xs body s with
    | (Ok _, s') => for_each ys body s'
    | (Raise e, s') => (Raise e, s')
    end.
Proof.
  revert s. induction xs as [|x xs IH]; intros s; [reflexivity|].
  cbn [app]. rewrite !for_each_cons.
  destruct (body x s) as [[[]|e] s1]; [apply IH | reflexivity].
Qed.

Lemma pack_f_length (v : spec_float) (data : list Z) :
  pack_f v = Ok data -> length data = 4%nat.
Proof.
  destruct v as [sg|sg| |sg m e]; cbn [pack_f].
  1-3: intros [= <-]; solve [apply length_be_bytes | reflexivity].
  destruct (_ <? _); [|discriminate].
  intros [= <-]; solve [apply length_be_bytes | reflexivity].
Qed.

Section SimWrites.
Context {D : Device}.

Lemma sim_write_string (value : pystr) (max_len : Z) (s : _SimClient.t) (c' : client D) :
  _write_string "s_CUSTOM_ORG_SOLVENT" value max_len (Sim s) = (Ok tt, c') ->
  exists s' encoded,
    c' = Sim s' /\ utf8_encode value = Some encoded
    /\ Z.of_nat (length value) <= max_len
    /\ mem_eq (sim_mem s')
         (upd (sim_mem s) 224
            ([max_len; Z.of_nat (length value)] ++ encoded
             ++ replicate (Z.to_nat (max_len - Z.of_nat (length value))) 0)).
Proof.
  unfold _write_string. rewrite string_cfg. cbn [cfg_type cfg_start cfg_db_number].
  destruct (Z.ltb_spec max_len (Z.of_nat (length value))) as [|Hlen]; [discriminate|].
  destruct (255 <? max_len); [discriminate|].
  destruct (utf8_encode value) as [encoded|]; [|discriminate].
  rewrite bind_eq. unfold lift, as_index.
  match goal with
  | |- db_write 9 224 ?data (Sim s) = _ -> _ =>
      destruct (sim_db_write (D := D) 224 data s) as (s' & E & Hm)
  end.
  rewrite E. intros [= <-]. exists s', encoded. auto.
Qed.

Lemma write_string_unfold (value : pystr) (c : client D) :
  _write_string "s_CUSTOM_ORG_SOLVENT" value 16 c
  = if 16 <? Z.of_nat (length value)
    then (Raise (ValueError_string_too_long value 16), c)
    else match utf8_encode value with
         | None => (Raise UnicodeEncodeError, c)
         | Some encoded =>
             db_write 9 224
               ([16; Z.of_nat (length value)] ++ encoded
                ++ replicate (Z.to_nat (16 - Z.of_nat (length value))) 0) c
         end.
Proof.
  unfold _write_string. rewrite string_cfg.
  cbn [cfg_type cfg_start cfg_db_number].
  destruct (16 <? Z.of_nat (length value)); [reflexivity|].
  change (255 <? 16) with false. cbv iota.
  destruct (utf8_encode value) as [encoded|]; [|reflexivity].
  rewrite bind_eq. reflexivity.
Qed.

Lemma footprint_real (tag : string) (v : spec_float) (start : nat) (t : plc_type) :
  find_cfg ["OPERATION"; "INPUTS"; "CUSTOM_SOLVENT"] tag = Some (entry start t) ->
  footprint (W_REAL tag v) = (start, 4%nat).
Proof. intros H. unfold footprint, start_in. rewrite H. reflexivity. Qed.

Lemma footprint_int (tag : string) (v : Z) (start : nat) (t : plc_type) :
  find_cfg ["OPERATION"; "INPUTS"] tag = Some (entry start t) ->
  footprint (W_INT tag v) = (start, 2%nat).
Proof. intros H. unfold footprint, start_in. rewrite H. reflexivity. Qed.

(** A parameter write changes no byte outside its footprint, whether it
    returns or raises. *)
Lemma sim_execute_write_frame (w : write) (s : _SimClient.t) (r : result unit)
    (c' : client D) :
  param_write w -> execute_write w (Sim s) = (r, c') ->
  exists s', c' = Sim s'
             /\ forall i, outside (footprint w) i -> sim_mem s' i = sim_mem s i.
Proof.
  intros Hw. destruct w as [tag v|tag v|tag v|tag v max_len];
    cbn [param_write execute_write] in *; [| |tauto|].
  - destruct (declared_REAL_cases tag Hw) as (start & Hc & _).
    rewrite (footprint_real tag v start REAL Hc).
    destruct (pack_f v) as [data|e] eqn:Hp.
    + destruct (sim_write_real (D := D) tag v s start REAL data Hc Hp) as (s' & E & Hm).
      rewrite E. intros [= _ <-]. exists s'. split; [reflexivity|].
      intros i Hi. rewrite (Hm i). apply upd_outside.
      rewrite (pack_f_length v data Hp). exact Hi.
    + rewrite write_real_unfold, (lookup_in_Some _ _ _ Hc), Hp.
      intros [= _ <-]. exists s. auto.
  - destruct (declared_INT_cases tag Hw) as (start & Hc & _).
    rewrite (footprint_int tag v start INT Hc).
    destruct (pack_h v) as [data|e] eqn:Hp.
    + destruct (sim_write_int (D := D) tag v s start INT data Hc Hp) as (s' & E & Hm).
      rewrite E. intros [= _ <-]. exists s'. split; [reflexivity|].
      intros i Hi. rewrite (Hm i). apply upd_outside.
      rewrite (pack_h_length v data Hp). exact Hi.
    + rewrite write_int_unfold, (lookup_in_Some _ _ _ Hc), Hp.
      intros [= _ <-]. exists s. auto.
  - subst tag. destruct r as [[]|e].
    + intros E. destruct (sim_write_string v max_len s c' E)
        as (s' & encoded & -> & Henc & Hlen & Hm).
      exists s'. split; [reflexivity|].
      intros i Hi. rewrite (Hm i). apply upd_outside.
      unfold footprint, outside in Hi. rewrite Henc in Hi. cbn [fst snd] in Hi.
      rewrite !length_app, length_replicate. cbn [length]. lia.
    + unfold _write_string. rewrite string_cfg.
      cbn [cfg_type cfg_start cfg_db_number].
      destruct (max_len <? _); [intros [= _ <-]; exists s; auto|].
      destruct (255 <? max_len); [intros [= _ <-]; exists s; auto|].
      destruct (utf8_encode v) as [encoded|]; [|intros [= _ <-]; exists s; auto].
      rewrite bind_eq. unfold lift, as_index.
      match goal with
      | |- db_write 9 224 ?data (Sim s) = _ -> _ =>
          destruct (sim_db_write (D := D) 224 data s) as (s' & E & Hm)
      end.
      rewrite E. discriminate.
Qed.

Lemma sim_execute_writes_frame (ws : list write) (s : _SimClient.t) (r : result unit)
    (c' : client D) :
  Forall param_write ws -> for_each ws execute_write (Sim s) = (r, c') ->
  exists s', c' = Sim s'
             /\ forall i, Forall (fun w => outside (footprint w) i) ws ->
                          sim_mem s' i = sim_mem s i.
Proof.
  revert s. induction ws as [|w ws IH]; intros s Hws.
  - rewrite for_each_nil. intros [= _ <-]. exists s. auto.
  - apply Forall_cons in Hws as [Hw Hws]. rewrite for_each_cons.
    destruct (execute_write w (Sim s)) as [r1 c1] eqn:E1.
    destruct (sim_execute_write_frame w s r1 c1 Hw E1) as (s1 & -> & Hf1).
    destruct r1 as [[]|e].
    + intros E. destruct (IH s1 Hws E) as (s' & -> & Hf).
      exists s'. split; [reflexivity|].
      intros i Hi. apply Forall_cons in Hi as [Hi1 Hi].
      rewrite (Hf i Hi). apply Hf1, Hi1.
    + intros [= _ <-]. exists s1. split; [reflexivity|].
      intros i Hi. apply Forall_cons in Hi as [Hi1 _]. apply Hf1, Hi1.
Qed.
End SimWrites.

(** ** The string field read back *)

(** If the memory holds the header and the first [len(value)] bytes that
    [_write_string] stored for [value], and [_read_string] returns [value],
    then [value] is plain ASCII: its encoding has one byte per character. *)
Lemma rd_string_written (m : nat -> Z) (value : pystr) (encoded : list Z) (max_len : Z) :
  utf8_encode value = Some encoded ->
  (forall j b, (j < 2 + length value)%nat ->
               ([max_len; Z.of_nat (length value)] ++ encoded
                ++ replicate (Z.to_nat (max_len - Z.of_nat (length value))) 0) !! j = Some b ->
               m (224 + j)%nat = b) ->
  rd_string m 224 = Ok value ->
  encoded = value.
Proof.
  intros Henc Hm Hrd.
  destruct (utf8_encode_length value encoded Henc) as [Hle Hascii].
  unfold rd_string in Hrd.
  rewrite (Hm 1%nat (Z.of_nat (length value)) ltac:(lia) eq_refl) in Hrd.
  destruct (Z.ltb_spec 0 (Z.of_nat (length value))) as [Hpos|Hz].
  - rewrite Nat2Z.id in Hrd.
    assert (Hspan : span m (224 + 2) (length value) = take (length value) encoded).
    { apply list_eq. intros j.
      destruct (decide (j < length value)%nat) as [Hj|Hj].
      - rewrite lookup_span, lookup_take_lt by exact Hj.
        destruct (lookup_lt_is_Some_2 encoded j ltac:(lia)) as [b Hb].
        rewrite Hb. f_equal.
        replace (224 + 2 + j)%nat with (224 + (2 + j))%nat by lia.
        apply Hm; [lia|].
        change ((encoded ++ replicate (Z.to_nat (max_len - Z.of_nat (length value))) 0)
                !! j = Some b).
        rewrite lookup_app_l by lia. exact Hb.
      - rewrite lookup_ge_None_2 by (rewrite length_span; lia).
        rewrite lookup_take_ge by lia. reflexivity. }
    rewrite Hspan in Hrd.
    destruct (utf8_decode (take (length value) encoded)) as [cs|] eqn:Hdec;
      [|discriminate].
    injection Hrd as ->.
    destruct (utf8_decode_aux_length _ _ _ Hdec) as [_ Heq].
    rewrite length_take in Heq.
    destruct Heq as [Hval Hasc]; [lia|].
    apply Hascii. rewrite Hval. exact Hasc.
  - assert (Hnil : value = []) by (destruct value; [reflexivity | simpl in Hz; lia]).
    subst value. cbn [utf8_encode] in Henc. congruence.
Qed.

(** ** [write_parameters_to_plc] *)

Ltac eval_starts :=
  repeat match goal with
         | |- context [start_in ?l ?t] =>
             let r := eval vm_compute in (start_in l t) in
             change (start_in l t) with r
         end.

(** Each write of a literal list leaves byte [i] outside its footprint. *)
Ltac all_outside :=
  repeat first [apply Forall_nil_2 | apply Forall_cons_2];
  unfold outside, footprint; eval_starts; cbn [fst snd]; lia.

Section WriteParameters.
Context {D : Device}.

(** What the body of the [with] block leaves in the queue when it ends
    without raising. *)
Lemma write_parameters_queue (payload : InputPayload) (c : client D)
    (tx : PLCTransaction D) :
  (write_int "OPERATION_MODE" (int_OperationMode (operation_mode payload));;
   queue_parameters payload) (new_transaction c) = (Ok tt, tx) ->
  exists name v1 v2 v3,
    Z.of_nat (length name) <= 16
    /\ tx = {| plc := c;
               writes := core_writes payload ++ solvent_writes name v1 v2 v3;
               committed := false |}.
Proof.
  unfold queue_parameters, write_string, write_int, write_real, queue, new_transaction.
  unfold core_writes, solvent_writes.
  destruct (org_solvent_id payload) eqn:Hs.
  1-4: cbn; intros [= <-]; exists [], PyFloat.zero, PyFloat.zero, PyFloat.zero;
       split; [simpl; lia | reflexivity].
  destruct (custom_solvent payload) as [solvent|]; [|cbn; discriminate].
  rewrite !bind_eq. cbn [plc writes committed app].
  destruct (Z.ltb_spec 16 (Z.of_nat (length (name solvent)))) as [|Hlen];
    [cbn; discriminate|].
  cbn. intros [= <-].
  exists (name solvent), (viscosity solvent), (sensitivity solvent), (molar_volume solvent).
  split; [exact Hlen | reflexivity].
Qed.

Lemma param_core_writes (payload : InputPayload) : Forall param_write (core_writes payload).
Proof. unfold core_writes. repeat constructor. Qed.

Lemma well_typed_core_writes (payload : InputPayload) :
  Forall well_typed (core_writes payload).
Proof. unfold core_writes. repeat constructor. Qed.

(** A call of [write_parameters_to_plc] that returns has stored bytes of
    [198, 200) and [204, 258) only. *)
Lemma write_parameters_bytes (payload : InputPayload) (s : _SimClient.t) (c' : client D) :
  write_parameters_to_plc payload (Sim s) = (Ok tt, c') ->
  exists s', c' = Sim s'
             /\ forall i, (i < 198 \/ 200 <= i < 204 \/ 258 <= i)%nat ->
                          sim_mem s' i = sim_mem s i.
Proof.
  unfold write_parameters_to_plc, transaction. rewrite bind_eq.
  destruct ((write_int "OPERATION_MODE" (int_OperationMode (operation_mode payload));;
             queue_parameters payload) (new_transaction (Sim s)))
    as [[[]|e] tx1] eqn:Eb; [|discriminate].
  destruct (write_parameters_queue payload (Sim s) tx1 Eb)
    as (name & v1 & v2 & v3 & Hlen & ->).
  unfold commit. cbn [committed writes plc].
  set (ws := core_writes payload ++ solvent_writes name v1 v2 v3).
  destruct (write_and_verify ws (Sim s)) as [[[]|e] c1] eqn:Ewv.
  2: { destruct (rollback ws c1) as [[|] ?]; discriminate. }
  cbn [plc]. intros [= <-].
  (* the two phases *)
  unfold write_and_verify in Ewv. rewrite bind_eq in Ewv.
  destruct (for_each ws execute_write (Sim s)) as [[[]|e] cw] eqn:Ew; [|discriminate].
  rewrite bind_eq in Ewv.
  destruct (verify_writes ws cw) as [[[|err errs]|e] cv] eqn:Ev; try discriminate.
  rewrite ret_eq in Ewv. injection Ewv as <-.
  (* the write phase: core fields, string, solvent properties *)
  unfold ws in Ew. rewrite for_each_app in Ew.
  destruct (for_each (core_writes payload) execute_write (Sim s)) as [[[]|e] ca] eqn:Ea;
    [|discriminate].
  destruct (sim_execute_writes_frame _ s _ ca (param_core_writes payload) Ea)
    as (sa & -> & Fa).
  unfold solvent_writes in Ew. rewrite for_each_cons in Ew.
  destruct (execute_write (W_STRING "s_CUSTOM_ORG_SOLVENT" name 16) (Sim sa))
    as [[[]|e] cb] eqn:Es; [|discriminate].
  destruct (sim_write_string name 16 sa cb Es) as (sb & encoded & -> & Henc & _ & Hb).
  assert (Htail : Forall param_write
                    [W_REAL "r_VISCOSITY" v1; W_REAL "r_SENSITIVITY" v2;
                     W_REAL "r_MOLAR_VOLUME" v3]) by (repeat constructor).
  destruct (sim_execute_writes_frame _ sb _ cw Htail Ew) as (sw & -> & Fw).
  (* the verification of the string field *)
  pose (dpeek := fun (_ : dev D) (_ : nat) => 0).
  assert (Hg : good_client dpeek (Sim (D := D) sw)) by exact I.
  unfold ws, solvent_writes in Ev.
  destruct (verify_writes_nil_inv dpeek _ _ _ _ _ Hg (well_typed_core_writes payload) Ev)
    as (c1 & Hk1 & Hm1 & Hv1).
  destruct (verify_string_mem dpeek c1 name 16 (good_client_same_kind dpeek _ _ Hk1 Hg))
    as (c2 & E2 & _ & _).
  rewrite E2 in Hv1. cbn [fst] in Hv1.
  rewrite (rd_string_ext _ _ 224 Hm1) in Hv1. cbn [cmem] in Hv1.
  destruct (rd_string (sim_mem sw) 224) as [actual|e] eqn:Hrd; [|discriminate].
  destruct (bool_decide_reflect (actual ≠ name)) as [|Hactual]; [discriminate|].
  apply dec_stable in Hactual. subst actual.
  assert (Hascii : encoded = name).
  { apply (rd_string_written (sim_mem sw) name encoded 16 Henc); [|exact Hrd].
    intros j b Hj Hdata.
    rewrite Fw by all_outside.
    rewrite (Hb (224 + j)%nat). apply upd_inside. exact Hdata. }
  subst encoded.
  (* the frame *)
  pose proof (verify_writes_mem dpeek ws (Sim sw) Hg) as Hmv.
  pose proof (keeps_kind_verify_writes ws (Sim (D := D) sw)) as Hkv.
  unfold ws, solvent_writes in Hmv, Hkv. rewrite Ev in Hmv, Hkv. cbn [snd] in Hmv, Hkv.
  destruct cv as [sv|]; [|contradiction].
  exists sv. split; [reflexivity|].
  intros i Hi.
  specialize (Hmv ltac:(apply Forall_app; split;
                        [apply well_typed_core_writes | repeat constructor; reflexivity]) i).
  cbn [cmem] in Hmv. rewrite Hmv.
  rewrite Fw by all_outside.
  rewrite (Hb i), upd_outside.
  - apply Fa. unfold core_writes. all_outside.
  - rewrite !length_app, length_replicate. cbn [length]. lia.
Qed.
End WriteParameters.

Section WriteParametersFrame.
Context {D : Device}.

(** X23.  On the simulator, when [write_parameters_to_plc] returns, the
    stored machine mode and the twelve command bits read as they did before
    the call. *)
Theorem write_parameters_frame (payload : InputPayload) (s : _SimClient.t)
    (c' : client D) :
  write_parameters_to_plc payload (Sim s) = (Ok tt, c') ->
  fst (read_status c') = fst (read_status (Sim (D := D) s))
  /\ forall mode cmd, cmd_bit mode cmd c' = cmd_bit mode cmd (Sim (D := D) s).
Proof.
  intros H. destruct (write_parameters_bytes payload s c' H) as (s' & -> & Hf).
  pose (dpeek := fun (_ : dev D) (_ : nat) => 0).
  split.
  - unfold read_status.
    destruct (client_read_int dpeek (Sim s') "MACHINE_MODE" 200 INT I eq_refl)
      as (c1 & -> & _).
    destruct (client_read_int dpeek (Sim s) "MACHINE_MODE" 200 INT I eq_refl)
      as (c2 & -> & _).
    cbn [fst cmem]. unfold rd_int, span. cbn [seq fmap list_fmap].
    rewrite (Hf 200%nat), (Hf 201%nat) by lia. reflexivity.
  - intros mode cmd. rewrite !sim_cmd_bit. rewrite Hf; [reflexivity|].
    destruct mode; simpl; lia.
Qed.
End WriteParametersFrame.

Lemma write_parameters_frame_witness :
  let s := _SimClient.set_db (_SimClient.init false) (replicate 258 0 ++ [1]) in
  let c' := snd (write_parameters_to_plc sample_payload (Sim (D := no_device) s)) in
  write_parameters_to_plc sample_payload (Sim (D := no_device) s) = (Ok tt, c')
  /\ fst (read_status c') = fst (read_status (Sim (D := no_device) s))
  /\ forall mode cmd, cmd_bit mode cmd c' = cmd_bit mode cmd (Sim (D := no_device) s).
Proof.
  intros s c'.
  assert (H : write_parameters_to_plc sample_payload (Sim (D := no_device) s)
              = (Ok tt, c')) by (vm_compute; reflexivity).
  split; [exact H|]. exact (write_parameters_frame sample_payload s c' H).
Defined.

(** The frame of [write_parameters_to_plc] is that of the call that returns.
    A name that is not plain ASCII is stored with more bytes than the 16 its
    length promises; the string then runs over the fields behind it and into
    byte 258, the verification fails, and the call raises with
    [COMMANDS_RUN.b_START] cleared. *)
Lemma write_parameters_non_ascii_name :
  let c := Sim (D := no_device)
             (_SimClient.set_db (_SimClient.init false) (replicate 258 0 ++ [1])) in
  cmd_bit RUN START c = Ok true
  /\ (exists e, fst (write_parameters_to_plc euro_payload c) = Raise (ValueError_rolled_back e))
  /\ cmd_bit RUN START (snd (write_parameters_to_plc euro_payload c)) = Ok false.
Proof.
  intros c. split; [vm_compute; reflexivity|].
  split; [eexists; vm_compute; reflexivity | vm_compute; reflexivity].
Qed.

(** C5.  [write_parameters_to_plc] can write the command bytes.
    [_write_string] checks the length of the name in characters and stores
    its UTF-8 bytes after the header: a custom solvent named with ten euro
    signs and six e-acute, 16 characters and 42 bytes, is stored from byte
    226 to byte 267, over the fields behind the string and over the three
    command bytes.  On a simulator whose twelve command bits read false,
    the call raises after a rollback that clears the 18 bytes of the string
    field only, and the Start bit of every mode then reads true. *)
Theorem write_parameters_overwrites_command_bits :
  let c := Sim (D := no_device)
             (_SimClient.set_db (_SimClient.connect (_SimClient.init false))
                (replicate 264 0)) in
  let c' := snd (write_parameters_to_plc accent_payload c) in
  (forall mode cmd, cmd_bit mode cmd c = Ok false)
  /\ fst (write_parameters_to_plc accent_payload c)
     = Raise (ValueError_rolled_back UnicodeDecodeError)
  /\ (forall mode, cmd_bit mode START c' = Ok true).
Proof.
  intros c c'. split; [intros [] []; vm_compute; reflexivity|].
  split; [vm_compute; reflexivity|]. intros []; vm_compute; reflexivity.
Qed.

(** ** Rollback *)

Lemma lossy_refl (m target : nat -> Z) : lossy m target m.
Proof. intros i. left. reflexivity. Qed.

Lemma lossy_ext (m target m1 m2 : nat -> Z) :
  mem_eq m2 m1 -> lossy m target m1 -> lossy m target m2.
Proof. intros H12 H i. rewrite (H12 i). apply H. Qed.

Lemma lossy_exact (m target m' : nat -> Z) : mem_eq m' target -> lossy m target m'.
Proof. intros H i. right. apply H. Qed.

Lemma lossy_target_ext (m target target' m' : nat -> Z) :
  mem_eq target target' -> lossy m target m' -> lossy m target' m'.
Proof. intros Ht H i. rewrite <- (Ht i). apply H. Qed.

Lemma span_local (m m' : nat -> Z) (start size : nat) :
  (forall i, (start <= i < start + size)%nat -> m' i = m i) ->
  span m' start size = span m start size.
Proof.
  intros H. unfold span. apply list_fmap_ext. intros k i Hk.
  apply lookup_seq in Hk as [-> Hlt]. apply H. lia.
Qed.

Lemma sim_db_write_bit_clear (byte : nat) (bit : Z) (s : _SimClient.t) :
  0 <= bit ->
  exists r s', _SimClient.db_write_bit 9 byte bit 0 s = (r, s')
               /\ lossy (sim_mem s) (set_bit (sim_mem s) byte bit false) (sim_mem s').
Proof.
  intros Hbit.
  destruct (decide (0 <= put_bit (sim_mem s byte) bit false < 256)) as [Hr|Hr].
  - destruct (sim_db_write_bit_ok byte bit false s Hbit Hr) as (s' & E & Hm & _).
    exists (Ok tt), s'. split; [exact E | apply lossy_exact, Hm].
  - pose proof (length_extend_to (byte + 1) (_SimClient._db s)) as Hlen.
    pose proof (peek_extend_to (byte + 1) (_SimClient._db s)) as Hext.
    assert (Hcur : default 0 (_SimClient.extend_to (byte + 1) (_SimClient._db s) !! byte)
                   = sim_mem s byte).
    { rewrite peek_in_range by lia. simpl. apply Hext. }
    exists (Raise ValueError_byte_range),
           (_SimClient.set_db s (_SimClient.extend_to (byte + 1) (_SimClient._db s))).
    split.
    + unfold _SimClient.db_write_bit. cbn [Z.eqb negb]. rewrite Hcur.
      rewrite (proj2 (Z.ltb_ge bit 0)) by exact Hbit.
      fold (put_bit (sim_mem s byte) bit false).
      destruct (Z.leb_spec 0 (put_bit (sim_mem s byte) bit false));
        destruct (Z.ltb_spec (put_bit (sim_mem s byte) bit false) 256);
        try reflexivity; lia.
    + apply lossy_ext with (m1 := sim_mem s); [|apply lossy_refl].
      unfold sim_mem. simpl. exact Hext.
Qed.

Section Writes.
Context {D : Device} (dpeek : dev D -> nat -> Z).

Lemma client_db_write (c : client D) (start : nat) (data : list Z) :
  good_client dpeek c ->
  exists c', db_write 9 start data c = (Ok tt, c')
             /\ same_kind c c'
             /\ lossy (cmem dpeek c) (upd (cmem dpeek c) start data) (cmem dpeek c').
Proof.
  intros Hg. destruct c as [s|d].
  - destruct (sim_db_write (D := D) start data s) as (s' & E & Hm).
    exists (Sim s'). split; [exact E|]. split; [exact I|].
    apply lossy_exact. exact Hm.
  - destruct (ml_write D dpeek Hg 9 start data d) as [E Hm].
    exists (Snap7 (snd (dev_db_write D 9 start data d))).
    unfold db_write, on_client.
    destruct (dev_db_write D 9 start data d) as [r d'] eqn:Er.
    simpl in E, Hm. subst r. simpl. auto.
Qed.

Lemma client_clear_real (c : client D) (tag : string) (start : nat) (t : plc_type) :
  good_client dpeek c ->
  find_cfg ["OPERATION"; "INPUTS"; "CUSTOM_SOLVENT"] tag = Some (entry start t) ->
  exists c', _write_real tag PyFloat.zero c = (Ok tt, c')
             /\ same_kind c c'
             /\ lossy (cmem dpeek c) (upd (cmem dpeek c) start [0; 0; 0; 0]) (cmem dpeek c').
Proof.
  intros Hg Hc. rewrite write_real_unfold, (lookup_in_Some _ _ _ Hc).
  change (pack_f PyFloat.zero) with (Ok (A := list Z) [0; 0; 0; 0]).
  cbn [as_index entry cfg_start cfg_db_number].
  exact (client_db_write c start [0; 0; 0; 0] Hg).
Qed.

Lemma client_clear_int (c : client D) (tag : string) (start : nat) (t : plc_type) :
  good_client dpeek c ->
  find_cfg ["OPERATION"; "INPUTS"] tag = Some (entry start t) ->
  exists c', _write_int tag 0 c = (Ok tt, c')
             /\ same_kind c c'
             /\ lossy (cmem dpeek c) (upd (cmem dpeek c) start [0; 0]) (cmem dpeek c').
Proof.
  intros Hg Hc. rewrite write_int_unfold, (lookup_in_Some _ _ _ Hc).
  change (pack_h 0) with (Ok (A := list Z) [0; 0]).
  cbn [as_index entry cfg_start cfg_db_number].
  exact (client_db_write c start [0; 0] Hg).
Qed.

Lemma client_clear_string (c : client D) :
  good_client dpeek c ->
  exists c', _write_string "s_CUSTOM_ORG_SOLVENT" [] 16 c = (Ok tt, c')
             /\ same_kind c c'
             /\ lossy (cmem dpeek c)
                  (upd (cmem dpeek c) 224 ([16; 0] ++ replicate (Z.to_nat 16) 0))
                  (cmem dpeek c').
Proof.
  intros Hg. unfold _write_string. rewrite string_cfg.
  cbn [cfg_type cfg_start cfg_db_number length].
  change (utf8_encode []) with (Some (A := list Z) []).
  change (16 <? Z.of_nat 0) with false. change (255 <? 16) with false.
  change (16 - Z.of_nat 0) with 16. change (Z.of_nat 0) with 0.
  cbv iota. rewrite bind_eq. unfold lift, as_index.
  exact (client_db_write c 224 _ Hg).
Qed.

Lemma client_clear_bool (c : client D) (tag : string) (byte : nat) (bit : Z) :
  good_client dpeek c ->
  bool_target tag = Ok (9, byte, bit) -> 0 <= bit ->
  exists r c', _write_bool tag false c = (r, c')
               /\ same_kind c c'
               /\ lossy (cmem dpeek c) (set_bit (cmem dpeek c) byte bit false)
                    (cmem dpeek c').
Proof.
  intros Hg Ht Hbit. rewrite write_bool_unfold, Ht. destruct c as [s|d].
  - destruct (sim_db_write_bit_clear byte bit s Hbit) as (r & s' & E & Hm).
    exists r, (Sim s'). cbn [negb]. rewrite E. simpl. auto.
  - destruct (client_db_read dpeek (Snap7 d) byte 1 Hg) as (c1 & E1 & Hk1 & Hm1).
    rewrite bind_eq, E1. cbn [span seq fmap list_fmap head default].
    rewrite bind_eq. unfold lift, shift_one.
    rewrite (proj2 (Z.ltb_ge bit 0)) by exact Hbit.
    fold (put_bit (cmem dpeek (Snap7 d) byte) bit false).
    destruct ((0 <=? _) && (_ <? 256)).
    + destruct (client_db_write c1 byte [put_bit (cmem dpeek (Snap7 d) byte) bit false]
                  (good_client_same_kind dpeek _ _ Hk1 Hg)) as (c2 & E2 & Hk2 & Hm2).
      exists (Ok tt), c2. split; [exact E2|].
      split; [exact (same_kind_trans _ _ _ Hk1 Hk2)|].
      intros i. unfold set_bit. destruct (Hm2 i) as [H|H]; rewrite H.
      * left. apply Hm1.
      * right. unfold upd. rewrite (Hm1 i). reflexivity.
    + exists (Raise ValueError_byte_range), c1. split; [reflexivity|].
      split; [exact Hk1|]. apply lossy_ext with (m1 := cmem dpeek (Snap7 d)).
      * exact Hm1.
      * apply lossy_refl.
Qed.
End Writes.

(** ** The bytes of each tag *)

Lemma start_in_find (sections : list string) (tag : string) (start : nat) (t : plc_type) :
  find_cfg sections tag = Some (entry start t) -> start_in sections tag = start.
Proof. intros H. unfold start_in. rewrite H. reflexivity. Qed.

Lemma declared_REAL_tag (tag : string) :
  declared REAL tag ->
  exists start,
    find_cfg ["OPERATION"; "INPUTS"; "CUSTOM_SOLVENT"] tag = Some (entry start REAL)
    /\ In start [204; 210; 214; 242; 246; 250; 254]%nat
    /\ tag = tag_at start.
Proof.
  unfold declared. cbn. intros H. tag_cases tag.
  all: try discriminate H.
  all: eexists; split; [reflexivity | split; [simpl; tauto | reflexivity]].
Qed.

Lemma declared_INT_tag (tag : string) :
  declared INT tag ->
  exists start, find_cfg ["OPERATION"; "INPUTS"] tag = Some (entry start INT)
                /\ In start [198; 200; 208; 218; 220; 222]%nat
                /\ tag = tag_at start.
Proof.
  unfold declared. cbn. intros H. tag_cases tag.
  all: try discriminate H.
  all: eexists; split; [reflexivity | split; [simpl; tauto | reflexivity]].
Qed.

Lemma well_typed_string (tag : string) (value : pystr) (max_len : Z) :
  well_typed (W_STRING tag value max_len) ->
  tag = "s_CUSTOM_ORG_SOLVENT" /\ max_len = 16.
Proof.
  intros [Hd Hl]. apply declared_STRING_tag in Hd. subst tag.
  rewrite string_cfg in Hl. cbn in Hl. split; [reflexivity | congruence].
Qed.

(** Where the neutral write of a well-typed queued write lands. *)
Lemma clear_span_cases (w : write) :
  well_typed w ->
  match w with
  | W_REAL tag _ =>
      exists start,
        find_cfg ["OPERATION"; "INPUTS"; "CUSTOM_SOLVENT"] tag = Some (entry start REAL)
        /\ In start [204; 210; 214; 242; 246; 250; 254]%nat
        /\ tag = tag_at start /\ clear_span w = (start, 4%nat)
  | W_INT tag _ =>
      exists start,
        find_cfg ["OPERATION"; "INPUTS"] tag = Some (entry start INT)
        /\ In start [198; 200; 208; 218; 220; 222]%nat
        /\ tag = tag_at start /\ clear_span w = (start, 2%nat)
  | W_BOOL tag _ =>
      exists byte bit,
        bool_target tag = Ok (9, byte, bit) /\ 0 <= bit < 8
        /\ In byte [202; 258; 260; 262]%nat /\ clear_span w = (byte, 1%nat)
  | W_STRING tag _ max_len =>
      tag = "s_CUSTOM_ORG_SOLVENT" /\ max_len = 16 /\ clear_span w = (224%nat, 18%nat)
  end.
Proof.
  destruct w as [tag v|tag v|tag v|tag v max_len]; intros Hw.
  - destruct (declared_REAL_tag tag Hw) as (start & Hc & Hin & Htag).
    exists start. repeat split; try assumption.
    cbn [clear_span]. rewrite (start_in_find _ _ _ _ Hc). reflexivity.
  - destruct (declared_INT_tag tag Hw) as (start & Hc & Hin & Htag).
    exists start. repeat split; try assumption.
    cbn [clear_span]. rewrite (start_in_find _ _ _ _ Hc). reflexivity.
  - destruct (declared_BOOL_target tag Hw) as (byte & bit & Ht & Hbit & Hin).
    exists byte, bit. repeat split; try assumption; try lia.
    + apply list_elem_of_In. exact Hin.
    + cbn [clear_span]. rewrite Ht. reflexivity.
  - destruct (well_typed_string _ _ _ Hw) as [-> ->]. repeat split.
Qed.

Ltac split_in :=
  repeat match goal with
         | H : In _ (_ :: _) |- _ => destruct H as [H|H]; [subst|]
         | H : In _ [] |- _ => destruct H
         end.

Lemma real_real_apart (s s' : nat) :
  In s [204; 210; 214; 242; 246; 250; 254]%nat ->
  In s' [204; 210; 214; 242; 246; 250; 254]%nat ->
  s <> s' -> (s + 4 <= s' \/ s' + 4 <= s)%nat.
Proof. intros H H' Hne. split_in; first [congruence | lia]. Qed.

Lemma int_int_apart (s s' : nat) :
  In s [198; 200; 208; 218; 220; 222]%nat ->
  In s' [198; 200; 208; 218; 220; 222]%nat ->
  s <> s' -> (s + 2 <= s' \/ s' + 2 <= s)%nat.
Proof. intros H H' Hne. split_in; first [congruence | lia]. Qed.

Lemma real_int_apart (s s' : nat) :
  In s [204; 210; 214; 242; 246; 250; 254]%nat ->
  In s' [198; 200; 208; 218; 220; 222]%nat ->
  (s + 4 <= s' \/ s' + 2 <= s)%nat.
Proof. intros H H'. split_in; lia. Qed.

Lemma real_bounds (s : nat) :
  In s [204; 210; 214; 242; 246; 250; 254]%nat ->
  (204 <= s /\ s + 4 <= 258 /\ (s + 4 <= 224 \/ 242 <= s))%nat.
Proof. intros H. split_in; lia. Qed.

Lemma int_bounds (s : nat) :
  In s [198; 200; 208; 218; 220; 222]%nat ->
  (s + 2 <= 224 /\ (s + 2 <= 202 \/ 208 <= s))%nat.
Proof. intros H. split_in; lia. Qed.

Lemma bool_bounds (byte : nat) :
  In byte [202; 258; 260; 262]%nat -> (byte = 202 \/ 258 <= byte)%nat.
Proof. intros H. split_in; lia. Qed.

Lemma tag_at_inj (s s' : nat) :
  In s [198; 200; 204; 208; 210; 214; 218; 220; 222; 242; 246; 250; 254]%nat ->
  In s' [198; 200; 204; 208; 210; 214; 218; 220; 222; 242; 246; 250; 254]%nat ->
  tag_at s = tag_at s' -> s = s'.
Proof. intros H H' E. split_in; first [reflexivity | discriminate E]. Qed.

Ltac open_cases :=
  repeat match goal with
         | H : exists _, _ |- _ => destruct H as [? H]
         | H : _ /\ _ |- _ => destruct H as [? H]
         end.

(** Two well-typed queued writes on different tags clear disjoint bytes,
    unless both are bits. *)
Lemma spans_apart (w0 w : write) :
  well_typed w0 -> well_typed w -> write_tag w0 <> write_tag w ->
  match w0, w with
  | W_BOOL _ _, W_BOOL _ _ => True
  | _, _ =>
      (fst (clear_span w0) + snd (clear_span w0) <= fst (clear_span w)
       \/ fst (clear_span w) + snd (clear_span w) <= fst (clear_span w0))%nat
  end.
Proof.
  intros H0 H Hne. apply clear_span_cases in H0, H.
  destruct w0 as [t0 v0|t0 v0|t0 v0|t0 v0 l0], w as [t v|t v|t v|t v l];
    cbn [write_tag] in Hne; open_cases; subst;
    repeat match goal with
           | E : clear_span _ = _ |- _ => rewrite E; clear E
           end;
    cbn [fst snd];
    repeat match goal with
           | Hin : In _ [204; 210; 214; 242; 246; 250; 254]%nat |- _ =>
               pose proof (real_bounds _ Hin); revert Hin
           | Hin : In _ [198; 200; 208; 218; 220; 222]%nat |- _ =>
               pose proof (int_bounds _ Hin); revert Hin
           | Hin : In _ [202; 258; 260; 262]%nat |- _ =>
               pose proof (bool_bounds _ Hin); revert Hin
           end;
    intros; try exact I; try congruence; try lia.
  - apply real_real_apart; try assumption. intros ->. apply Hne. reflexivity.
  - apply real_int_apart; assumption.
  - match goal with
    | H1 : In ?a _, H2 : In ?b _ |- _ =>
        destruct (real_int_apart b a) as [?|?]; try assumption; lia
    end.
  - apply int_int_apart; try assumption. intros ->. apply Hne. reflexivity.
Qed.

Lemma utf8_decode_nonempty (b : Z) (bs : list Z) (cs : pystr) :
  utf8_decode (b :: bs) = Some cs -> cs <> [].
Proof.
  unfold utf8_decode. cbn [length utf8_decode_aux].
  destruct ((0 <=? b) && (b <? 128)).
  { destruct (utf8_decode_aux _ bs); [|discriminate].
    cbn [fmap option_fmap option_map]. intros [= <-]. discriminate. }
  destruct ((194 <=? b) && (b <? 224)).
  { destruct bs as [|b1 r1]; [discriminate|].
    destruct (is_cont b1); [|discriminate].
    destruct (utf8_decode_aux _ r1); [|discriminate].
    cbn [fmap option_fmap option_map]. intros [= <-]. discriminate. }
  destruct ((224 <=? b) && (b <? 240)).
  { destruct bs as [|b1 [|b2 r2]]; try discriminate.
    match goal with |- (if ?c then _ else None) = _ -> _ => destruct c end;
      [|discriminate].
    destruct (utf8_decode_aux _ r2); [|discriminate].
    cbn [fmap option_fmap option_map]. intros [= <-]. discriminate. }
  destruct ((240 <=? b) && (b <? 245)); [|discriminate].
  destruct bs as [|b1 [|b2 [|b3 r3]]]; try discriminate.
  match goal with |- (if ?c then _ else None) = _ -> _ => destruct c end;
    [|discriminate].
  destruct (utf8_decode_aux _ r3); [|discriminate].
  cbn [fmap option_fmap option_map]. intros [= <-]. discriminate.
Qed.

(** The stored string reads as [""] exactly when its length byte is not
    positive. *)
Lemma rd_string_empty (m : nat -> Z) (start : nat) :
  rd_string m start = Ok [] <-> m (start + 1)%nat <= 0.
Proof.
  unfold rd_string. destruct (Z.ltb_spec 0 (m (start + 1)%nat)) as [Hpos|Hnp].
  - split; [|lia]. intros H. exfalso.
    destruct (Z.to_nat (m (start + 1)%nat)) as [|n] eqn:En; [lia|].
    unfold span in H. cbn [seq fmap list_fmap] in H.
    destruct (utf8_decode _) as [cs|] eqn:Ed; [|discriminate].
    apply utf8_decode_nonempty in Ed. congruence.
  - split; [lia | reflexivity].
Qed.

Lemma bool_bool_preserved (tag0 tag : string) (v0 v : bool) (m m' : nat -> Z) :
  well_typed (W_BOOL tag0 v0) -> well_typed (W_BOOL tag v) ->
  cleared (W_BOOL tag v) m m' ->
  neutral_mem (W_BOOL tag0 v0) m -> neutral_mem (W_BOOL tag0 v0) m'.
Proof.
  intros H0 H Hcl. apply clear_span_cases in H0, H.
  destruct H0 as (byte0 & bit0 & Ht0 & Hbit0 & _).
  destruct H as (byte & bit & Ht & Hbit & _).
  cbn [neutral_mem]. rewrite Ht0. intros Hn.
  destruct (Hcl byte0) as [E|E]; rewrite E; [exact Hn|].
  cbn [neutral_image]. rewrite Ht.
  destruct (decide (byte0 = byte)) as [->|Hne].
  - rewrite set_bit_same, testbit_put_bit by lia.
    destruct (Z.eqb bit bit0); [reflexivity | exact Hn].
  - rewrite set_bit_other by exact Hne. exact Hn.
Qed.

Section Rollback.
Context {D : Device} (dpeek : dev D -> nat -> Z).

(** One neutral write and its re-verification: the client stays the
    client, the memory is cleared at that tag at most, and when the step
    reports no failure the tag is neutral. *)
Lemma neutralise_effect (w : write) (c : client D) :
  good_client dpeek c -> well_typed w ->
  exists r c', neutralise w c = (r, c')
               /\ same_kind c c'
               /\ cleared w (cmem dpeek c) (cmem dpeek c')
               /\ (r = Ok false -> neutral_mem w (cmem dpeek c')).
Proof.
  intros Hg Hw. pose proof (clear_span_cases w Hw) as C.
  destruct w as [tag v|tag v|tag v|tag v max_len]; cbn [neutralise].
  - destruct C as (start & Hc & _).
    destruct (client_clear_real dpeek c tag start REAL Hg Hc) as (c1 & E1 & Hk1 & Hl1).
    pose proof (good_client_same_kind dpeek c c1 Hk1 Hg) as Hg1.
    destruct (client_read_real dpeek c1 tag start REAL Hg1 Hc) as (c2 & E2 & Hk2 & Hm2).
    rewrite bind_eq, E1, bind_eq, E2.
    assert (Hcl : cleared (W_REAL tag v) (cmem dpeek c) (cmem dpeek c2)).
    { unfold cleared. cbn [neutral_image]. rewrite (start_in_find _ _ _ _ Hc).
      exact (lossy_ext _ _ _ _ Hm2 Hl1). }
    pose proof (same_kind_trans _ _ _ Hk1 Hk2) as Hk.
    destruct (rd_real (cmem dpeek c1) start) as [actual|e] eqn:Er.
    + eexists _, c2. split; [reflexivity|]. repeat split; try assumption.
      intros [= Hgt]. cbn [neutral_mem]. rewrite (start_in_find _ _ _ _ Hc).
      exists actual. rewrite (rd_real_ext _ _ _ Hm2). auto.
    + eexists _, c2. split; [reflexivity|]. repeat split; try assumption.
      intros [=].
  - destruct C as (start & Hc & _).
    destruct (client_clear_int dpeek c tag start INT Hg Hc) as (c1 & E1 & Hk1 & Hl1).
    pose proof (good_client_same_kind dpeek c c1 Hk1 Hg) as Hg1.
    destruct (client_read_int dpeek c1 tag start INT Hg1 Hc) as (c2 & E2 & Hk2 & Hm2).
    rewrite bind_eq, E1, bind_eq, E2.
    assert (Hcl : cleared (W_INT tag v) (cmem dpeek c) (cmem dpeek c2)).
    { unfold cleared. cbn [neutral_image]. rewrite (start_in_find _ _ _ _ Hc).
      exact (lossy_ext _ _ _ _ Hm2 Hl1). }
    pose proof (same_kind_trans _ _ _ Hk1 Hk2) as Hk.
    destruct (rd_int (cmem dpeek c1) start) as [actual|e] eqn:Er.
    + eexists _, c2. split; [reflexivity|]. repeat split; try assumption.
      intros [= Hz]. apply bool_decide_eq_false in Hz.
      cbn [neutral_mem]. rewrite (start_in_find _ _ _ _ Hc).
      rewrite (rd_int_ext _ _ _ Hm2), Er. f_equal.
      destruct (decide (actual = 0)); [assumption | contradiction].
    + eexists _, c2. split; [reflexivity|]. repeat split; try assumption.
      intros [=].
  - destruct C as (byte & bit & Ht & Hbit & _).
    destruct (client_clear_bool dpeek c tag byte bit Hg Ht ltac:(lia))
      as (r1 & c1 & E1 & Hk1 & Hl1).
    pose proof (good_client_same_kind dpeek c c1 Hk1 Hg) as Hg1.
    rewrite bind_eq, E1.
    assert (Hcl1 : cleared (W_BOOL tag v) (cmem dpeek c) (cmem dpeek c1)).
    { unfold cleared. cbn [neutral_image]. rewrite Ht. exact Hl1. }
    destruct r1 as [[]|e].
    + destruct (client_read_bool dpeek c1 tag byte bit Hg1 Ht ltac:(lia))
        as (c2 & E2 & Hk2 & Hm2).
      rewrite E2. eexists _, c2. split; [reflexivity|].
      split; [exact (same_kind_trans _ _ _ Hk1 Hk2)|].
      split; [exact (lossy_ext _ _ _ _ Hm2 Hcl1)|].
      intros [= Hb]. cbn [neutral_mem]. rewrite Ht, (Hm2 byte). exact Hb.
    + eexists _, c1. split; [reflexivity|]. repeat split; try assumption.
      intros [=].
  - destruct C as (-> & -> & _).
    destruct (client_clear_string dpeek c Hg) as (c1 & E1 & Hk1 & Hl1).
    pose proof (good_client_same_kind dpeek c c1 Hk1 Hg) as Hg1.
    destruct (client_read_string dpeek c1 Hg1) as (c2 & E2 & Hk2 & Hm2).
    rewrite bind_eq, E1, bind_eq, E2.
    assert (Hcl : cleared (W_STRING "s_CUSTOM_ORG_SOLVENT" v 16)
                    (cmem dpeek c) (cmem dpeek c2)).
    { unfold cleared. cbn [neutral_image]. exact (lossy_ext _ _ _ _ Hm2 Hl1). }
    pose proof (same_kind_trans _ _ _ Hk1 Hk2) as Hk.
    destruct (rd_string (cmem dpeek c1) 224) as [actual|e] eqn:Er.
    + eexists _, c2. split; [reflexivity|]. repeat split; try assumption.
      intros [= Hz]. apply bool_decide_eq_false in Hz.
      cbn [neutral_mem]. rewrite (rd_string_ext _ _ _ Hm2), Er. f_equal.
      destruct (decide (actual = [])); [assumption | contradiction].
    + eexists _, c2. split; [reflexivity|]. repeat split; try assumption.
      intros [=].
Qed.
End Rollback.

Lemma held_plc_memory_like : memory_like HeldPLC.device HeldPLC.mem.
Proof.
  split.
  - intros db_number start size d. split; [reflexivity | intros i; reflexivity].
  - intros db_number start data d. split; [reflexivity|].
    intros i. cbn. unfold HeldPLC.store, upd.
    destruct (HeldPLC.held d i); [left; reflexivity|].
    destruct (start <=? i)%nat; [right | left]; reflexivity.
Qed.

(** ** Rollback through a link that stores what is written *)

Lemma stuck_plc_memory (stuck : nat -> bool) :
  stuck_memory (StuckPLC.device stuck) (fun m => m) stuck.
Proof.
  split.
  - intros db_number start size d. split; [reflexivity | intros i; reflexivity].
  - intros db_number start data d. split; [reflexivity | intros i; reflexivity].
Qed.

Lemma stuck_memory_like {D} (dpeek : dev D -> nat -> Z) (stuck : nat -> bool) :
  stuck_memory D dpeek stuck -> memory_like D dpeek.
Proof.
  intros H. split.
  - exact (sm_read D dpeek stuck H).
  - intros db_number start data d.
    destruct (sm_write D dpeek stuck H db_number start data d) as [E Hm].
    split; [exact E|]. intros i. rewrite (Hm i).
    destruct (stuck i); [left | right]; reflexivity.
Qed.

Lemma firm_good {D} (dpeek : dev D -> nat -> Z) (stuck : nat -> bool) (c : client D) :
  firm_client dpeek stuck c -> good_client dpeek c.
Proof. destruct c; simpl; [tauto | apply stuck_memory_like]. Qed.

Lemma firm_same_kind {D} (dpeek : dev D -> nat -> Z) (stuck : nat -> bool)
    (c c' : client D) :
  same_kind c c' -> firm_client dpeek stuck c -> firm_client dpeek stuck c'.
Proof. destruct c, c'; simpl; tauto. Qed.

Lemma cstuck_same_kind {D} (stuck : nat -> bool) (c c' : client D) (i : nat) :
  same_kind c c' -> cstuck stuck c' i = cstuck stuck c i.
Proof. destruct c, c'; simpl; tauto. Qed.

Lemma free_span_same_kind {D} (stuck : nat -> bool) (c c' : client D) (w : write) :
  same_kind c c' -> free_span stuck c w -> free_span stuck c' w.
Proof.
  intros Hk H i Hi. rewrite (cstuck_same_kind stuck c c' i Hk). exact (H i Hi).
Qed.

Lemma byte_mem_ext (m m' : nat -> Z) : mem_eq m' m -> byte_mem m -> byte_mem m'.
Proof. intros H Hb i. rewrite (H i). apply Hb. Qed.

Lemma byte_mem_upd (m : nat -> Z) (start : nat) (data : list Z) :
  byte_mem m -> Forall (fun b => 0 <= b < 256) data -> byte_mem (upd m start data).
Proof.
  intros Hm Hd i. unfold upd. destruct (start <=? i)%nat; [|apply Hm].
  destruct (data !! (i - start)%nat) as [b|] eqn:E; [|apply Hm].
  simpl. exact (proj1 (Forall_lookup _ _) Hd _ _ E).
Qed.

Section Firm.
Context {D : Device} (dpeek : dev D -> nat -> Z) (stuck : nat -> bool).

(** A write through a firm client stores its bytes, except the stuck
    ones. *)
Lemma firm_db_write (c : client D) (start : nat) (data : list Z) :
  firm_client dpeek stuck c ->
  exists c', db_write 9 start data c = (Ok tt, c')
             /\ same_kind c c'
             /\ forall i, cmem dpeek c' i
                          = if cstuck stuck c i then cmem dpeek c i
                            else upd (cmem dpeek c) start data i.
Proof.
  intros Hf. destruct c as [s|d].
  - destruct (sim_db_write (D := D) start data s) as (s' & E & Hm).
    exists (Sim s'). split; [exact E|]. split; [exact I|]. exact Hm.
  - destruct (sm_write D dpeek stuck Hf 9 start data d) as [E Hm].
    exists (Snap7 (snd (dev_db_write D 9 start data d))).
    unfold db_write, on_client.
    destruct (dev_db_write D 9 start data d) as [r d'] eqn:Er.
    simpl in E, Hm. subst r. simpl. auto.
Qed.

Lemma firm_db_write_bytes (c c' : client D) (start : nat) (data : list Z) :
  (forall i, cmem dpeek c' i
             = if cstuck stuck c i then cmem dpeek c i
               else upd (cmem dpeek c) start data i) ->
  byte_mem (cmem dpeek c) -> Forall (fun b => 0 <= b < 256) data ->
  byte_mem (cmem dpeek c').
Proof.
  intros Hm Hb Hd i. rewrite (Hm i).
  destruct (cstuck stuck c i); [apply Hb | apply byte_mem_upd; assumption].
Qed.
End Firm.

(** ** The bytes of the codecs *)

Lemma be_bytes_byte (n : nat) (z : Z) : Forall (fun b => 0 <= b < 256) (be_bytes n z).
Proof.
  revert z. induction n as [|n IH]; intros z; cbn [be_bytes]; [apply Forall_nil_2|].
  apply Forall_app. split; [apply IH|].
  apply Forall_cons_2; [|apply Forall_nil_2]. apply Z.mod_pos_bound. lia.
Qed.

Lemma pack_f_bytes (x : spec_float) (data : list Z) :
  pack_f x = Ok data -> Forall (fun b => 0 <= b < 256) data.
Proof.
  unfold pack_f. destruct x as [s|s| |s m e].
  4: destruct (single_magnitude m e <? 255 * 2 ^ 23); [|discriminate].
  all: intros [= <-]; apply (be_bytes_byte 4).
Qed.

Lemma pack_h_bytes (v : Z) (data : list Z) :
  pack_h v = Ok data -> Forall (fun b => 0 <= b < 256) data.
Proof.
  unfold pack_h. destruct ((-32768 <=? v) && (v <=? 32767)); [|discriminate].
  intros [= <-]. apply (be_bytes_byte 2).
Qed.

Lemma utf8_encode_char_bytes (c : Z) (bs : list Z) :
  utf8_encode_char c = Some bs -> Forall (fun b => 0 <= b < 256) bs.
Proof.
  unfold utf8_encode_char.
  destruct (Z.ltb_spec c 0); [discriminate|].
  destruct (Z.ltb_spec 1114111 c); [discriminate|]. cbn [orb].
  destruct (Z.ltb_spec c 128).
  { intros [= <-]. repeat constructor; lia. }
  destruct (Z.ltb_spec c 2048).
  { intros [= <-]. repeat constructor; Z.to_euclidean_division_equations; lia. }
  destruct ((55296 <=? c) && (c <=? 57343)); [discriminate|].
  destruct (Z.ltb_spec c 65536).
  { intros [= <-]. repeat constructor; Z.to_euclidean_division_equations; lia. }
  intros [= <-]. repeat constructor; Z.to_euclidean_division_equations; lia.
Qed.

Lemma utf8_encode_bytes (s : pystr) (bs : list Z) :
  utf8_encode s = Some bs -> Forall (fun b => 0 <= b < 256) bs.
Proof.
  revert bs. induction s as [|c s IH]; intros bs; cbn [utf8_encode].
  - intros [= <-]. apply Forall_nil_2.
  - destruct (utf8_encode_char c) as [cs|] eqn:Ec; [|discriminate].
    destruct (utf8_encode s) as [rest|]; [|discriminate].
    intros [= <-]. apply Forall_app. split.
    + exact (utf8_encode_char_bytes c cs Ec).
    + apply IH. reflexivity.
Qed.

(** ** Typed writes through a firm client *)

Section FirmWrites.
Context {D : Device} (dpeek : dev D -> nat -> Z) (stuck : nat -> bool).

Lemma firm_write_real (c : client D) (tag : string) (start : nat) (t : plc_type)
    (v : spec_float) (data : list Z) :
  firm_client dpeek stuck c ->
  find_cfg ["OPERATION"; "INPUTS"; "CUSTOM_SOLVENT"] tag = Some (entry start t) ->
  pack_f v = Ok data ->
  exists c', _write_real tag v c = (Ok tt, c')
             /\ same_kind c c'
             /\ forall i, cmem dpeek c' i
                          = if cstuck stuck c i then cmem dpeek c i
                            else upd (cmem dpeek c) start data i.
Proof.
  intros Hf Hc Hp. rewrite write_real_unfold, (lookup_in_Some _ _ _ Hc), Hp.
  cbn [as_index entry cfg_start cfg_db_number].
  exact (firm_db_write dpeek stuck c start data Hf).
Qed.

Lemma firm_write_int (c : client D) (tag : string) (start : nat) (t : plc_type)
    (v : Z) (data : list Z) :
  firm_client dpeek stuck c ->
  find_cfg ["OPERATION"; "INPUTS"] tag = Some (entry start t) ->
  pack_h v = Ok data ->
  exists c', _write_int tag v c = (Ok tt, c')
             /\ same_kind c c'
             /\ forall i, cmem dpeek c' i
                          = if cstuck stuck c i then cmem dpeek c i
                            else upd (cmem dpeek c) start data i.
Proof.
  intros Hf Hc Hp. rewrite write_int_unfold, (lookup_in_Some _ _ _ Hc), Hp.
  cbn [as_index entry cfg_start cfg_db_number].
  exact (firm_db_write dpeek stuck c start data Hf).
Qed.

Lemma firm_write_bool (c : client D) (tag : string) (byte : nat) (bit : Z) (v : bool) :
  firm_client dpeek stuck c ->
  bool_target tag = Ok (9, byte, bit) -> 0 <= bit < 8 ->
  0 <= cmem dpeek c byte < 256 ->
  exists c', _write_bool tag v c = (Ok tt, c')
             /\ same_kind c c'
             /\ forall i, cmem dpeek c' i
                          = if cstuck stuck c i then cmem dpeek c i
                            else set_bit (cmem dpeek c) byte bit v i.
Proof.
  intros Hf Ht Hbit Hb.
  pose proof (put_bit_byte _ bit v Hb Hbit) as Hnew.
  rewrite write_bool_unfold, Ht. destruct c as [s|d].
  - destruct (sim_db_write_bit_ok byte bit v s ltac:(lia) Hnew) as (s' & E & Hm & _).
    exists (Sim s'). rewrite E. split; [reflexivity|]. split; [exact I|]. exact Hm.
  - pose proof (firm_good dpeek stuck _ Hf) as Hg.
    destruct (client_db_read dpeek (Snap7 d) byte 1 Hg) as (c1 & E1 & Hk1 & Hm1).
    rewrite bind_eq, E1. cbn [span seq fmap list_fmap head default].
    rewrite bind_eq. unfold lift, shift_one.
    rewrite (proj2 (Z.ltb_ge bit 0)) by lia. unfold id.
    change (if v then Z.lor (cmem dpeek (Snap7 d) byte) (Z.shiftl 1 bit)
            else Z.land (cmem dpeek (Snap7 d) byte) (Z.lnot (Z.shiftl 1 bit)))
      with (put_bit (cmem dpeek (Snap7 d) byte) bit v).
    rewrite (proj2 (Z.leb_le 0 _) (proj1 Hnew)), (proj2 (Z.ltb_lt _ 256) (proj2 Hnew)).
    cbn [andb].
    destruct (firm_db_write dpeek stuck c1 byte
                [put_bit (cmem dpeek (Snap7 d) byte) bit v]
                (firm_same_kind dpeek stuck _ _ Hk1 Hf)) as (c2 & E2 & Hk2 & Hm2).
    exists c2. split; [exact E2|].
    split; [exact (same_kind_trans _ _ _ Hk1 Hk2)|].
    intros i. rewrite (Hm2 i), (cstuck_same_kind stuck _ _ i Hk1), (Hm1 i).
    destruct (cstuck stuck (Snap7 d) i); [reflexivity|].
    unfold set_bit. apply upd_ext. exact Hm1.
Qed.

(** A queued write, executed: the client stays the client and the memory
    keeps holding bytes, whether the write returns or raises. *)
Lemma execute_write_bytes (w : write) (c : client D) :
  firm_client dpeek stuck c -> well_typed w -> byte_mem (cmem dpeek c) ->
  byte_mem (cmem dpeek (snd (execute_write w c))).
Proof.
  intros Hf Hw Hb. pose proof (clear_span_cases w Hw) as C.
  destruct w as [tag v|tag v|tag v|tag v max_len]; cbn [execute_write].
  - destruct C as (start & Hc & _).
    destruct (pack_f v) as [data|e] eqn:Hp.
    + destruct (firm_write_real c tag start REAL v data Hf Hc Hp) as (c' & -> & _ & Hm).
      exact (firm_db_write_bytes dpeek stuck c c' start data Hm Hb (pack_f_bytes v data Hp)).
    + rewrite write_real_unfold, (lookup_in_Some _ _ _ Hc), Hp. exact Hb.
  - destruct C as (start & Hc & _).
    destruct (pack_h v) as [data|e] eqn:Hp.
    + destruct (firm_write_int c tag start INT v data Hf Hc Hp) as (c' & -> & _ & Hm).
      exact (firm_db_write_bytes dpeek stuck c c' start data Hm Hb (pack_h_bytes v data Hp)).
    + rewrite write_int_unfold, (lookup_in_Some _ _ _ Hc), Hp. exact Hb.
  - destruct C as (byte & bit & Ht & Hbit & _).
    destruct (firm_write_bool c tag byte bit v Hf Ht Hbit (Hb byte)) as (c' & -> & _ & Hm).
    intros i. cbn [snd]. rewrite (Hm i).
    destruct (cstuck stuck c i); [apply Hb|].
    unfold set_bit. apply byte_mem_upd; [exact Hb|].
    apply Forall_cons_2; [|apply Forall_nil_2].
    apply put_bit_byte; [apply Hb | exact Hbit].
  - destruct C as (-> & -> & _). rewrite write_string_unfold.
    destruct (Z.ltb_spec 16 (Z.of_nat (length v))) as [|Hlen]; [exact Hb|].
    destruct (utf8_encode v) as [encoded|] eqn:He; [|exact Hb].
    destruct (firm_db_write dpeek stuck c 224
                ([16; Z.of_nat (length v)] ++ encoded
                 ++ replicate (Z.to_nat (16 - Z.of_nat (length v))) 0) Hf)
      as (c' & -> & _ & Hm).
    apply (firm_db_write_bytes dpeek stuck c c' _ _ Hm Hb).
    apply Forall_cons_2; [lia|]. apply Forall_cons_2; [lia|].
    apply Forall_app. split; [exact (utf8_encode_bytes v encoded He)|].
    apply Forall_replicate. lia.
Qed.

Lemma execute_writes_bytes (ws : list write) (c : client D) :
  firm_client dpeek stuck c -> Forall well_typed ws -> byte_mem (cmem dpeek c) ->
  byte_mem (cmem dpeek (snd (for_each ws execute_write c))).
Proof.
  intros Hf Hws. revert c Hf. induction Hws as [|w ws Hw Hws IH]; intros c Hf Hb.
  - exact Hb.
  - rewrite for_each_cons.
    pose proof (execute_write_bytes w c Hf Hw Hb) as Hb1.
    pose proof (keeps_kind_execute_write w c) as Hk.
    destruct (execute_write w c) as [[[]|e] c1]; cbn [snd] in *.
    + apply IH; [exact (firm_same_kind dpeek stuck _ _ Hk Hf) | exact Hb1].
    + exact Hb1.
Qed.
End FirmWrites.

(** ** The rollback, byte by byte *)

Lemma zero_span (m : nat -> Z) (start n : nat) :
  (forall i, (start <= i < start + n)%nat -> m i = 0) ->
  span m start n = replicate n 0.
Proof.
  intros H. apply list_eq. intros k.
  destruct (decide (k < n)%nat) as [Hk|Hk].
  - rewrite lookup_span by exact Hk. rewrite lookup_replicate_2 by exact Hk.
    f_equal. apply H. lia.
  - rewrite !lookup_ge_None_2; [reflexivity | rewrite length_replicate; lia
                                | rewrite length_span; lia].
Qed.

Lemma upd_zeros (m : nat -> Z) (start n i : nat) :
  (start <= i < start + n)%nat -> upd m start (replicate n 0) i = 0.
Proof.
  intros Hi. unfold upd. rewrite (proj2 (Nat.leb_le start i)) by lia.
  rewrite lookup_replicate_2 by lia. reflexivity.
Qed.

Lemma upd_zeros_quiet (m : nat -> Z) (start n i : nat) :
  upd m start (replicate n 0) i = m i \/ upd m start (replicate n 0) i = 0.
Proof.
  unfold upd. destruct (start <=? i)%nat; [|left; reflexivity].
  destruct (replicate n 0 !! (i - start)%nat) as [b|] eqn:E; [|left; reflexivity].
  apply lookup_replicate in E as [-> _]. right. reflexivity.
Qed.

(** What the neutral write of a rollback step can put in a byte other than
    the first byte of the string: what was there, zero, or what was there
    with one bit cleared. *)
Lemma neutral_image_byte (w : write) (m : nat -> Z) (i : nat) :
  well_typed w -> i <> 224%nat ->
  neutral_image w m i = m i \/ neutral_image w m i = 0
  \/ exists bit, 0 <= bit /\ neutral_image w m i = put_bit (m i) bit false.
Proof.
  intros Hw Hi. pose proof (clear_span_cases w Hw) as C.
  destruct w as [tag v|tag v|tag v|tag v max_len]; cbn [neutral_image].
  - destruct (upd_zeros_quiet m (start_in ["OPERATION"; "INPUTS"; "CUSTOM_SOLVENT"] tag)
                4 i) as [H|H]; [left | right; left]; exact H.
  - destruct (upd_zeros_quiet m (start_in ["OPERATION"; "INPUTS"] tag) 2 i) as [H|H];
      [left | right; left]; exact H.
  - destruct C as (byte & bit & Ht & Hbit & _). rewrite Ht.
    destruct (decide (i = byte)) as [->|Hne].
    + right; right. exists bit. split; [lia | apply set_bit_same].
    + left. apply set_bit_other. exact Hne.
  - destruct C as (_ & -> & _). unfold upd.
    destruct (224 <=? i)%nat eqn:Hle; [|left; reflexivity].
    apply Nat.leb_le in Hle.
    destruct (i - 224)%nat as [|k] eqn:Ek; [lia|].
    change (([16; 0] ++ replicate (Z.to_nat 16) 0) !! S k)
      with (replicate 17 0 !! k).
    destruct (replicate 17 0 !! k) as [b|] eqn:E; [|left; reflexivity].
    apply lookup_replicate in E as [-> _]. right; left. reflexivity.
Qed.

Lemma cleared_byte (w : write) (m m' : nat -> Z) (i : nat) :
  well_typed w -> cleared w m m' -> i <> 224%nat ->
  m' i = m i \/ m' i = 0 \/ exists bit, 0 <= bit /\ m' i = put_bit (m i) bit false.
Proof.
  intros Hw Hcl Hi. destruct (Hcl i) as [H|H]; [left; exact H|].
  rewrite H. exact (neutral_image_byte w m i Hw Hi).
Qed.

Lemma put_bit_zero (bit : Z) : put_bit 0 bit false = 0.
Proof. unfold put_bit. apply Z.land_0_l. Qed.

(** A rollback step leaves a tag that holds its neutral value holding it. *)
Lemma zeroed_preserved (w0 w : write) (m m' : nat -> Z) :
  well_typed w0 -> well_typed w -> cleared w m m' -> zeroed w0 m -> zeroed w0 m'.
Proof.
  intros H0 Hw Hcl. pose proof (clear_span_cases w0 H0) as C.
  assert (Hz : forall i, i <> 224%nat -> m i = 0 -> m' i = 0).
  { intros i Hi Hm.
    destruct (cleared_byte w m m' i Hw Hcl Hi) as [H|[H|(bit & _ & H)]]; rewrite H.
    - exact Hm.
    - reflexivity.
    - rewrite Hm. apply put_bit_zero. }
  destruct w0 as [tag v|tag v|tag v|tag v max_len]; cbn [zeroed].
  - destruct C as (start & _ & Hin & _ & Hsp). rewrite Hsp. unfold outside. cbn [fst snd].
    pose proof (real_bounds start Hin) as Hbd.
    intros Hn i Hi. apply Hz; [lia | exact (Hn i Hi)].
  - destruct C as (start & _ & Hin & _ & Hsp). rewrite Hsp. unfold outside. cbn [fst snd].
    pose proof (int_bounds start Hin) as Hbd.
    intros Hn i Hi. apply Hz; [lia | exact (Hn i Hi)].
  - destruct C as (byte & bit & Ht & Hbit & Hin & _). rewrite Ht.
    pose proof (bool_bounds byte Hin) as Hbd. intros Hn.
    destruct (cleared_byte w m m' byte Hw Hcl ltac:(lia)) as [H|[H|(k & Hk & H)]];
      rewrite H.
    + exact Hn.
    + apply Z.testbit_0_l.
    + rewrite testbit_put_bit by lia. destruct (k =? bit); [reflexivity | exact Hn].
  - apply Hz. lia.
Qed.

Section ExactRollback.
Context {D : Device} (dpeek : dev D -> nat -> Z) (stuck : nat -> bool).

Lemma exact_lossy (c c' : client D) (target : nat -> Z) :
  (forall i, cmem dpeek c' i
             = if cstuck stuck c i then cmem dpeek c i else target i) ->
  lossy (cmem dpeek c) target (cmem dpeek c').
Proof.
  intros H i. rewrite (H i). destruct (cstuck stuck c i); [left | right]; reflexivity.
Qed.

(** One neutral write and its re-verification through a firm client: the
    memory is cleared at that tag at most, and when no byte of the tag is
    stuck the step reports no failure and the tag holds its neutral
    value. *)
Lemma neutralise_exact (w : write) (c : client D) :
  firm_client dpeek stuck c -> well_typed w -> byte_mem (cmem dpeek c) ->
  exists r c', neutralise w c = (r, c')
               /\ same_kind c c'
               /\ byte_mem (cmem dpeek c')
               /\ cleared w (cmem dpeek c) (cmem dpeek c')
               /\ (free_span stuck c w -> r = Ok false /\ zeroed w (cmem dpeek c')).
Proof.
  intros Hf Hw Hb. pose proof (firm_good dpeek stuck c Hf) as Hg.
  pose proof (clear_span_cases w Hw) as C.
  destruct w as [tag v|tag v|tag v|tag v max_len]; cbn [neutralise].
  - destruct C as (start & Hc & _ & _ & Hsp).
    destruct (firm_write_real dpeek stuck c tag start REAL PyFloat.zero (replicate 4 0)
                Hf Hc eq_refl) as (c1 & E1 & Hk1 & Hm1).
    pose proof (good_client_same_kind dpeek c c1 Hk1 Hg) as Hg1.
    destruct (client_read_real dpeek c1 tag start REAL Hg1 Hc) as (c2 & E2 & Hk2 & Hm2).
    rewrite bind_eq, E1, bind_eq, E2.
    assert (Hb1 : byte_mem (cmem dpeek c1)).
    { apply (firm_db_write_bytes dpeek stuck c c1 _ _ Hm1 Hb). apply Forall_replicate. lia. }
    assert (Hcl : cleared (W_REAL tag v) (cmem dpeek c) (cmem dpeek c2)).
    { unfold cleared. cbn [neutral_image]. rewrite (start_in_find _ _ _ _ Hc).
      exact (lossy_ext _ _ _ _ Hm2 (exact_lossy c c1 _ Hm1)). }
    assert (Hfree : free_span stuck c (W_REAL tag v) ->
                    forall i, (start <= i < start + 4)%nat -> cmem dpeek c1 i = 0).
    { intros Hfr i Hi. rewrite (Hm1 i), (Hfr i).
      - apply upd_zeros. exact Hi.
      - rewrite Hsp. unfold outside. cbn [fst snd]. lia. }
    destruct (rd_real (cmem dpeek c1) start) as [actual|e] eqn:Er.
    + eexists _, c2. split; [reflexivity|].
      split; [exact (same_kind_trans _ _ _ Hk1 Hk2)|].
      split; [exact (byte_mem_ext _ _ Hm2 Hb1)|]. split; [exact Hcl|].
      intros Hfr. unfold rd_real in Er. rewrite (zero_span _ _ _ (Hfree Hfr)) in Er.
      injection Er as <-. split; [reflexivity|].
      cbn [zeroed]. rewrite Hsp. unfold outside. cbn [fst snd].
      intros i Hi. rewrite (Hm2 i). apply (Hfree Hfr). lia.
    + eexists _, c2. split; [reflexivity|].
      split; [exact (same_kind_trans _ _ _ Hk1 Hk2)|].
      split; [exact (byte_mem_ext _ _ Hm2 Hb1)|]. split; [exact Hcl|].
      intros Hfr. unfold rd_real in Er. rewrite (zero_span _ _ _ (Hfree Hfr)) in Er.
      discriminate Er.
  - destruct C as (start & Hc & _ & _ & Hsp).
    destruct (firm_write_int dpeek stuck c tag start INT 0 (replicate 2 0)
                Hf Hc eq_refl) as (c1 & E1 & Hk1 & Hm1).
    pose proof (good_client_same_kind dpeek c c1 Hk1 Hg) as Hg1.
    destruct (client_read_int dpeek c1 tag start INT Hg1 Hc) as (c2 & E2 & Hk2 & Hm2).
    rewrite bind_eq, E1, bind_eq, E2.
    assert (Hb1 : byte_mem (cmem dpeek c1)).
    { apply (firm_db_write_bytes dpeek stuck c c1 _ _ Hm1 Hb). apply Forall_replicate. lia. }
    assert (Hcl : cleared (W_INT tag v) (cmem dpeek c) (cmem dpeek c2)).
    { unfold cleared. cbn [neutral_image]. rewrite (start_in_find _ _ _ _ Hc).
      exact (lossy_ext _ _ _ _ Hm2 (exact_lossy c c1 _ Hm1)). }
    assert (Hfree : free_span stuck c (W_INT tag v) ->
                    forall i, (start <= i < start + 2)%nat -> cmem dpeek c1 i = 0).
    { intros Hfr i Hi. rewrite (Hm1 i), (Hfr i).
      - apply upd_zeros. exact Hi.
      - rewrite Hsp. unfold outside. cbn [fst snd]. lia. }
    destruct (rd_int (cmem dpeek c1) start) as [actual|e] eqn:Er.
    + eexists _, c2. split; [reflexivity|].
      split; [exact (same_kind_trans _ _ _ Hk1 Hk2)|].
      split; [exact (byte_mem_ext _ _ Hm2 Hb1)|]. split; [exact Hcl|].
      intros Hfr. unfold rd_int in Er. rewrite (zero_span _ _ _ (Hfree Hfr)) in Er.
      injection Er as <-. split; [reflexivity|].
      cbn [zeroed]. rewrite Hsp. unfold outside. cbn [fst snd].
      intros i Hi. rewrite (Hm2 i). apply (Hfree Hfr). lia.
    + eexists _, c2. split; [reflexivity|].
      split; [exact (same_kind_trans _ _ _ Hk1 Hk2)|].
      split; [exact (byte_mem_ext _ _ Hm2 Hb1)|]. split; [exact Hcl|].
      intros Hfr. unfold rd_int in Er. rewrite (zero_span _ _ _ (Hfree Hfr)) in Er.
      discriminate Er.
  - destruct C as (byte & bit & Ht & Hbit & _ & Hsp).
    destruct (firm_write_bool dpeek stuck c tag byte bit false Hf Ht Hbit (Hb byte))
      as (c1 & E1 & Hk1 & Hm1).
    pose proof (good_client_same_kind dpeek c c1 Hk1 Hg) as Hg1.
    destruct (client_read_bool dpeek c1 tag byte bit Hg1 Ht ltac:(lia))
      as (c2 & E2 & Hk2 & Hm2).
    rewrite bind_eq, E1, E2.
    assert (Hb1 : byte_mem (cmem dpeek c1)).
    { intros i. rewrite (Hm1 i). destruct (cstuck stuck c i); [apply Hb|].
      unfold set_bit. apply byte_mem_upd; [exact Hb|].
      apply Forall_cons_2; [|apply Forall_nil_2].
      apply put_bit_byte; [apply Hb | exact Hbit]. }
    eexists _, c2. split; [reflexivity|].
    split; [exact (same_kind_trans _ _ _ Hk1 Hk2)|].
    split; [exact (byte_mem_ext _ _ Hm2 Hb1)|]. split.
    + unfold cleared. cbn [neutral_image]. rewrite Ht.
      exact (lossy_ext _ _ _ _ Hm2 (exact_lossy c c1 _ Hm1)).
    + intros Hfr.
      assert (Hbitv : Z.testbit (cmem dpeek c1 byte) bit = false).
      { rewrite (Hm1 byte), (Hfr byte).
        - rewrite set_bit_same, testbit_put_bit by lia. rewrite Z.eqb_refl. reflexivity.
        - rewrite Hsp. unfold outside. cbn [fst snd]. lia. }
      split; [rewrite Hbitv; reflexivity|].
      cbn [zeroed]. rewrite Ht, (Hm2 byte). exact Hbitv.
  - destruct C as (-> & -> & Hsp). rewrite bind_eq, write_string_unfold.
    change (16 <? Z.of_nat (length (@nil Z))) with false.
    change (utf8_encode []) with (Some (@nil Z)). cbv iota.
    change ([16; Z.of_nat (length (@nil Z))] ++ [] ++
            replicate (Z.to_nat (16 - Z.of_nat (length (@nil Z)))) 0)
      with (16 :: replicate 17 0).
    destruct (firm_db_write dpeek stuck c 224 (16 :: replicate 17 0) Hf)
      as (c1 & E1 & Hk1 & Hm1).
    pose proof (good_client_same_kind dpeek c c1 Hk1 Hg) as Hg1.
    destruct (client_read_string dpeek c1 Hg1) as (c2 & E2 & Hk2 & Hm2).
    rewrite E1, bind_eq, E2.
    assert (Hb1 : byte_mem (cmem dpeek c1)).
    { apply (firm_db_write_bytes dpeek stuck c c1 _ _ Hm1 Hb).
      apply Forall_cons_2; [lia|]. apply Forall_replicate. lia. }
    assert (Hcl : cleared (W_STRING "s_CUSTOM_ORG_SOLVENT" v 16)
                    (cmem dpeek c) (cmem dpeek c2)).
    { unfold cleared. cbn [neutral_image].
      exact (lossy_ext _ _ _ _ Hm2 (exact_lossy c c1 _ Hm1)). }
    assert (Hfree : free_span stuck c (W_STRING "s_CUSTOM_ORG_SOLVENT" v 16) ->
                    cmem dpeek c1 225%nat = 0).
    { intros Hfr. rewrite (Hm1 225%nat), (Hfr 225%nat).
      - reflexivity.
      - rewrite Hsp. unfold outside. cbn [fst snd]. lia. }
    destruct (rd_string (cmem dpeek c1) 224) as [actual|e] eqn:Er.
    + eexists _, c2. split; [reflexivity|].
      split; [exact (same_kind_trans _ _ _ Hk1 Hk2)|].
      split; [exact (byte_mem_ext _ _ Hm2 Hb1)|]. split; [exact Hcl|].
      intros Hfr. pose proof (Hfree Hfr) as H225.
      assert (Hempty : rd_string (cmem dpeek c1) 224 = Ok []).
      { apply rd_string_empty. change (224 + 1)%nat with 225%nat. lia. }
      rewrite Hempty in Er. injection Er as <-. split; [reflexivity|].
      cbn [zeroed]. rewrite (Hm2 225%nat). exact H225.
    + eexists _, c2. split; [reflexivity|].
      split; [exact (same_kind_trans _ _ _ Hk1 Hk2)|].
      split; [exact (byte_mem_ext _ _ Hm2 Hb1)|]. split; [exact Hcl|].
      intros Hfr. pose proof (Hfree Hfr) as H225.
      assert (Hempty : rd_string (cmem dpeek c1) 224 = Ok []).
      { apply rd_string_empty. change (224 + 1)%nat with 225%nat. lia. }
      rewrite Hempty in Er. discriminate Er.
Qed.
End ExactRollback.

Section ExactRollbackLoop.
Context {D : Device} (dpeek : dev D -> nat -> Z) (stuck : nat -> bool).

Lemma rollback_write_exact (w : write) (c : client D) :
  firm_client dpeek stuck c -> well_typed w -> byte_mem (cmem dpeek c) ->
  exists errors c', rollback_write w c = (errors, c')
                    /\ same_kind c c'
                    /\ byte_mem (cmem dpeek c')
                    /\ cleared w (cmem dpeek c) (cmem dpeek c')
                    /\ (forall t, t ∈ fst <$> errors -> t = write_tag w)
                    /\ (free_span stuck c w -> errors = [] /\ zeroed w (cmem dpeek c')).
Proof.
  intros Hf Hw Hb.
  destruct (neutralise_exact dpeek stuck w c Hf Hw Hb) as (r & c' & E & Hk & Hb' & Hcl & Hfr).
  unfold rollback_write. rewrite E.
  destruct r as [[|]|e]; eexists _, c'; (split; [reflexivity|]);
    (split; [exact Hk|]); (split; [exact Hb'|]); (split; [exact Hcl|]); split.
  - intros t Ht. apply list_elem_of_singleton in Ht. exact Ht.
  - intros H. destruct (Hfr H) as [[=] _].
  - intros t Ht. inversion Ht.
  - intros H. split; [reflexivity | exact (proj2 (Hfr H))].
  - intros t Ht. apply list_elem_of_singleton in Ht. exact Ht.
  - intros H. destruct (Hfr H) as [[=] _].
Qed.

(** The later steps of the rollback leave a tag that holds its neutral
    value holding it. *)
Lemma rollback_keeps_zeroed (w0 : write) (ws : list write) :
  well_typed w0 -> Forall well_typed ws ->
  forall c errors c',
    firm_client dpeek stuck c -> byte_mem (cmem dpeek c) ->
    rollback ws c = (errors, c') ->
    zeroed w0 (cmem dpeek c) -> zeroed w0 (cmem dpeek c').
Proof.
  intros H0 Hws. induction Hws as [|w ws Hw Hws IH]; intros c errors c' Hf Hb.
  - cbn [rollback]. intros [= <- <-] Hz. exact Hz.
  - cbn [rollback].
    destruct (rollback_write_exact w c Hf Hw Hb) as (es & c1 & E & Hk & Hb1 & Hcl & _).
    rewrite E. destruct (rollback ws c1) as [rest c2] eqn:Er.
    intros [= <- <-] Hz.
    apply (IH c1 rest c2 (firm_same_kind dpeek stuck _ _ Hk Hf) Hb1 Er).
    exact (zeroed_preserved w0 w _ _ H0 Hw Hcl Hz).
Qed.

(** The rollback loop through a firm client: a failure is reported on
    queued tags with a stuck byte only, and every queued tag without a
    stuck byte ends holding its neutral value. *)
Lemma rollback_exact (ws : list write) :
  Forall well_typed ws ->
  forall c errors c',
    firm_client dpeek stuck c -> byte_mem (cmem dpeek c) ->
    rollback ws c = (errors, c') ->
    same_kind c c'
    /\ (forall t, t ∈ fst <$> errors ->
                  exists w, w ∈ ws /\ write_tag w = t /\ ~ free_span stuck c w)
    /\ (forall w, w ∈ ws -> free_span stuck c w -> zeroed w (cmem dpeek c')).
Proof.
  intros Hws. induction Hws as [|w ws Hw Hws IH]; intros c errors c' Hf Hb.
  - cbn [rollback]. intros [= <- <-]. split; [apply same_kind_refl|].
    split; [intros t Ht; inversion Ht | intros w Hin; inversion Hin].
  - cbn [rollback].
    destruct (rollback_write_exact w c Hf Hw Hb)
      as (es & c1 & E & Hk & Hb1 & Hcl & Htags & Hfree).
    rewrite E. destruct (rollback ws c1) as [rest c2] eqn:Er.
    pose proof (firm_same_kind dpeek stuck _ _ Hk Hf) as Hf1.
    destruct (IH c1 rest c2 Hf1 Hb1 Er) as (Hk2 & Hsub & Hall).
    intros [= <- <-]. split; [exact (same_kind_trans _ _ _ Hk Hk2)|]. split.
    + intros t Ht. rewrite fmap_app in Ht. apply elem_of_app in Ht as [Ht|Ht].
      * exists w. split; [apply list_elem_of_here|].
        split; [symmetry; exact (Htags t Ht)|].
        intros Hfr. destruct (Hfree Hfr) as [-> _]. inversion Ht.
      * destruct (Hsub t Ht) as (w' & Hin & Htag & Hnf).
        exists w'. split; [apply list_elem_of_further; exact Hin|].
        split; [exact Htag|]. intros Hfr. apply Hnf.
        exact (free_span_same_kind stuck c c1 w' Hk Hfr).
    + intros w' Hin Hfr. apply elem_of_cons in Hin as [->|Hin].
      * exact (rollback_keeps_zeroed w ws Hw Hws c1 rest c2 Hf1 Hb1 Er
                 (proj2 (Hfree Hfr))).
      * exact (Hall w' Hin (free_span_same_kind stuck c c1 w' Hk Hfr)).
Qed.

(** What the memory holds is what the typed reads return. *)
Lemma zeroed_reads (w : write) (c : client D) :
  good_client dpeek c -> well_typed w ->
  zeroed w (cmem dpeek c) -> reads_zero w c.
Proof.
  intros Hg Hw. pose proof (clear_span_cases w Hw) as C.
  destruct w as [tag v|tag v|tag v|tag v max_len]; cbn [zeroed reads_zero].
  - destruct C as (start & Hc & _ & _ & Hsp). rewrite Hsp. unfold outside. cbn [fst snd].
    intros Hz.
    destruct (client_read_real dpeek c tag start REAL Hg Hc) as (c' & -> & _).
    cbn [fst]. unfold rd_real. rewrite (zero_span _ start 4); [reflexivity|].
    intros i Hi. apply Hz. lia.
  - destruct C as (start & Hc & _ & _ & Hsp). rewrite Hsp. unfold outside. cbn [fst snd].
    intros Hz.
    destruct (client_read_int dpeek c tag start INT Hg Hc) as (c' & -> & _).
    cbn [fst]. unfold rd_int. rewrite (zero_span _ start 2); [reflexivity|].
    intros i Hi. apply Hz. lia.
  - destruct C as (byte & bit & Ht & Hbit & _).
    destruct (client_read_bool dpeek c tag byte bit Hg Ht ltac:(lia)) as (c' & -> & _).
    rewrite Ht. cbn [fst]. intros ->. reflexivity.
  - destruct C as (-> & -> & _).
    destruct (client_read_string dpeek c Hg) as (c' & -> & _).
    cbn [fst]. intros Hz. apply rd_string_empty.
    change (224 + 1)%nat with 225%nat. lia.
Qed.

(** The rollback of [commit], from the state the failed [try] block left. *)
Lemma commit_rollback_exact (ws : list write) (c1 : client D) :
  firm_client dpeek stuck c1 -> byte_mem (cmem dpeek c1) -> Forall well_typed ws ->
  exists rollback_errors c2,
    rollback ws c1 = (rollback_errors, c2)
    /\ same_kind c1 c2
    /\ (forall t, t ∈ fst <$> rollback_errors ->
                  exists w, w ∈ ws /\ write_tag w = t /\ ~ free_span stuck c1 w)
    /\ (forall w, w ∈ ws -> free_span stuck c1 w -> reads_zero w c2).
Proof.
  intros Hf Hb Hws.
  destruct (rollback ws c1) as [rollback_errors c2] eqn:Erb.
  destruct (rollback_exact ws Hws c1 rollback_errors c2 Hf Hb Erb) as (Hk & Hsub & Hall).
  exists rollback_errors, c2. split; [reflexivity|]. split; [exact Hk|].
  split; [exact Hsub|]. intros w Hin Hfr. apply zeroed_reads.
  - exact (good_client_same_kind dpeek _ _ Hk (firm_good dpeek stuck _ Hf)).
  - exact (proj1 (Forall_forall _ _) Hws w Hin).
  - exact (Hall w Hin Hfr).
Qed.

(** The [try] block of [commit] leaves bytes in the memory, however it
    ends. *)
Lemma write_and_verify_bytes (ws : list write) (c : client D) :
  firm_client dpeek stuck c -> Forall well_typed ws -> byte_mem (cmem dpeek c) ->
  byte_mem (cmem dpeek (snd (write_and_verify ws c))).
Proof.
  intros Hf Hws Hb. pose proof (firm_good dpeek stuck _ Hf) as Hg.
  pose proof (keeps_kind_for_each ws execute_write keeps_kind_execute_write c) as Hk0.
  pose proof (execute_writes_bytes dpeek stuck ws c Hf Hws Hb) as Hb0.
  unfold write_and_verify. rewrite bind_eq.
  destruct (for_each ws execute_write c) as [[[]|e] c0]; cbn [snd] in *; [|exact Hb0].
  pose proof (verify_writes_mem dpeek ws c0 (good_client_same_kind dpeek _ _ Hk0 Hg) Hws)
    as Hm1.
  rewrite bind_eq.
  destruct (verify_writes ws c0) as [[[|err errs]|e] c1]; cbn [snd] in *;
    exact (byte_mem_ext _ _ Hm1 Hb0).
Qed.

(** When the [try] block of [commit] raises, for whatever reason, the
    rollback leaves every queued tag without a stuck byte reading as the
    neutral value of its kind, and reports failures on tags with a stuck
    byte only. *)
Lemma commit_failure_exact (tx : PLCTransaction D) (e : exn) (c1 : client D) :
  firm_client dpeek stuck (plc tx) ->
  byte_mem (cmem dpeek (plc tx)) ->
  Forall well_typed (writes tx) ->
  committed tx = false ->
  write_and_verify (writes tx) (plc tx) = (Raise e, c1) ->
  exists rollback_errors c2,
    commit tx
    = (Raise (match rollback_errors with
              | [] => ValueError_rolled_back e
              | _ => ValueError_rollback_errors e rollback_errors
              end),
       {| plc := c2; writes := writes tx; committed := false |})
    /\ (forall t, t ∈ fst <$> rollback_errors ->
                  exists w, w ∈ writes tx /\ write_tag w = t
                            /\ ~ free_span stuck (plc tx) w)
    /\ (forall w, w ∈ writes tx -> free_span stuck (plc tx) w -> reads_zero w c2)
    /\ ((forall i, cstuck stuck (plc tx) i = false) -> rollback_errors = []).
Proof.
  intros Hf Hb Hws Hcom Hwv.
  pose proof (keeps_kind_write_and_verify (writes tx) (plc tx)) as Hk.
  pose proof (write_and_verify_bytes (writes tx) (plc tx) Hf Hws Hb) as Hb1.
  rewrite Hwv in Hk, Hb1. cbn [snd] in Hk, Hb1.
  destruct (commit_rollback_exact (writes tx) c1 (firm_same_kind dpeek stuck _ _ Hk Hf)
              Hb1 Hws)
    as (rollback_errors & c2 & Erb & Hk2 & Hsub & Hall).
  assert (Hfree : forall w, free_span stuck c1 w <-> free_span stuck (plc tx) w).
  { intros w. split; intros H i Hi.
    - rewrite <- (cstuck_same_kind stuck _ _ i Hk). exact (H i Hi).
    - rewrite (cstuck_same_kind stuck _ _ i Hk). exact (H i Hi). }
  assert (Hsub' : forall t, t ∈ fst <$> rollback_errors ->
                   exists w, w ∈ writes tx /\ write_tag w = t
                             /\ ~ free_span stuck (plc tx) w).
  { intros t Ht. destruct (Hsub t Ht) as (w & Hin & Htag & Hnf).
    exists w. split; [exact Hin|]. split; [exact Htag|].
    intros H. apply Hnf, Hfree, H. }
  exists rollback_errors, c2. split; [|split; [exact Hsub'|split]].
  - unfold commit. rewrite Hcom, Hwv, Erb. destruct rollback_errors; reflexivity.
  - intros w Hin Hfr. apply (Hall w Hin). apply Hfree, Hfr.
  - intros Hnone. destruct rollback_errors as [|[t o] rest]; [reflexivity|].
    destruct (Hsub' t ltac:(rewrite fmap_cons; apply list_elem_of_here))
      as (w & _ & _ & Hnf).
    exfalso. apply Hnf. intros i _. apply Hnone.
Qed.

(** C1.  A failed verification is rolled back to the neutral values.  On
    the simulator, or on a driver whose device is a memory with stuck
    bytes, the memory holding bytes, and for a queue whose writes have the
    declared kind of their tags: when the queued writes have been executed
    and their verification finds mismatches, [commit] raises an error that
    carries the mismatches, with the rollback failures when there are any,
    and leaves the transaction uncommitted.  Every queued tag none of whose
    bytes is stuck then reads back as the neutral value of its kind itself,
    [0.0], [0], [False] or [""], whatever was queued for it, and a rollback
    failure is reported on a tag with a stuck byte only.  On the simulator,
    which has no stuck byte, no failure is reported and every queued tag
    reads neutral. *)
Theorem commit_rolls_back (tx : PLCTransaction D) (c0 c1 : client D)
    (errors : list verification_error) :
  firm_client dpeek stuck (plc tx) ->
  byte_mem (cmem dpeek (plc tx)) ->
  Forall well_typed (writes tx) ->
  committed tx = false ->
  for_each (writes tx) execute_write (plc tx) = (Ok tt, c0) ->
  verify_writes (writes tx) c0 = (Ok errors, c1) ->
  errors <> [] ->
  exists rollback_errors c2,
    commit tx
    = (Raise (match rollback_errors with
              | [] => ValueError_rolled_back (ValueError_verification errors)
              | _ => ValueError_rollback_errors (ValueError_verification errors)
                       rollback_errors
              end),
       {| plc := c2; writes := writes tx; committed := false |})
    /\ (forall t, t ∈ fst <$> rollback_errors ->
                  exists w, w ∈ writes tx /\ write_tag w = t
                            /\ ~ free_span stuck (plc tx) w)
    /\ (forall w, w ∈ writes tx -> free_span stuck (plc tx) w -> reads_zero w c2)
    /\ ((forall i, cstuck stuck (plc tx) i = false) -> rollback_errors = []).
Proof.
  intros Hf Hb Hws Hcom Hexec Hver Herr.
  apply (commit_failure_exact tx _ c1 Hf Hb Hws Hcom).
  unfold write_and_verify. rewrite bind_eq, Hexec, bind_eq, Hver.
  destruct errors as [|e errors]; [contradiction | reflexivity].
Qed.
End ExactRollbackLoop.

Lemma run_eq {S A} (m : M S A) (s : S) (r : result A) :
  fst (m s) = r -> m s = (r, snd (m s)).
Proof. destruct (m s) as [r' s']. cbn [fst snd]. intros ->. reflexivity. Qed.

(** The example of the specification: [r_TFR = 1.0] and [i_FRR = 5] on a
    PLC whose byte 209 is stuck, so that [i_FRR] fails its verification;
    after [commit] has raised, [r_TFR] reads [0.0]. *)
Lemma commit_rolls_back_witness :
  let c0 := snd (for_each (writes example_tx) execute_write (plc example_tx)) in
  let errors := [VerificationFailed "i_FRR" (VInt 5) (VInt 0)] in
  let c1 := snd (verify_writes (writes example_tx) c0) in
  (firm_client (D := StuckPLC.device (Nat.eqb 209)) (fun m => m) (Nat.eqb 209) (plc example_tx)
   /\ byte_mem (cmem (D := StuckPLC.device (Nat.eqb 209)) (fun m => m) (plc example_tx))
   /\ Forall well_typed (writes example_tx)
   /\ committed example_tx = false
   /\ for_each (writes example_tx) execute_write (plc example_tx) = (Ok tt, c0)
   /\ verify_writes (writes example_tx) c0 = (Ok errors, c1)
   /\ errors <> [])
  /\ exists rollback_errors c2,
       commit example_tx
       = (Raise (match rollback_errors with
                 | [] => ValueError_rolled_back (ValueError_verification errors)
                 | _ => ValueError_rollback_errors (ValueError_verification errors)
                          rollback_errors
                 end),
          {| plc := c2; writes := writes example_tx; committed := false |})
       /\ fst (_read_real "r_TFR" c2) = Ok PyFloat.zero.
Proof.
  intros c0 errors c1.
  assert (Hf : firm_client (D := StuckPLC.device (Nat.eqb 209)) (fun m => m) (Nat.eqb 209)
                 (plc example_tx)) by exact (stuck_plc_memory (Nat.eqb 209)).
  assert (Hb : byte_mem (cmem (D := StuckPLC.device (Nat.eqb 209)) (fun m => m)
                           (plc example_tx))) by (intros i; simpl; lia).
  assert (Hws : Forall well_typed (writes example_tx)).
  { repeat apply Forall_cons_2; [reflexivity | reflexivity | apply Forall_nil_2]. }
  assert (Hexec : for_each (writes example_tx) execute_write (plc example_tx) = (Ok tt, c0))
    by (apply run_eq; vm_compute; reflexivity).
  assert (Hver : verify_writes (writes example_tx) c0 = (Ok errors, c1))
    by (apply run_eq; vm_compute; reflexivity).
  assert (Herr : errors <> []) by discriminate.
  split; [exact (conj Hf (conj Hb (conj Hws (conj eq_refl (conj Hexec (conj Hver Herr))))))|].
  destruct (commit_rolls_back (D := StuckPLC.device (Nat.eqb 209)) (fun m => m) (Nat.eqb 209)
              example_tx c0 c1 errors Hf Hb Hws eq_refl Hexec Hver Herr)
    as (rollback_errors & c2 & Hc & _ & Hall & _).
  exists rollback_errors, c2. split; [exact Hc|].
  apply (Hall (W_REAL "r_TFR" (PyFloat.of_Z 1))); [apply list_elem_of_here|].
  intros i Hi. unfold outside in Hi. cbn in Hi. cbn [cstuck plc example_tx].
  apply Nat.eqb_neq. lia.
Defined.

(** * Further properties *)

(** ** Failures while the transaction is being filled *)

(** X1.  With the solvent set to CUSTOM and no custom solvent given, or
    with a custom solvent whose name has more than 16 characters,
    [write_parameters_to_plc] and [write_payload_to_plc] raise while the
    writes are being queued: nothing is sent, and the link is what it was,
    whatever the client. *)
Theorem custom_solvent_refused_before_any_write {D} (payload : InputPayload)
    (c : client D) :
  org_solvent_id payload = CUSTOM ->
  match custom_solvent payload with
  | None =>
      write_parameters_to_plc payload c = (Raise ValueError_custom_solvent_required, c)
      /\ write_payload_to_plc payload c = (Raise ValueError_custom_solvent_required, c)
  | Some solvent =>
      16 < Z.of_nat (length (name solvent)) ->
      write_parameters_to_plc payload c
      = (Raise (ValueError_string_too_long (name solvent) 16), c)
      /\ write_payload_to_plc payload c
         = (Raise (ValueError_string_too_long (name solvent) 16), c)
  end.
Proof.
  intros Hs. unfold write_parameters_to_plc, write_payload_to_plc, queue_parameters.
  rewrite Hs. destruct (custom_solvent payload) as [solvent|].
  - intros Hlen. apply Z.ltb_lt in Hlen.
    assert (Hw : write_string (D := D) "s_CUSTOM_ORG_SOLVENT" (name solvent) 16
                 = raise (ValueError_string_too_long (name solvent) 16)).
    { unfold write_string. rewrite Hlen. reflexivity. }
    rewrite Hw. split; reflexivity.
  - split; reflexivity.
Qed.

Lemma custom_solvent_refused_before_any_write_witness :
  let payload :=
    {| tfr := PyFloat.of_Z 1; frr := 5; target_volume := PyFloat.of_Z 10;
       temperature := PyFloat.of_Z 25; chip_id := BAFFLE; manifold_id := SMALL;
       lab_pressure := PyFloat.of_Z 1000; org_solvent_id := CUSTOM;
       operation_mode := AGENTIC; machine_mode := RUN; custom_solvent := None |} in
  org_solvent_id payload = CUSTOM
  /\ write_parameters_to_plc payload (new_sim (D := no_device))
     = (Raise ValueError_custom_solvent_required, new_sim)
  /\ write_payload_to_plc payload (new_sim (D := no_device))
     = (Raise ValueError_custom_solvent_required, new_sim).
Proof.
  intros payload. split; [reflexivity|].
  exact (custom_solvent_refused_before_any_write payload new_sim eq_refl).
Defined.

(** ** Command bits *)

(** X2.  Confirm and PausePlay are one bit.  The address [x.2] of
    [b_CONFIRM] goes through [int((start % 1) * 10)], which gives 1, the bit
    of [b_PAUSE_PLAY]: for each mode and on every client, reading or writing
    the Confirm tag is reading or writing the PausePlay tag. *)
Theorem confirm_shares_bit_with_pause_play {D} (mode : MachineMode) (v : bool)
    (c : client D) :
  bool_target (cmd_tag (mode_map mode) "b_CONFIRM") = Ok (9, mode_byte mode, 1)
  /\ _read_bool (cmd_tag (mode_map mode) "b_CONFIRM") c
     = _read_bool (cmd_tag (mode_map mode) "b_PAUSE_PLAY") c
  /\ _write_bool (cmd_tag (mode_map mode) "b_CONFIRM") v c
     = _write_bool (cmd_tag (mode_map mode) "b_PAUSE_PLAY") v c.
Proof.
  pose proof (bool_target_cmd mode CONFIRM) as Hc.
  pose proof (bool_target_cmd mode PAUSE_PLAY) as Hp.
  cbn [cmd_map cmd_bit_offset] in Hc, Hp.
  split; [exact Hc|].
  rewrite !read_bool_unfold, !write_bool_unfold, Hc, Hp. split; reflexivity.
Qed.

(** X3.  [read_crunch_valid] is [_read_bool('CRUNCH_VALID')]: on every
    client the two calls return the same value and leave the same state,
    although on the simulator one reads a byte and the other a bit. *)
Theorem read_crunch_valid_is_read_bool {D} (c : client D) :
  read_crunch_valid c = _read_bool "CRUNCH_VALID" c.
Proof.
  rewrite read_bool_unfold.
  change (bool_target "CRUNCH_VALID") with (Ok (A := Z * nat * Z) (9, 202%nat, 0)).
  cbv iota beta.
  assert (Hl : read_crunch_valid c
               = match db_read 9 202 1 c with
                 | (Ok result, c') =>
                     (Ok (match result with
                          | [] => false
                          | b :: _ => negb (Z.land b (Z.shiftl 1 0) =? 0)
                          end), c')
                 | (Raise e, c') => (Raise e, c')
                 end).
  { unfold read_crunch_valid.
    change (dict_get "OPERATION" DB_CONFIG ≫= dict_get "CRUNCH_VALID")
      with (Some (bit_entry 2020)).
    cbv iota beta. rewrite bind_eq. unfold lift.
    change (bit_address (bit_entry 2020)) with (Ok (A := nat * Z) (202%nat, 0)).
    cbv iota beta. cbn [cfg_db_number bit_entry]. rewrite bind_eq.
    destruct (db_read 9 202 1 c) as [[[|b l]|e] c']; reflexivity. }
  rewrite Hl. clear Hl.
  destruct c as [s|d].
  - unfold db_read, on_client, _SimClient.db_read, _SimClient.db_read_bit.
    cbn [Z.eqb Pos.eqb negb Z.ltb Z.compare].
    change (202 + 1)%nat with 203%nat.
    pose proof (length_extend_to 203 (_SimClient._db s)) as Hlen.
    destruct (lookup_lt_is_Some_2 (_SimClient.extend_to 203 (_SimClient._db s)) 202
                ltac:(lia)) as [b Hb].
    rewrite Hb. cbn [default].
    assert (Ht : take 1 (drop 202 (_SimClient.extend_to 203 (_SimClient._db s))) = [b]).
    { apply list_eq. intros [|i].
      - rewrite lookup_take_lt by lia. rewrite lookup_drop.
        rewrite Nat.add_0_r. exact Hb.
      - rewrite lookup_take_ge by lia. reflexivity. }
    rewrite Ht. reflexivity.
  - rewrite bind_eq.
    destruct (db_read 9 202 1 (Snap7 d)) as [[[|b l]|e] c']; reflexivity.
Qed.

Section CommandsOnAnyLink.
Context {D : Device} (dpeek : dev D -> nat -> Z).

(** X4.  On the simulator, or on a driver whose device behaves as a memory
    that can lose writes: when [pulse_cmd(mode, cmd, value)] returns, the
    bit of [cmd] in [mode] reads [value]. *)
Theorem pulse_cmd_target_reads_value (mode : MachineMode) (cmd : ModeCmds)
    (value : bool) (c c' : client D) :
  good_client dpeek c ->
  pulse_cmd mode cmd value c = (Ok tt, c') ->
  cmd_bit mode cmd c' = Ok value.
Proof.
  intros Hg. unfold pulse_cmd. cbv zeta. rewrite bind_eq.
  match goal with
  | |- match ?pre c with _ => _ end = _ -> _ =>
      assert (Hk0 : keeps_kind (D := D) pre);
      [|specialize (Hk0 c); destruct (pre c) as [[[]|e] c0]; [|discriminate]]
  end.
  { destruct (is_START cmd && value).
    - apply keeps_kind_for_each. intros other.
      destruct (bool_decide (other ≠ mode_map mode));
        [apply keeps_kind_write_bool | apply keeps_kind_ret].
    - destruct (is_STOP cmd && value); [|apply keeps_kind_ret].
      apply keeps_kind_for_each. intros other. apply keeps_kind_write_bool. }
  cbn [snd] in Hk0. rewrite bind_eq.
  pose proof (keeps_kind_write_bool (cmd_tag (mode_map mode) (cmd_map cmd)) value c0)
    as Hk1.
  destruct (_write_bool _ value c0) as [[[]|e] c1]; [|discriminate].
  cbn [snd] in Hk1. rewrite bind_eq.
  assert (Hg1 : good_client dpeek c1).
  { apply (good_client_same_kind dpeek c0); [exact Hk1|].
    apply (good_client_same_kind dpeek c); assumption. }
  pose proof (cmd_bit_offset_range cmd) as Hr.
  destruct (client_read_bool dpeek c1 _ _ _ Hg1 (bool_target_cmd mode cmd) ltac:(lia))
    as (c2 & E2 & Hk2 & Hm2).
  rewrite E2.
  destruct (bool_decide_reflect
              (Z.testbit (cmem dpeek c1 (mode_byte mode)) (cmd_bit_offset cmd) ≠ value))
    as [|Heq]; [discriminate|].
  apply dec_stable in Heq. rewrite ret_eq. intros [= <-].
  unfold cmd_bit.
  destruct (client_read_bool dpeek c2 _ _ _ (good_client_same_kind dpeek _ _ Hk2 Hg1)
              (bool_target_cmd mode cmd) ltac:(lia)) as (c3 & E3 & _).
  rewrite E3. cbn [fst]. rewrite (Hm2 (mode_byte mode)), Heq. reflexivity.
Qed.
End CommandsOnAnyLink.

Lemma pulse_cmd_target_reads_value_witness :
  let c := Snap7 (D := HeldPLC.device) (HeldPLC.holding 258 1) in
  let c' := snd (pulse_cmd CLEAN START true c) in
  good_client (D := HeldPLC.device) HeldPLC.mem c
  /\ pulse_cmd CLEAN START true c = (Ok tt, c')
  /\ cmd_bit CLEAN START c' = Ok true.
Proof.
  intros c c'.
  assert (Hg : good_client (D := HeldPLC.device) HeldPLC.mem c) by exact held_plc_memory_like.
  assert (H : pulse_cmd CLEAN START true c = (Ok tt, c')) by (vm_compute; reflexivity).
  split; [exact Hg|]. split; [exact H|].
  exact (pulse_cmd_target_reads_value (D := HeldPLC.device) HeldPLC.mem CLEAN START true
           c c' Hg H).
Defined.

(** ** Commands on the simulator *)

Lemma pulse_mem_frame (mode : MachineMode) (cmd : ModeCmds) (v : bool)
    (m : nat -> Z) (i : nat) :
  ~ command_byte i -> pulse_mem mode cmd v m i = m i.
Proof.
  unfold command_byte, pulse_mem. intros Hi.
  destruct mode, cmd, v.
  all: cbn [is_START is_STOP andb mode_byte cmd_bit_offset].
  all: repeat match goal with
              | |- context [other_modes ?m] =>
                  let r := eval vm_compute in (other_modes m) in
                  change (other_modes m) with r
              end.
  all: cbn [foldl mode_byte].
  all: repeat rewrite set_bit_other by lia.
  all: reflexivity.
Qed.

Lemma clear_all_mem_frame (m : nat -> Z) (i : nat) :
  ~ command_byte i -> clear_all_mem m i = m i.
Proof.
  unfold command_byte, clear_all_mem. intros Hi.
  cbn [foldl mode_byte cmd_bit_offset].
  repeat rewrite set_bit_other by lia. reflexivity.
Qed.

Ltac bit_cases :=
  repeat first
    [ rewrite set_bit_same
    | rewrite set_bit_other by (simpl; lia)
    | rewrite testbit_put_bit by lia
    | match goal with
      | |- context [Z.eqb ?a ?b] => destruct (Z.eqb_spec a b); [lia|]
      end ].

Lemma pulse_mem_other_bits (mode : MachineMode) (cmd : ModeCmds) (v : bool)
    (m : nat -> Z) (m' : MachineMode) (k : Z) :
  0 <= k -> k <> 0 -> k <> 1 -> k <> 3 ->
  Z.testbit (pulse_mem mode cmd v m (mode_byte m')) k = Z.testbit (m (mode_byte m')) k.
Proof.
  unfold pulse_mem. intros H0 H1 H2 H3.
  destruct mode, cmd, v, m'.
  all: cbn [is_START is_STOP andb mode_byte cmd_bit_offset].
  all: repeat match goal with
              | |- context [other_modes ?m] =>
                  let r := eval vm_compute in (other_modes m) in
                  change (other_modes m) with r
              end.
  all: cbn [foldl mode_byte].
  all: bit_cases; reflexivity.
Qed.

Lemma clear_all_mem_other_bits (m : nat -> Z) (m' : MachineMode) (k : Z) :
  0 <= k -> k <> 0 -> k <> 1 -> k <> 3 ->
  Z.testbit (clear_all_mem m (mode_byte m')) k = Z.testbit (m (mode_byte m')) k.
Proof.
  unfold clear_all_mem. intros H0 H1 H2 H3.
  destruct m'; cbn [foldl mode_byte cmd_bit_offset]; bit_cases; reflexivity.
Qed.

(** After Start is set in [mode], on a memory that stores what is written. *)
Lemma pulse_mem_start_bits (mode m' : MachineMode) (cmd : ModeCmds) (m : nat -> Z) :
  Z.testbit (pulse_mem mode START true m (mode_byte m')) (cmd_bit_offset cmd)
  = if bool_decide (m' = mode)
    then is_START cmd || Z.testbit (m (mode_byte m')) (cmd_bit_offset cmd)
    else negb (is_START cmd) && Z.testbit (m (mode_byte m')) (cmd_bit_offset cmd).
Proof.
  unfold pulse_mem.
  destruct mode, m', cmd.
  all: cbn [is_START is_STOP andb orb negb mode_byte cmd_bit_offset].
  all: repeat match goal with
              | |- context [other_modes ?m] =>
                  let r := eval vm_compute in (other_modes m) in
                  change (other_modes m) with r
              end.
  all: cbn [foldl mode_byte]; bit_norm; cbn [Z.eqb].
  all: repeat match goal with
              | |- context [bool_decide (?a = ?b)] =>
                  let r := eval vm_compute in (bool_decide (a = b)) in
                  change (bool_decide (a = b)) with r
              end.
  all: cbv iota; reflexivity.
Qed.

Section CommandsOnSim.
Context {D : Device}.

(** X5.  On the simulator, [pulse_cmd] and [clear_all_cmd_bits] return, and
    change nothing but bits 0, 1 and 3 of bytes 258, 260 and 262: every
    other byte, the experiment parameters and the machine mode among them,
    and every other bit of the three command bytes is what it was. *)
Theorem commands_touch_command_bits_only (op : command) (s : _SimClient.t) :
  sim_ok s ->
  exists s', run_command op (Sim (D := D) s) = (Ok tt, Sim s')
             /\ sim_ok s'
             /\ (forall i, ~ command_byte i -> sim_mem s' i = sim_mem s i)
             /\ (forall mode k, 0 <= k -> k <> 0 -> k <> 1 -> k <> 3 ->
                   Z.testbit (sim_mem s' (mode_byte mode)) k
                   = Z.testbit (sim_mem s (mode_byte mode)) k)
             /\ fst (read_status (Sim (D := D) s')) = fst (read_status (Sim (D := D) s)).
Proof.
  intros Hok.
  assert (H : exists s', run_command op (Sim (D := D) s) = (Ok tt, Sim s')
             /\ sim_ok s'
             /\ (forall i, ~ command_byte i -> sim_mem s' i = sim_mem s i)
             /\ (forall mode k, 0 <= k -> k <> 0 -> k <> 1 -> k <> 3 ->
                   Z.testbit (sim_mem s' (mode_byte mode)) k
                   = Z.testbit (sim_mem s (mode_byte mode)) k)).
  { destruct op as [mode cmd v|]; cbn [run_command].
    - destruct (sim_pulse_cmd (D := D) mode cmd v s Hok) as (s' & E & Hok' & Hm).
      exists s'. repeat split; try assumption.
      + intros i Hi. rewrite (Hm i). apply pulse_mem_frame, Hi.
      + intros m' k H0 H1 H2 H3. rewrite (Hm (mode_byte m')).
        apply pulse_mem_other_bits; assumption.
    - destruct (sim_clear_all_cmd_bits (D := D) s Hok) as (s' & E & Hok' & Hm).
      exists s'. repeat split; try assumption.
      + intros i Hi. rewrite (Hm i). apply clear_all_mem_frame, Hi.
      + intros m' k H0 H1 H2 H3. rewrite (Hm (mode_byte m')).
        apply clear_all_mem_other_bits; assumption. }
  destruct H as (s' & E & Hok' & Hf & Hb).
  exists s'. repeat split; try assumption.
  unfold read_status.
  destruct (sim_read_int (D := D) "MACHINE_MODE" s' 200 INT eq_refl) as (s1 & -> & _).
  destruct (sim_read_int (D := D) "MACHINE_MODE" s 200 INT eq_refl) as (s2 & -> & _).
  cbn [fst]. unfold span. cbn [seq fmap list_fmap].
  rewrite (Hf 200%nat), (Hf 201%nat) by (unfold command_byte; lia). reflexivity.
Qed.

(** X6.  On the simulator, [clear_all_cmd_bits] returns and leaves the
    twelve command bits reading false. *)
Theorem clear_all_cmd_bits_clears (s : _SimClient.t) :
  sim_ok s ->
  exists c', clear_all_cmd_bits (Sim (D := D) s) = (Ok tt, c')
             /\ forall mode cmd, cmd_bit mode cmd c' = Ok false.
Proof.
  intros Hok. destruct (sim_clear_all_cmd_bits (D := D) s Hok) as (s' & E & _ & Hm).
  exists (Sim s'). split; [exact E|]. intros mode cmd.
  rewrite sim_cmd_bit, (Hm (mode_byte mode)), clear_all_mem_bit. reflexivity.
Qed.

(** X7.  The start sequence of the agent, [clear_all_cmd_bits()] and then
    [pulse_cmd(mode, START, True)]: on the simulator it returns, and of the
    twelve command bits only Start of [mode] reads true; the agent's check
    that Start is set and PausePlay clear succeeds. *)
Theorem start_sequence_sets_one_bit (mode : MachineMode) (s : _SimClient.t) :
  sim_ok s ->
  exists c', (clear_all_cmd_bits;; pulse_cmd mode START true) (Sim (D := D) s)
             = (Ok tt, c')
             /\ forall m cmd,
                  cmd_bit m cmd c' = Ok (bool_decide (m = mode) && is_START cmd).
Proof.
  intros Hok.
  destruct (sim_clear_all_cmd_bits (D := D) s Hok) as (s1 & E1 & Hok1 & Hm1).
  destruct (sim_pulse_cmd (D := D) mode START true s1 Hok1) as (s2 & E2 & _ & Hm2).
  exists (Sim s2). rewrite bind_eq, E1, E2. split; [reflexivity|].
  intros m cmd. rewrite sim_cmd_bit, (Hm2 (mode_byte m)), pulse_mem_start_bits.
  rewrite (Hm1 (mode_byte m)), clear_all_mem_bit.
  destruct (bool_decide (m = mode)), (is_START cmd); reflexivity.
Qed.
End CommandsOnSim.

Lemma commands_touch_command_bits_only_witness :
  exists s', run_command (PulseCmd RUN STOP true)
               (Sim (D := no_device) (_SimClient.connect (_SimClient.init false)))
             = (Ok tt, Sim s')
             /\ sim_ok s'
             /\ (forall i, ~ command_byte i ->
                   sim_mem s' i = sim_mem (_SimClient.connect (_SimClient.init false)) i)
             /\ (forall mode k, 0 <= k -> k <> 0 -> k <> 1 -> k <> 3 ->
                   Z.testbit (sim_mem s' (mode_byte mode)) k
                   = Z.testbit (sim_mem (_SimClient.connect (_SimClient.init false))
                                  (mode_byte mode)) k)
             /\ fst (read_status (Sim (D := no_device) s'))
                = fst (read_status (Sim (D := no_device)
                                      (_SimClient.connect (_SimClient.init false)))).
Proof.
  exact (commands_touch_command_bits_only (D := no_device) (PulseCmd RUN STOP true)
           (_SimClient.connect (_SimClient.init false)) sim_ok_new).
Defined.

Lemma clear_all_cmd_bits_clears_witness :
  exists c', clear_all_cmd_bits
               (Sim (D := no_device) (_SimClient.connect (_SimClient.init false)))
             = (Ok tt, c')
             /\ forall mode cmd, cmd_bit mode cmd c' = Ok false.
Proof.
  exact (clear_all_cmd_bits_clears (D := no_device)
           (_SimClient.connect (_SimClient.init false)) sim_ok_new).
Defined.

Lemma start_sequence_sets_one_bit_witness :
  exists c', (clear_all_cmd_bits;; pulse_cmd CLEAN START true)
               (Sim (D := no_device) (_SimClient.connect (_SimClient.init false)))
             = (Ok tt, c')
             /\ forall m cmd,
                  cmd_bit m cmd c' = Ok (bool_decide (m = CLEAN) && is_START cmd).
Proof.
  exact (start_sequence_sets_one_bit (D := no_device) CLEAN
           (_SimClient.connect (_SimClient.init false)) sim_ok_new).
Defined.

(** ** A commit that returns *)

Lemma verify_write_reads_queued {D} (w : write) (c : client D) :
  fst (verify_write w c) = Ok [] -> reads_queued w c.
Proof.
  destruct w as [tag v|tag v|tag v|tag v max_len]; cbn [verify_write reads_queued];
    rewrite bind_eq.
  - destruct (_read_real tag c) as [[actual|e] c1]; [|discriminate].
    rewrite ret_eq. cbn [fst].
    destruct (PyFloat.gt _ tolerance) eqn:Hgt; [discriminate|].
    intros _. exists actual. auto.
  - destruct (_read_int tag c) as [[actual|e] c1]; [|discriminate].
    rewrite ret_eq. cbn [fst].
    destruct (bool_decide_reflect (actual ≠ v)) as [|Heq]; [discriminate|].
    apply dec_stable in Heq. intros _. congruence.
  - destruct (_read_bool tag c) as [[actual|e] c1]; [|discriminate].
    rewrite ret_eq. cbn [fst].
    destruct (bool_decide_reflect (actual ≠ v)) as [|Heq]; [discriminate|].
    apply dec_stable in Heq. intros _. congruence.
  - destruct (_read_string tag c) as [[actual|e] c1]; [|discriminate].
    rewrite ret_eq. cbn [fst].
    destruct (bool_decide_reflect (actual ≠ v)) as [|Heq]; [discriminate|].
    apply dec_stable in Heq. intros _. congruence.
Qed.

Section CommitReturns.
Context {D : Device} (dpeek : dev D -> nat -> Z).

(** What a typed read returns depends on the memory only. *)
Lemma reads_queued_mem (w : write) (c c' : client D) :
  good_client dpeek c -> good_client dpeek c' -> well_typed w ->
  mem_eq (cmem dpeek c) (cmem dpeek c') ->
  reads_queued w c -> reads_queued w c'.
Proof.
  intros Hg Hg' Hw Hm. pose proof (clear_span_cases w Hw) as C.
  destruct w as [tag v|tag v|tag v|tag v max_len]; cbn [reads_queued].
  - destruct C as (start & Hc & _).
    destruct (client_read_real dpeek c tag start REAL Hg Hc) as (c1 & -> & _).
    destruct (client_read_real dpeek c' tag start REAL Hg' Hc) as (c2 & -> & _).
    cbn [fst]. rewrite (rd_real_ext _ _ start Hm). tauto.
  - destruct C as (start & Hc & _).
    destruct (client_read_int dpeek c tag start INT Hg Hc) as (c1 & -> & _).
    destruct (client_read_int dpeek c' tag start INT Hg' Hc) as (c2 & -> & _).
    cbn [fst]. rewrite (rd_int_ext _ _ start Hm). tauto.
  - destruct C as (byte & bit & Ht & Hbit & _).
    destruct (client_read_bool dpeek c tag byte bit Hg Ht ltac:(lia)) as (c1 & -> & _).
    destruct (client_read_bool dpeek c' tag byte bit Hg' Ht ltac:(lia)) as (c2 & -> & _).
    cbn [fst]. rewrite (Hm byte). tauto.
  - destruct C as (-> & -> & _).
    destruct (client_read_string dpeek c Hg) as (c1 & -> & _).
    destruct (client_read_string dpeek c' Hg') as (c2 & -> & _).
    cbn [fst]. rewrite (rd_string_ext _ _ 224 Hm). tauto.
Qed.

(** When the body of the [try] block returns, every queued tag reads back
    as queued. *)
Lemma write_and_verify_reads_queued (ws : list write) (c c' : client D) :
  good_client dpeek c -> Forall well_typed ws ->
  write_and_verify ws c = (Ok tt, c') ->
  good_client dpeek c' /\ forall w, w ∈ ws -> reads_queued w c'.
Proof.
  intros Hg Hws. unfold write_and_verify. rewrite bind_eq.
  pose proof (keeps_kind_for_each ws execute_write keeps_kind_execute_write c) as Hkw.
  destruct (for_each ws execute_write c) as [[[]|e] cw]; [|discriminate].
  cbn [snd] in Hkw. pose proof (good_client_same_kind dpeek _ _ Hkw Hg) as Hgw.
  rewrite bind_eq.
  pose proof (keeps_kind_verify_writes ws cw) as Hkv.
  pose proof (verify_writes_mem dpeek ws cw Hgw Hws) as Hmv.
  destruct (verify_writes ws cw) as [[[|err errs]|e] cv] eqn:Ev; try discriminate.
  cbn [snd] in Hkv, Hmv. rewrite ret_eq. intros [= <-].
  pose proof (good_client_same_kind dpeek _ _ Hkv Hgw) as Hgv.
  split; [exact Hgv|]. intros w Hin.
  apply list_elem_of_split in Hin as (ws1 & ws2 & ->).
  apply Forall_app in Hws as [Hws1 Hws2]. apply Forall_cons in Hws2 as [Hw _].
  destruct (verify_writes_nil_inv dpeek ws1 ws2 w cw cv Hgw Hws1 Ev)
    as (c1 & Hk1 & Hm1 & Hv1).
  apply (reads_queued_mem w c1 cv); try assumption.
  - exact (good_client_same_kind dpeek _ _ Hk1 Hgw).
  - intros i. rewrite (Hm1 i), (Hmv i). reflexivity.
  - apply verify_write_reads_queued, Hv1.
Qed.

End CommitReturns.

(** ** What the simulator holds after the writes *)

Lemma sim_db_write_bit_frame (byte : nat) (bit value : Z) (s : _SimClient.t) :
  forall i, i <> byte ->
            sim_mem (snd (_SimClient.db_write_bit 9 byte bit value s)) i = sim_mem s i.
Proof.
  intros i Hi.
  pose proof (length_extend_to (byte + 1) (_SimClient._db s)) as Hlen.
  pose proof (peek_extend_to (byte + 1) (_SimClient._db s)) as Hext.
  unfold _SimClient.db_write_bit. cbn [Z.eqb Pos.eqb negb].
  destruct (bit <? 0); [exact (Hext i)|].
  destruct (_ && _); [|exact (Hext i)].
  unfold sim_mem. cbn [snd _SimClient._db _SimClient.set_db].
  rewrite peek_insert by lia. rewrite upd_outside by (simpl; lia). exact (Hext i).
Qed.

Section SimSpans.
Context {D : Device}.

(** A well-typed write of a plain value changes no byte outside the bytes
    of its tag, whether it returns or raises. *)
Lemma sim_execute_write_span (w : write) (s : _SimClient.t) (r : result unit)
    (c' : client D) :
  well_typed w -> plain w -> execute_write w (Sim s) = (r, c') ->
  exists s', c' = Sim s'
             /\ forall i, outside (clear_span w) i -> sim_mem s' i = sim_mem s i.
Proof.
  intros Hw Hp. pose proof (clear_span_cases w Hw) as C.
  destruct w as [tag v|tag v|tag v|tag v max_len].
  - exact (sim_execute_write_frame (W_REAL tag v) s r c' Hw).
  - exact (sim_execute_write_frame (W_INT tag v) s r c' Hw).
  - destruct C as (byte & bit & Ht & Hbit & _ & Hsp). cbn [execute_write].
    rewrite write_bool_unfold, Ht.
    pose proof (sim_db_write_bit_frame byte bit (if v then 1 else 0) s) as Hf.
    destruct (_SimClient.db_write_bit 9 byte bit (if v then 1 else 0) s) as [r1 s1].
    intros [= _ <-]. exists s1. split; [reflexivity|].
    intros i Hi. apply Hf. rewrite Hsp in Hi. unfold outside in Hi. cbn [fst snd] in Hi.
    lia.
  - destruct C as (-> & -> & Hsp). cbn [execute_write plain] in *.
    rewrite write_string_unfold, Hp.
    destruct (Z.ltb_spec 16 (Z.of_nat (length v))) as [|Hlen].
    { intros [= _ <-]. exists s. auto. }
    match goal with
    | |- db_write 9 224 ?data (Sim s) = _ -> _ =>
        destruct (sim_db_write (D := D) 224 data s) as (s' & E & Hm)
    end.
    rewrite E. intros [= _ <-]. exists s'. split; [reflexivity|].
    intros i Hi. rewrite (Hm i). apply upd_outside.
    rewrite Hsp in Hi. unfold outside in Hi. cbn [fst snd] in Hi.
    rewrite !length_app, length_replicate. cbn [length]. lia.
Qed.

Lemma sim_execute_writes_span (ws : list write) (s : _SimClient.t) (r : result unit)
    (c' : client D) :
  Forall well_typed ws -> Forall plain ws ->
  for_each ws execute_write (Sim s) = (r, c') ->
  exists s', c' = Sim s'
             /\ forall i, Forall (fun w => outside (clear_span w) i) ws ->
                          sim_mem s' i = sim_mem s i.
Proof.
  revert s. induction ws as [|w ws IH]; intros s Hws Hps.
  - rewrite for_each_nil. intros [= _ <-]. exists s. auto.
  - apply Forall_cons in Hws as [Hw Hws]. apply Forall_cons in Hps as [Hp Hps].
    rewrite for_each_cons.
    destruct (execute_write w (Sim s)) as [r1 c1] eqn:E1.
    destruct (sim_execute_write_span w s r1 c1 Hw Hp E1) as (s1 & -> & Hf1).
    destruct r1 as [[]|e].
    + intros E. destruct (IH s1 Hws Hps E) as (s' & -> & Hf).
      exists s'. split; [reflexivity|].
      intros i Hi. apply Forall_cons in Hi as [Hi1 Hi].
      rewrite (Hf i Hi). apply Hf1, Hi1.
    + intros [= _ <-]. exists s1. split; [reflexivity|].
      intros i Hi. apply Forall_cons in Hi as [Hi1 _]. apply Hf1, Hi1.
Qed.

(** The bytes of a number or of the string are apart from the bytes of
    every other tag. *)
Lemma other_tags_outside (w : write) (ws : list write) (i : nat) :
  well_typed w -> Forall well_typed ws ->
  (forall v, w <> W_BOOL (write_tag w) v) ->
  (forall w', w' ∈ ws -> write_tag w' <> write_tag w) ->
  ~ outside (clear_span w) i ->
  Forall (fun w' => outside (clear_span w') i) ws.
Proof.
  intros Hw Hws Hnb Hne Hi. apply Forall_forall. intros w' Hin.
  pose proof (proj1 (Forall_forall _ _) Hws w' Hin) as Hw'.
  pose proof (spans_apart w w' Hw Hw' (fun E => Hne w' Hin (eq_sym E))) as Hap.
  unfold outside in *.
  destruct w as [t v|t v|t v|t v l]; try (clear Hnb; lia).
  exfalso. exact (Hnb v eq_refl).
Qed.

Lemma sim_write_phase_real (ws1 ws2 : list write) (tag : string) (v : spec_float)
    (s : _SimClient.t) (c' : client D) :
  Forall well_typed (ws1 ++ W_REAL tag v :: ws2) -> Forall plain ws2 ->
  (forall w', w' ∈ ws2 -> write_tag w' <> tag) ->
  for_each (ws1 ++ W_REAL tag v :: ws2) execute_write (Sim s) = (Ok tt, c') ->
  exists s' data start,
    c' = Sim s'
    /\ find_cfg ["OPERATION"; "INPUTS"; "CUSTOM_SOLVENT"] tag = Some (entry start REAL)
    /\ pack_f v = Ok data
    /\ span (sim_mem s') start 4 = data.
Proof.
  intros Hws Hps Hne. apply Forall_app in Hws as [Hws1 Hws2].
  apply Forall_cons in Hws2 as [Hw Hws2].
  rewrite for_each_app.
  pose proof (keeps_kind_for_each ws1 execute_write keeps_kind_execute_write
                (Sim (D := D) s)) as Hk.
  destruct (for_each ws1 execute_write (Sim s)) as [[[]|e] ca]; [|discriminate].
  cbn [snd] in Hk. destruct ca as [sa|]; [|contradiction].
  rewrite for_each_cons. cbn [execute_write].
  destruct (clear_span_cases _ Hw) as (start & Hc & _ & _ & Hsp).
  destruct (pack_f v) as [data|e] eqn:Hp.
  2: { rewrite write_real_unfold, (lookup_in_Some _ _ _ Hc), Hp. discriminate. }
  destruct (sim_write_real (D := D) tag v sa start REAL data Hc Hp) as (s2 & E2 & Hm2).
  rewrite E2. intros E.
  destruct (sim_execute_writes_span ws2 s2 _ c' Hws2 Hps E) as (s' & -> & Hf).
  exists s', data, start. split; [reflexivity|]. split; [exact Hc|]. split; [reflexivity|].
  rewrite (span_local (sim_mem s2) (sim_mem s')).
  - rewrite (span_ext _ _ _ _ Hm2).
    pose proof (span_upd_same (sim_mem sa) start data) as Hs.
    rewrite (pack_f_length v data Hp) in Hs. exact Hs.
  - intros i Hi. apply Hf.
    apply (other_tags_outside (W_REAL tag v) ws2 i Hw Hws2); [discriminate | exact Hne|].
    rewrite Hsp. unfold outside. cbn [fst snd]. lia.
Qed.

Lemma sim_write_phase_string (ws1 ws2 : list write) (value : pystr)
    (s : _SimClient.t) (c' : client D) :
  Forall well_typed (ws1 ++ W_STRING "s_CUSTOM_ORG_SOLVENT" value 16 :: ws2) ->
  (forall w', w' ∈ ws2 -> write_tag w' <> "s_CUSTOM_ORG_SOLVENT") ->
  for_each (ws1 ++ W_STRING "s_CUSTOM_ORG_SOLVENT" value 16 :: ws2) execute_write (Sim s)
  = (Ok tt, c') ->
  exists s' encoded,
    c' = Sim s' /\ utf8_encode value = Some encoded
    /\ forall j b, (j < 18)%nat ->
                   ([16; Z.of_nat (length value)] ++ encoded
                    ++ replicate (Z.to_nat (16 - Z.of_nat (length value))) 0) !! j = Some b ->
                   sim_mem s' (224 + j)%nat = b.
Proof.
  intros Hws Hne. apply Forall_app in Hws as [Hws1 Hws2].
  apply Forall_cons in Hws2 as [Hw Hws2].
  assert (Hps : Forall plain ws2).
  { apply Forall_forall. intros w' Hin.
    pose proof (proj1 (Forall_forall _ _) Hws2 w' Hin) as Hw'.
    destruct w' as [t x|t x|t x|t x l]; try exact I.
    destruct (well_typed_string _ _ _ Hw') as [-> _].
    exfalso. exact (Hne _ Hin eq_refl). }
  rewrite for_each_app.
  pose proof (keeps_kind_for_each ws1 execute_write keeps_kind_execute_write
                (Sim (D := D) s)) as Hk.
  destruct (for_each ws1 execute_write (Sim s)) as [[[]|e] ca]; [|discriminate].
  cbn [snd] in Hk. destruct ca as [sa|]; [|contradiction].
  rewrite for_each_cons. cbn [execute_write].
  destruct (_write_string "s_CUSTOM_ORG_SOLVENT" value 16 (Sim sa)) as [[[]|e] c2] eqn:E2;
    [|discriminate].
  destruct (sim_write_string value 16 sa c2 E2) as (s2 & encoded & -> & Henc & Hlen & Hm2).
  intros E.
  destruct (sim_execute_writes_span ws2 s2 _ c' Hws2 Hps E) as (s' & -> & Hf).
  exists s', encoded. split; [reflexivity|]. split; [exact Henc|].
  intros j b Hj Hdata. rewrite Hf.
  - rewrite (Hm2 (224 + j)%nat). apply upd_inside. exact Hdata.
  - apply (other_tags_outside (W_STRING "s_CUSTOM_ORG_SOLVENT" value 16) ws2 _ Hw Hws2);
      [discriminate | exact Hne|].
    unfold outside. cbn [clear_span fst snd]. lia.
Qed.
End SimSpans.

Lemma nodup_later (ws1 ws2 : list write) (w : write) :
  NoDup (write_tag <$> (ws1 ++ w :: ws2)) ->
  forall w', w' ∈ ws2 -> write_tag w' <> write_tag w.
Proof.
  rewrite fmap_app, fmap_cons. intros H.
  apply NoDup_app in H as (_ & _ & H). apply NoDup_cons in H as [Hnot _].
  intros w' Hin E. apply Hnot. rewrite <- E. apply list_elem_of_fmap_2. exact Hin.
Qed.

Section SimStored.
Context {D : Device}.

(** On the simulator, when the [try] block of [commit] returns for a queue
    with one write per tag, every queued string is plain. *)
Lemma sim_verified_plain (ws : list write) (s : _SimClient.t) (cw cv : client D) :
  Forall well_typed ws -> NoDup (write_tag <$> ws) ->
  for_each ws execute_write (Sim s) = (Ok tt, cw) ->
  verify_writes ws cw = (Ok [], cv) ->
  Forall plain ws.
Proof.
  intros Hws Hnd Ew Ev. apply Forall_forall. intros w Hin.
  destruct w as [t x|t x|t x|tag value max_len]; try exact I.
  pose proof (proj1 (Forall_forall _ _) Hws _ Hin) as Hw.
  destruct (well_typed_string _ _ _ Hw) as [-> ->]. cbn [plain].
  apply list_elem_of_split in Hin as (ws1 & ws2 & ->).
  destruct (sim_write_phase_string ws1 ws2 value s cw Hws (nodup_later ws1 ws2 _ Hnd) Ew)
    as (sw & encoded & -> & Henc & Hbytes).
  pose (dpeek := fun (_ : dev D) (_ : nat) => 0).
  assert (Hg : good_client dpeek (Sim (D := D) sw)) by exact I.
  apply Forall_app in Hws as [Hws1 _].
  destruct (verify_writes_nil_inv dpeek ws1 ws2 _ (Sim sw) cv Hg Hws1 Ev)
    as (c1 & Hk1 & Hm1 & Hv1).
  destruct (verify_string_mem dpeek c1 value 16 (good_client_same_kind dpeek _ _ Hk1 Hg))
    as (c2 & E2 & _ & _).
  rewrite E2 in Hv1. cbn [fst] in Hv1.
  rewrite (rd_string_ext _ _ 224 Hm1) in Hv1. cbn [cmem] in Hv1.
  destruct (rd_string (sim_mem sw) 224) as [actual|e] eqn:Hrd; [|discriminate].
  destruct (bool_decide_reflect (actual ≠ value)) as [|Hactual]; [discriminate|].
  apply dec_stable in Hactual. subst actual.
  assert (Hlen : Z.of_nat (length value) <= 16).
  { destruct Hw as [_ Hl].
    destruct (Z.leb_spec (Z.of_nat (length value)) 16) as [H|H]; [exact H|].
    exfalso. revert Ew. rewrite for_each_app.
    destruct (for_each ws1 execute_write (Sim s)) as [[[]|e] ca]; [|discriminate].
    rewrite for_each_cons. cbn [execute_write]. rewrite write_string_unfold.
    rewrite (proj2 (Z.ltb_lt 16 _) H). discriminate. }
  rewrite Henc. f_equal.
  apply (rd_string_written (sim_mem sw) value encoded 16 Henc); [|exact Hrd].
  intros j b Hj Hdata. apply Hbytes; [lia | exact Hdata].
Qed.

(** On the simulator, when the [try] block of [commit] returns for a queue
    with one write per tag, every queued [REAL] tag reads back as the
    binary32 rounding of the value queued for it. *)
Lemma sim_real_stored (ws : list write) (s : _SimClient.t) (c' : client D) :
  Forall well_typed ws -> NoDup (write_tag <$> ws) ->
  write_and_verify ws (Sim s) = (Ok tt, c') ->
  forall tag v, W_REAL tag v ∈ ws -> fst (_read_real tag c') = stored_real v.
Proof.
  intros Hws Hnd Ewv tag v Hin.
  unfold write_and_verify in Ewv. rewrite bind_eq in Ewv.
  destruct (for_each ws execute_write (Sim s)) as [[[]|e] cw] eqn:Ew; [|discriminate].
  rewrite bind_eq in Ewv.
  destruct (verify_writes ws cw) as [[[|err errs]|e] cv] eqn:Ev; try discriminate.
  rewrite ret_eq in Ewv. injection Ewv as <-.
  pose proof (sim_verified_plain ws s cw cv Hws Hnd Ew Ev) as Hps.
  apply list_elem_of_split in Hin as (ws1 & ws2 & ->).
  assert (Hps2 : Forall plain ws2).
  { apply Forall_app in Hps as [_ Hps]. apply Forall_cons in Hps as [_ Hps]. exact Hps. }
  destruct (sim_write_phase_real ws1 ws2 tag v s cw Hws Hps2 (nodup_later ws1 ws2 _ Hnd) Ew)
    as (sw & data & start & -> & Hc & Hp & Hsp).
  pose (dpeek := fun (_ : dev D) (_ : nat) => 0).
  assert (Hg : good_client dpeek (Sim (D := D) sw)) by exact I.
  pose proof (verify_writes_mem dpeek _ (Sim sw) Hg Hws) as Hmv.
  pose proof (keeps_kind_verify_writes (ws1 ++ W_REAL tag v :: ws2) (Sim (D := D) sw)) as Hkv.
  rewrite Ev in Hmv, Hkv. cbn [snd] in Hmv, Hkv.
  destruct (client_read_real dpeek cv tag start REAL
              (good_client_same_kind dpeek _ _ Hkv Hg) Hc) as (c2 & -> & _).
  cbn [fst]. unfold rd_real, stored_real. rewrite Hp.
  rewrite (span_ext _ _ _ _ Hmv). cbn [cmem]. rewrite Hsp. reflexivity.
Qed.
End SimStored.

Section CommitStored.
Context {D : Device} (dpeek : dev D -> nat -> Z).

Lemma sim_reads_stored (ws : list write) (s : _SimClient.t) (c' : client D) :
  Forall well_typed ws -> NoDup (write_tag <$> ws) ->
  write_and_verify ws (Sim s) = (Ok tt, c') ->
  forall w, w ∈ ws -> reads_stored w c'.
Proof.
  intros Hws Hnd Ewv w Hin.
  pose proof (proj2 (write_and_verify_reads_queued (fun (_ : dev D) (_ : nat) => 0)
                       ws (Sim s) c' I Hws Ewv) w Hin) as Hq.
  destruct w as [tag v|tag v|tag v|tag v max_len]; try exact Hq.
  cbn [reads_stored reads_queued] in *.
  destruct Hq as (actual & Hr & Hgt).
  exists actual. rewrite <- (sim_real_stored ws s c' Hws Hnd Ewv tag v Hin).
  auto.
Qed.

(** X8.  On the simulator, or on a driver whose device behaves as a memory
    that can lose writes: when [commit] returns on a transaction that was
    not committed yet, the transaction is marked committed, its queue is
    kept, and every queued tag passes the check of the verification in the
    state [commit] leaves: an [INT], a [BOOL] or a [STRING] reads back as
    the value queued for it, and the comparison [abs(actual - value) > 1e-6]
    is false of what a [REAL] reads back, as it is of a NaN.  On the
    simulator, with one write per tag, a [REAL] tag reads back as the
    binary32 rounding of the value queued for it. *)
Theorem commit_returns_reads_queued (tx tx' : PLCTransaction D) :
  good_client dpeek (plc tx) ->
  Forall well_typed (writes tx) ->
  committed tx = false ->
  commit tx = (Ok tt, tx') ->
  committed tx' = true
  /\ writes tx' = writes tx
  /\ (forall w, w ∈ writes tx -> reads_queued w (plc tx'))
  /\ (forall s, plc tx = Sim s -> NoDup (write_tag <$> writes tx) ->
                forall w, w ∈ writes tx -> reads_stored w (plc tx')).
Proof.
  intros Hg Hws Hcom. unfold commit. rewrite Hcom.
  destruct (write_and_verify (writes tx) (plc tx)) as [[[]|e] c1] eqn:E.
  - intros [= <-]. cbn [committed writes plc].
    split; [reflexivity|]. split; [reflexivity|]. split.
    + exact (proj2 (write_and_verify_reads_queued dpeek _ _ _ Hg Hws E)).
    + intros s Hs Hnd. rewrite Hs in E. exact (sim_reads_stored _ s c1 Hws Hnd E).
  - destruct (rollback (writes tx) c1) as [[|r rb] c2]; discriminate.
Qed.
End CommitStored.

Section CommitException.
Context {D : Device} (dpeek : dev D -> nat -> Z) (stuck : nat -> bool).

End CommitException.

Lemma commit_returns_reads_queued_witness :
  let tx := {| plc := new_sim (D := no_device);
               writes := [W_REAL "r_TFR" (PyFloat.dec 15 1); W_INT "i_FRR" 5;
                          W_BOOL "COMMANDS_RUN.b_START" true];
               committed := false |} in
  let tx' := snd (commit tx) in
  commit tx = (Ok tt, tx')
  /\ committed tx' = true
  /\ writes tx' = writes tx
  /\ (forall w, w ∈ writes tx -> reads_queued w (plc tx'))
  /\ fst (_read_real "r_TFR" (plc tx')) = Ok (PyFloat.dec 15 1).
Proof.
  intros tx tx'.
  assert (H : commit tx = (Ok tt, tx')) by (vm_compute; reflexivity).
  assert (Hws : Forall well_typed (writes tx)).
  { repeat apply Forall_cons_2; try apply Forall_nil_2; reflexivity. }
  assert (Hnd : NoDup (write_tag <$> writes tx)).
  { apply (bool_decide_unpack _). vm_compute. reflexivity. }
  destruct (commit_returns_reads_queued (D := no_device) (fun _ _ => 0) tx tx'
              I Hws eq_refl H) as (Hc & Hw & Hq & Hst).
  split; [exact H|]. split; [exact Hc|]. split; [exact Hw|]. split; [exact Hq|].
  destruct (Hst _ eq_refl Hnd (W_REAL "r_TFR" (PyFloat.dec 15 1)) ltac:(apply list_elem_of_here))
    as (actual & Hs & Hr & _).
  rewrite Hr, <- Hs. vm_compute. reflexivity.
Defined.


(** ** Machine mode and start *)

Section ModeOnSim.
Context {D : Device}.

(** A transaction that queues one [INT] write of a value [struct] packs. *)
Lemma sim_transaction_int (tag : string) (v : Z) (start : nat) (s : _SimClient.t)
    (pre : M (PLCTransaction D) unit) (s0 : _SimClient.t) :
  find_cfg ["OPERATION"; "INPUTS"] tag = Some (entry start INT) ->
  -32768 <= v <= 32767 ->
  pre {| plc := Sim s; writes := [W_INT tag v]; committed := false |}
  = (Ok tt, {| plc := Sim s0; writes := [W_INT tag v]; committed := false |}) ->
  exists s', (pre;; commit) {| plc := Sim s; writes := [W_INT tag v]; committed := false |}
             = (Ok tt, {| plc := Sim s'; writes := [W_INT tag v]; committed := true |})
             /\ mem_eq (sim_mem s') (upd (sim_mem s0) start (be_bytes 2 (v mod 65536)))
             /\ rd_int (sim_mem s') start = Ok v.
Proof.
  intros Hc Hv Hpre.
  assert (Hp : pack_h v = Ok (be_bytes 2 (v mod 65536))).
  { unfold pack_h.
    destruct (Z.leb_spec (-32768) v), (Z.leb_spec v 32767); try lia. reflexivity. }
  destruct (sim_write_int (D := D) tag v s0 start INT _ Hc Hp) as (s1 & E1 & Hm1).
  destruct (sim_read_int (D := D) tag s1 start INT Hc) as (s2 & E2 & Hm2).
  assert (Hrd : rd_int (sim_mem s1) start = Ok v).
  { unfold rd_int. rewrite (span_ext _ _ start 2 Hm1).
    change 2%nat with (length (be_bytes 2 (v mod 65536))) at 1.
    rewrite span_upd_same. exact (unpack_pack_h v _ Hp). }
  exists s2. split; [|split].
  - assert (Ewv : write_and_verify [W_INT tag v] (Sim (D := D) s0) = (Ok tt, Sim s2)).
    { unfold write_and_verify. rewrite bind_eq, for_each_cons.
      cbn [execute_write]. rewrite E1, for_each_nil.
      rewrite bind_eq. cbn [verify_writes verify_write].
      rewrite !bind_eq, E2. fold (rd_int (sim_mem s1) start). rewrite Hrd.
      rewrite ret_eq, bind_eq, !ret_eq.
      rewrite bool_decide_eq_false_2 by (intros H; apply H; reflexivity).
      reflexivity. }
    rewrite bind_eq, Hpre. unfold commit. cbn [committed writes plc].
    rewrite Ewv. reflexivity.
  - intros i. rewrite (Hm2 i). apply Hm1.
  - rewrite (rd_int_ext _ _ start Hm2). exact Hrd.
Qed.

(** X10.  [set_machine_mode] on the simulator.  Any integer that fits 16
    bits is accepted, member of [MachineMode] or not, and [read_status]
    returns it afterwards.  An integer that does not fit makes the call
    raise after a rollback, and the machine mode then reads 0, whatever it
    was before the call. *)
Theorem set_machine_mode_on_sim (mode : Z) (s : _SimClient.t) :
  (-32768 <= mode <= 32767 ->
   exists c', set_machine_mode mode (Sim (D := D) s) = (Ok tt, c')
              /\ fst (read_status c') = Ok mode)
  /\ (mode < -32768 \/ 32767 < mode ->
      exists c', set_machine_mode mode (Sim (D := D) s)
                 = (Raise (ValueError_rolled_back StructError), c')
                 /\ fst (read_status c') = Ok 0).
Proof.
  unfold set_machine_mode, transaction, write_int, queue, new_transaction.
  split; intros Hv.
  - destruct (sim_transaction_int "MACHINE_MODE" mode 200 s (mret tt) s eq_refl Hv eq_refl)
      as (s' & E & _ & Hrd).
    rewrite bind_eq in E. rewrite ret_eq in E.
    exists (Sim s'). rewrite bind_eq. cbn [plc writes committed app]. rewrite E.
    split; [reflexivity|]. unfold read_status.
    destruct (sim_read_int (D := D) "MACHINE_MODE" s' 200 INT eq_refl) as (s2 & -> & _).
    exact Hrd.
  - assert (Ewv : write_and_verify [W_INT "MACHINE_MODE" mode] (Sim (D := D) s)
                  = (Raise StructError, Sim s)).
    { unfold write_and_verify. rewrite bind_eq, for_each_cons.
      cbn [execute_write]. rewrite write_int_unfold.
      change (lookup_in ["OPERATION"; "INPUTS"] "MACHINE_MODE") with (Ok (entry 200 INT)).
      cbv iota. rewrite (pack_h_out_of_range mode Hv). reflexivity. }
    destruct (sim_write_int (D := D) "MACHINE_MODE" 0 s 200 INT [0; 0] eq_refl eq_refl)
      as (s1 & E1 & Hm1).
    destruct (sim_read_int (D := D) "MACHINE_MODE" s1 200 INT eq_refl) as (s2 & E2 & Hm2).
    assert (Hrd : rd_int (sim_mem s1) 200 = Ok 0).
    { unfold rd_int. rewrite (span_ext _ _ 200 2 Hm1).
      change 2%nat with (length [0; 0]) at 1. rewrite span_upd_same. reflexivity. }
    assert (Erb : rollback [W_INT "MACHINE_MODE" mode] (Sim (D := D) s) = ([], Sim s2)).
    { cbn [rollback]. unfold rollback_write. cbn [neutralise].
      rewrite bind_eq, E1, bind_eq, E2. fold (rd_int (sim_mem s1) 200). rewrite Hrd.
      rewrite ret_eq. change (bool_decide (0 ≠ 0)) with false. reflexivity. }
    exists (Sim s2). split.
    + rewrite bind_eq. cbn [plc writes committed app].
      unfold commit. cbn [committed writes plc]. rewrite Ewv, Erb. reflexivity.
    + unfold read_status.
      destruct (sim_read_int (D := D) "MACHINE_MODE" s2 200 INT eq_refl) as (s3 & -> & _).
      cbn [fst]. fold (rd_int (sim_mem s2) 200).
      rewrite (rd_int_ext _ _ 200 Hm2). exact Hrd.
Qed.

(** X11.  [start_operation] on the simulator: the call returns, the machine
    mode then reads as the payload's, and of the twelve command bits only
    Start of that mode reads true. *)
Theorem start_operation_on_sim (payload : InputPayload) (s : _SimClient.t) :
  sim_ok s ->
  exists c', start_operation payload (Sim (D := D) s) = (Ok tt, c')
             /\ fst (read_status c') = Ok (int_MachineMode (machine_mode payload))
             /\ forall m cmd,
                  cmd_bit m cmd c'
                  = Ok (bool_decide (m = machine_mode payload) && is_START cmd).
Proof.
  intros Hok. set (mode := machine_mode payload).
  destruct (sim_clear_all_cmd_bits (D := D) s Hok) as (s1 & E1 & Hok1 & Hm1).
  destruct (sim_write_bool (D := D) (cmd_tag (mode_map mode) "b_START") true s1
              (mode_byte mode) 0 (bool_target_cmd mode START) ltac:(lia) Hok1)
    as (s2 & E2 & Hm2 & Hok2).
  assert (Hv : -32768 <= int_MachineMode mode <= 32767) by (destruct mode; simpl; lia).
  destruct (sim_transaction_int "MACHINE_MODE" (int_MachineMode mode) 200 s
              (on_plc clear_all_cmd_bits;;
               on_plc (_write_bool (cmd_tag (mode_map mode) "b_START") true))
              s2 eq_refl Hv) as (s' & E & Hm & Hrd).
  { rewrite bind_eq. unfold on_plc at 1. cbn [plc writes committed]. rewrite E1.
    unfold on_plc. cbn [plc writes committed]. rewrite E2. reflexivity. }
  exists (Sim s'). split; [|split].
  - unfold start_operation, transaction. fold mode.
    unfold write_int at 1. unfold queue, new_transaction.
    rewrite bind_eq, bind_eq. cbn [plc writes committed app].
    rewrite bind_eq in E.
    destruct ((on_plc clear_all_cmd_bits;;
               on_plc (_write_bool (cmd_tag (mode_map mode) "b_START") true))
                {| plc := Sim s; writes := [W_INT "MACHINE_MODE" (int_MachineMode mode)];
                   committed := false |}) as [[[]|e] tx1]; [|discriminate].
    rewrite E. reflexivity.
  - unfold read_status.
    destruct (sim_read_int (D := D) "MACHINE_MODE" s' 200 INT eq_refl) as (s3 & -> & _).
    exact Hrd.
  - intros m cmd. rewrite sim_cmd_bit, (Hm (mode_byte m)).
    rewrite upd_outside by (rewrite length_be_bytes; destruct m; simpl; lia).
    rewrite (Hm2 (mode_byte m)).
    pose proof (cmd_bit_offset_range cmd) as Hr.
    destruct (bool_decide_reflect (m = mode)) as [->|Hne].
    + rewrite set_bit_same, testbit_put_bit by lia.
      rewrite (Hm1 (mode_byte mode)).
      destruct cmd; cbn [cmd_bit_offset is_START Z.eqb andb];
        try reflexivity.
      * f_equal. exact (clear_all_mem_bit (sim_mem s) mode PAUSE_PLAY).
      * f_equal. exact (clear_all_mem_bit (sim_mem s) mode CONFIRM).
      * f_equal. exact (clear_all_mem_bit (sim_mem s) mode STOP).
    + rewrite set_bit_other by (destruct m, mode; simpl; congruence).
      rewrite (Hm1 (mode_byte m)), clear_all_mem_bit. reflexivity.
Qed.
End ModeOnSim.

Lemma set_machine_mode_on_sim_witness :
  (exists c', set_machine_mode 7 (new_sim (D := no_device)) = (Ok tt, c')
              /\ fst (read_status c') = Ok 7)
  /\ (exists c', set_machine_mode 40000 (new_sim (D := no_device))
                 = (Raise (ValueError_rolled_back StructError), c')
                 /\ fst (read_status c') = Ok 0).
Proof.
  split.
  - apply (set_machine_mode_on_sim (D := no_device) 7). lia.
  - apply (set_machine_mode_on_sim (D := no_device) 40000). lia.
Defined.

Lemma start_operation_on_sim_witness :
  exists c', start_operation sample_payload (new_sim (D := no_device)) = (Ok tt, c')
             /\ fst (read_status c') = Ok (int_MachineMode (machine_mode sample_payload))
             /\ forall m cmd,
                  cmd_bit m cmd c'
                  = Ok (bool_decide (m = machine_mode sample_payload) && is_START cmd).
Proof.
  exact (start_operation_on_sim (D := no_device) sample_payload
           (_SimClient.connect (_SimClient.init false)) sim_ok_new).
Defined.

(** ** The payload on the PLC *)

Section PayloadStored.
Context {D : Device}.

Lemma well_typed_solvent_of (payload : InputPayload) :
  Forall well_typed (solvent_of payload).
Proof.
  unfold solvent_of, solvent_writes.
  destruct (org_solvent_id payload), (custom_solvent payload);
    repeat apply Forall_cons_2; try apply Forall_nil_2;
    first [reflexivity | split; reflexivity].
Qed.

Lemma queue_parameters_writes (payload : InputPayload) (tx0 tx : PLCTransaction D) :
  queue_parameters payload tx0 = (Ok tt, tx) ->
  tx = {| plc := plc tx0;
          writes := writes tx0 ++ skipn 1 (core_writes payload) ++ solvent_of payload;
          committed := committed tx0 |}.
Proof.
  unfold queue_parameters, write_string, write_int, write_real, queue.
  unfold solvent_of, core_writes, solvent_writes. cbn [skipn].
  destruct (org_solvent_id payload) eqn:Hs.
  1-4: rewrite !bind_eq; cbn [plc writes committed]; intros [= <-];
       rewrite <- !app_assoc; reflexivity.
  destruct (custom_solvent payload) as [solvent|].
  - rewrite !bind_eq. cbn [plc writes committed].
    destruct (16 <? Z.of_nat (length (name solvent))); [discriminate|].
    rewrite !bind_eq. cbn [plc writes committed]. intros [= <-].
    rewrite <- !app_assoc. reflexivity.
  - rewrite !bind_eq. cbn [plc writes committed]. discriminate.
Qed.

Lemma well_typed_payload_writes (payload : InputPayload) :
  Forall well_typed (payload_writes payload).
Proof. unfold payload_writes. repeat constructor. Qed.

Lemma write_payload_body (payload : InputPayload) (c : client D)
    (tx : PLCTransaction D) :
  (write_int "OPERATION_MODE" (int_OperationMode (operation_mode payload));;
   write_int "MACHINE_MODE" (int_MachineMode (machine_mode payload));;
   queue_parameters payload) (new_transaction c) = (Ok tt, tx) ->
  tx = {| plc := c; writes := payload_writes payload ++ solvent_of payload;
          committed := false |}.
Proof.
  unfold write_int at 1 2. unfold queue, new_transaction.
  rewrite !bind_eq. cbn [plc writes committed app]. intros Eb.
  rewrite (queue_parameters_writes payload _ tx Eb). reflexivity.
Qed.

Lemma write_parameters_body (payload : InputPayload) (c : client D)
    (tx : PLCTransaction D) :
  (write_int "OPERATION_MODE" (int_OperationMode (operation_mode payload));;
   queue_parameters payload) (new_transaction c) = (Ok tt, tx) ->
  tx = {| plc := c; writes := core_writes payload ++ solvent_of payload;
          committed := false |}.
Proof.
  unfold write_int at 1. unfold queue, new_transaction.
  rewrite !bind_eq. cbn [plc writes committed app]. intros Eb.
  rewrite (queue_parameters_writes payload _ tx Eb). reflexivity.
Qed.

Lemma read_operation_mode_stored (c : client D) (mode : OperationMode) :
  fst (_read_int "OPERATION_MODE" c) = Ok (int_OperationMode mode) ->
  fst (read_operation_mode c) = ModeRead mode.
Proof.
  unfold read_operation_mode.
  destruct (_read_int "OPERATION_MODE" c) as [[v|e] c1]; [|discriminate].
  cbn [fst]. intros [= ->]. destruct mode; reflexivity.
Qed.

Lemma sim_transaction_stored (body : M (PLCTransaction D) unit) (ws : list write)
    (s : _SimClient.t) (c' : client D) :
  Forall well_typed ws -> NoDup (write_tag <$> ws) ->
  (forall tx, body (new_transaction (Sim s)) = (Ok tt, tx) ->
              tx = {| plc := Sim s; writes := ws; committed := false |}) ->
  transaction body (Sim s) = (Ok tt, c') ->
  forall w, w ∈ ws -> reads_stored w c'.
Proof.
  intros Hws Hnd Hbody. unfold transaction. rewrite bind_eq.
  destruct (body (new_transaction (Sim s))) as [[[]|e] tx] eqn:Eb; [|discriminate].
  rewrite (Hbody tx eq_refl). unfold commit. cbn [committed writes plc].
  destruct (write_and_verify ws (Sim s)) as [[[]|e] c1] eqn:E.
  - cbn [plc]. intros [= <-]. exact (sim_reads_stored ws s c1 Hws Hnd E).
  - destruct (rollback ws c1) as [[|r rb] c2]; discriminate.
Qed.

Lemma payload_tags_distinct (payload : InputPayload) :
  NoDup (write_tag <$> payload_writes payload ++ solvent_of payload)
  /\ NoDup (write_tag <$> core_writes payload ++ solvent_of payload).
Proof.
  unfold solvent_of.
  destruct (org_solvent_id payload), (custom_solvent payload);
    split; apply (bool_decide_unpack _); vm_compute; reflexivity.
Qed.

(** X12.  On the simulator, when [write_payload_to_plc] returns, the PLC
    holds the payload.  [read_operation_mode] returns the payload's
    operation mode, [read_status] its machine mode, and every parameter
    tag, the solvent fields included (cleared for a preset solvent), reads
    back as the payload has it: an [INT] or the name as the value itself, a
    [REAL] as the binary32 rounding of the payload's number, which the
    comparison of the verification accepts.  The same holds of
    [write_parameters_to_plc], the machine mode apart. *)
Theorem payload_is_stored (payload : InputPayload) (s : _SimClient.t) (c' : client D) :
  (write_payload_to_plc payload (Sim s) = (Ok tt, c') ->
   fst (read_operation_mode c') = ModeRead (operation_mode payload)
   /\ fst (read_status c') = Ok (int_MachineMode (machine_mode payload))
   /\ forall w, w ∈ payload_writes payload ++ solvent_of payload -> reads_stored w c')
  /\ (write_parameters_to_plc payload (Sim s) = (Ok tt, c') ->
      fst (read_operation_mode c') = ModeRead (operation_mode payload)
      /\ forall w, w ∈ core_writes payload ++ solvent_of payload -> reads_stored w c').
Proof.
  destruct (payload_tags_distinct payload) as [Hnd1 Hnd2].
  split; intros H.
  - assert (Hall : forall w, w ∈ payload_writes payload ++ solvent_of payload ->
                             reads_stored w c').
    { unfold write_payload_to_plc in H.
      eapply sim_transaction_stored; [ | exact Hnd1 | | exact H].
      - apply Forall_app. split;
          [apply well_typed_payload_writes | apply well_typed_solvent_of].
      - apply write_payload_body. }
    split; [|split; [|exact Hall]].
    + apply read_operation_mode_stored.
      apply (Hall (W_INT "OPERATION_MODE" (int_OperationMode (operation_mode payload)))).
      apply elem_of_app. left. apply list_elem_of_here.
    + apply (Hall (W_INT "MACHINE_MODE" (int_MachineMode (machine_mode payload)))).
      apply elem_of_app. left. apply list_elem_of_further, list_elem_of_here.
  - assert (Hall : forall w, w ∈ core_writes payload ++ solvent_of payload ->
                             reads_stored w c').
    { unfold write_parameters_to_plc in H.
      eapply sim_transaction_stored; [ | exact Hnd2 | | exact H].
      - apply Forall_app. split;
          [apply well_typed_core_writes | apply well_typed_solvent_of].
      - apply write_parameters_body. }
    split; [|exact Hall].
    apply read_operation_mode_stored.
    apply (Hall (W_INT "OPERATION_MODE" (int_OperationMode (operation_mode payload)))).
    apply elem_of_app. left. apply list_elem_of_here.
Qed.
End PayloadStored.

Lemma payload_is_stored_witness :
  let c := new_sim (D := no_device) in
  let c1 := snd (write_payload_to_plc custom_payload c) in
  let c2 := snd (write_parameters_to_plc custom_payload c) in
  (write_payload_to_plc custom_payload c = (Ok tt, c1)
   /\ fst (read_operation_mode c1) = ModeRead (operation_mode custom_payload)
   /\ fst (read_status c1) = Ok (int_MachineMode (machine_mode custom_payload))
   /\ forall w, w ∈ payload_writes custom_payload ++ solvent_of custom_payload ->
                reads_stored w c1)
  /\ (write_parameters_to_plc custom_payload c = (Ok tt, c2)
      /\ fst (read_operation_mode c2) = ModeRead (operation_mode custom_payload)
      /\ forall w, w ∈ core_writes custom_payload ++ solvent_of custom_payload ->
                   reads_stored w c2).
Proof.
  intros c c1 c2.
  assert (H1 : write_payload_to_plc custom_payload c = (Ok tt, c1))
    by (vm_compute; reflexivity).
  assert (H2 : write_parameters_to_plc custom_payload c = (Ok tt, c2))
    by (vm_compute; reflexivity).
  split.
  - split; [exact H1|].
    exact (proj1 (payload_is_stored (D := no_device) custom_payload _ c1) H1).
  - split; [exact H2|].
    exact (proj2 (payload_is_stored (D := no_device) custom_payload _ c2) H2).
Defined.

Section PayloadFrame.
Context {D : Device}.

Lemma solvent_of_queued (payload : InputPayload) (tx0 tx : PLCTransaction D) :
  queue_parameters payload tx0 = (Ok tt, tx) ->
  exists name v1 v2 v3, solvent_of payload = solvent_writes name v1 v2 v3.
Proof.
  unfold queue_parameters, solvent_of. rewrite !bind_eq.
  destruct (org_solvent_id payload); try (intros _; solve [eauto]).
  destruct (custom_solvent payload) as [solvent|]; [intros _; solve [eauto]|].
  unfold write_real, write_int, queue, raise. discriminate.
Qed.

(** A commit of parameter writes followed by the solvent fields, when it
    returns, has stored bytes of the footprints of those writes and of
    [224, 258) only. *)
Lemma sim_params_commit_bytes (pre : list write) (name : pystr) (v1 v2 v3 : spec_float)
    (s : _SimClient.t) (c' : client D) :
  Forall param_write pre -> Forall well_typed pre ->
  write_and_verify (pre ++ solvent_writes name v1 v2 v3) (Sim s) = (Ok tt, c') ->
  exists s', c' = Sim s'
             /\ utf8_encode name = Some name
             /\ Z.of_nat (length name) <= 16
             /\ forall i, Forall (fun w => outside (footprint w) i) pre ->
                          (i < 224 \/ 258 <= i)%nat ->
                          sim_mem s' i = sim_mem s i.
Proof.
  intros Hpre Hwt Ewv.
  set (ws := pre ++ solvent_writes name v1 v2 v3) in *.
  unfold write_and_verify in Ewv. rewrite bind_eq in Ewv.
  destruct (for_each ws execute_write (Sim s)) as [[[]|e] cw] eqn:Ew; [|discriminate].
  rewrite bind_eq in Ewv.
  destruct (verify_writes ws cw) as [[[|err errs]|e] cv] eqn:Ev; try discriminate.
  rewrite ret_eq in Ewv. injection Ewv as <-.
  unfold ws in Ew. rewrite for_each_app in Ew.
  destruct (for_each pre execute_write (Sim s)) as [[[]|e] ca] eqn:Ea; [|discriminate].
  destruct (sim_execute_writes_frame _ s _ ca Hpre Ea) as (sa & -> & Fa).
  unfold solvent_writes in Ew. rewrite for_each_cons in Ew.
  destruct (execute_write (W_STRING "s_CUSTOM_ORG_SOLVENT" name 16) (Sim sa))
    as [[[]|e] cb] eqn:Es; [|discriminate].
  destruct (sim_write_string name 16 sa cb Es) as (sb & encoded & -> & Henc & Hlen & Hb).
  assert (Htail : Forall param_write
                    [W_REAL "r_VISCOSITY" v1; W_REAL "r_SENSITIVITY" v2;
                     W_REAL "r_MOLAR_VOLUME" v3]) by (repeat constructor).
  destruct (sim_execute_writes_frame _ sb _ cw Htail Ew) as (sw & -> & Fw).
  pose (dpeek := fun (_ : dev D) (_ : nat) => 0).
  assert (Hg : good_client dpeek (Sim (D := D) sw)) by exact I.
  unfold ws, solvent_writes in Ev.
  destruct (verify_writes_nil_inv dpeek _ _ _ _ _ Hg Hwt Ev) as (c1 & Hk1 & Hm1 & Hv1).
  destruct (verify_string_mem dpeek c1 name 16 (good_client_same_kind dpeek _ _ Hk1 Hg))
    as (c2 & E2 & _ & _).
  rewrite E2 in Hv1. cbn [fst] in Hv1.
  rewrite (rd_string_ext _ _ 224 Hm1) in Hv1. cbn [cmem] in Hv1.
  destruct (rd_string (sim_mem sw) 224) as [actual|e] eqn:Hrd; [|discriminate].
  destruct (bool_decide_reflect (actual ≠ name)) as [|Hactual]; [discriminate|].
  apply dec_stable in Hactual. subst actual.
  assert (Hascii : encoded = name).
  { apply (rd_string_written (sim_mem sw) name encoded 16 Henc); [|exact Hrd].
    intros j b Hj Hdata.
    rewrite Fw by all_outside.
    rewrite (Hb (224 + j)%nat). apply upd_inside. exact Hdata. }
  subst encoded.
  pose proof (verify_writes_mem dpeek ws (Sim sw) Hg) as Hmv.
  pose proof (keeps_kind_verify_writes ws (Sim (D := D) sw)) as Hkv.
  unfold ws, solvent_writes in Hmv, Hkv. rewrite Ev in Hmv, Hkv. cbn [snd] in Hmv, Hkv.
  destruct cv as [sv|]; [|contradiction].
  exists sv. split; [reflexivity|]. split; [exact Henc|]. split; [exact Hlen|].
  intros i Hi Hr.
  specialize (Hmv ltac:(apply Forall_app; split;
                        [exact Hwt | repeat constructor; reflexivity]) i).
  cbn [cmem] in Hmv. rewrite Hmv.
  rewrite Fw by all_outside.
  rewrite (Hb i), upd_outside.
  - apply Fa. exact Hi.
  - rewrite !length_app, length_replicate. cbn [length]. lia.
Qed.

Lemma param_payload_writes (payload : InputPayload) :
  Forall param_write (payload_writes payload).
Proof. unfold payload_writes. repeat constructor. Qed.

(** X13.  On the simulator, when [write_payload_to_plc] returns, the twelve
    command bits and [CRUNCH_VALID] read as they did before the call: the
    payload is stored without a command being given. *)
Theorem write_payload_frame (payload : InputPayload) (s : _SimClient.t)
    (c' : client D) :
  write_payload_to_plc payload (Sim s) = (Ok tt, c') ->
  fst (_read_bool "CRUNCH_VALID" c') = fst (_read_bool "CRUNCH_VALID" (Sim (D := D) s))
  /\ forall mode cmd, cmd_bit mode cmd c' = cmd_bit mode cmd (Sim (D := D) s).
Proof.
  unfold write_payload_to_plc, transaction. rewrite bind_eq.
  destruct ((write_int "OPERATION_MODE" (int_OperationMode (operation_mode payload));;
             write_int "MACHINE_MODE" (int_MachineMode (machine_mode payload));;
             queue_parameters payload) (new_transaction (Sim s)))
    as [[[]|e] tx1] eqn:Eb; [|discriminate].
  assert (Hsol : exists name v1 v2 v3, solvent_of payload = solvent_writes name v1 v2 v3).
  { revert Eb. unfold write_int at 1 2. unfold queue, new_transaction.
    rewrite !bind_eq. cbn [plc writes committed app]. apply solvent_of_queued. }
  rewrite (write_payload_body payload (Sim s) tx1 Eb).
  destruct Hsol as (name & v1 & v2 & v3 & ->).
  unfold commit. cbn [committed writes plc].
  destruct (write_and_verify _ (Sim s)) as [[[]|e] c1] eqn:Ewv.
  2: { destruct (rollback _ c1) as [[|] ?]; discriminate. }
  cbn [plc]. intros [= <-].
  destruct (sim_params_commit_bytes _ name v1 v2 v3 s c1 (param_payload_writes payload)
              (well_typed_payload_writes payload) Ewv)
    as (s' & -> & _ & _ & Hf).
  assert (Hframe : forall i, (202 <= i < 204 \/ 258 <= i)%nat -> sim_mem s' i = sim_mem s i).
  { intros i Hi. apply Hf; [|lia]. unfold payload_writes. all_outside. }
  split.
  - destruct (sim_read_bool (D := D) "CRUNCH_VALID" s' 202 0 eq_refl ltac:(lia))
      as (s1 & -> & _).
    destruct (sim_read_bool (D := D) "CRUNCH_VALID" s 202 0 eq_refl ltac:(lia))
      as (s2 & -> & _).
    cbn [fst]. rewrite Hframe by lia. reflexivity.
  - intros mode cmd. rewrite !sim_cmd_bit. rewrite Hframe; [reflexivity|].
    destruct mode; simpl; lia.
Qed.
End PayloadFrame.

Lemma write_payload_frame_witness :
  let s := _SimClient.set_db (_SimClient.init false) (replicate 258 0 ++ [1]) in
  let c' := snd (write_payload_to_plc sample_payload (Sim (D := no_device) s)) in
  write_payload_to_plc sample_payload (Sim (D := no_device) s) = (Ok tt, c')
  /\ fst (_read_bool "CRUNCH_VALID" c')
     = fst (_read_bool "CRUNCH_VALID" (Sim (D := no_device) s))
  /\ forall mode cmd, cmd_bit mode cmd c' = cmd_bit mode cmd (Sim (D := no_device) s).
Proof.
  intros s c'.
  assert (H : write_payload_to_plc sample_payload (Sim (D := no_device) s) = (Ok tt, c'))
    by (vm_compute; reflexivity).
  split; [exact H|]. exact (write_payload_frame sample_payload s c' H).
Defined.

(** ** The custom solvent name *)

Lemma utf8_encode_ascii (s : pystr) : ascii_only s -> utf8_encode s = Some s.
Proof.
  induction s as [|c s IH]; intros Ha; [reflexivity|].
  apply Forall_cons in Ha as [Hc Hs]. cbn [utf8_encode]. rewrite (IH Hs).
  unfold utf8_encode_char.
  rewrite (proj2 (Z.ltb_ge c 0)) by lia.
  rewrite (proj2 (Z.ltb_ge 1114111 c)) by lia.
  rewrite (proj2 (Z.ltb_lt c 128)) by lia. reflexivity.
Qed.

Lemma utf8_encode_char_one (c b : Z) : utf8_encode_char c = Some [b] -> 0 <= c < 128.
Proof.
  unfold utf8_encode_char.
  destruct (Z.ltb_spec c 0); [discriminate|].
  destruct (Z.ltb_spec 1114111 c); [discriminate|]. cbn [orb].
  destruct (Z.ltb_spec c 128); [lia|].
  repeat match goal with
         | |- context [if ?b then _ else _] => destruct b
         end; discriminate.
Qed.

(** A string whose encoding has one byte per character is plain ASCII. *)
Lemma utf8_encode_same_length (s : pystr) (bs : list Z) :
  utf8_encode s = Some bs -> length bs = length s -> ascii_only s.
Proof.
  revert bs. induction s as [|c s IH]; intros bs; cbn [utf8_encode].
  - intros _ _. constructor.
  - destruct (utf8_encode_char c) as [b1|] eqn:Ec; [|discriminate].
    destruct (utf8_encode s) as [rest|] eqn:Es; [|discriminate].
    intros [= <-]. rewrite length_app. cbn [length]. intros Hl.
    pose proof (utf8_encode_char_length c b1 Ec) as H1.
    destruct (utf8_encode_length s rest Es) as [Hle _].
    assert (Hb1 : length b1 = 1%nat) by lia.
    destruct b1 as [|b [|b' l]]; try discriminate Hb1.
    apply Forall_cons_2; [exact (utf8_encode_char_one c b Ec)|].
    apply (IH rest eq_refl). cbn [length] in Hl. lia.
Qed.

Lemma utf8_decode_aux_ascii (fuel : nat) (bs : list Z) :
  (length bs <= fuel)%nat -> ascii_only bs -> utf8_decode_aux fuel bs = Some bs.
Proof.
  revert bs. induction fuel as [|fuel IH]; intros bs Hl Ha.
  - destruct bs; [reflexivity | simpl in Hl; lia].
  - destruct bs as [|b bs]; [reflexivity|].
    apply Forall_cons in Ha as [Hb Hbs]. cbn [utf8_decode_aux].
    rewrite (proj2 (Z.leb_le 0 b)) by lia.
    rewrite (proj2 (Z.ltb_lt b 128)) by lia. cbn [andb].
    rewrite IH; [reflexivity | simpl in Hl; lia | exact Hbs].
Qed.

Section StringOnSim.
Context {D : Device}.

(** X14.  On the simulator, a string of plain ASCII characters that fits
    [max_len], itself at most 255, is read back as it was written. *)
Theorem string_round_trip (value : pystr) (max_len : Z) (s : _SimClient.t) :
  ascii_only value ->
  Z.of_nat (length value) <= max_len <= 255 ->
  exists c', (_write_string "s_CUSTOM_ORG_SOLVENT" value max_len;;
              _read_string "s_CUSTOM_ORG_SOLVENT") (Sim (D := D) s)
             = (Ok value, c').
Proof.
  intros Ha Hlen. rewrite bind_eq.
  assert (Hw : exists s1,
             _write_string "s_CUSTOM_ORG_SOLVENT" value max_len (Sim (D := D) s)
             = (Ok tt, Sim s1)
             /\ mem_eq (sim_mem s1)
                  (upd (sim_mem s) 224
                     ([max_len; Z.of_nat (length value)] ++ value
                      ++ replicate (Z.to_nat (max_len - Z.of_nat (length value))) 0))).
  { unfold _write_string. rewrite string_cfg. cbn [cfg_type cfg_start cfg_db_number].
    rewrite (proj2 (Z.ltb_ge max_len (Z.of_nat (length value)))) by lia.
    rewrite (proj2 (Z.ltb_ge 255 max_len)) by lia.
    rewrite (utf8_encode_ascii value Ha).
    rewrite bind_eq. unfold lift, as_index. apply sim_db_write. }
  destruct Hw as (s1 & -> & Hm1).
  pose (dpeek := fun (_ : dev D) (_ : nat) => 0).
  destruct (client_read_string dpeek (Sim s1) I) as (c2 & -> & _).
  exists c2. f_equal. cbn [cmem]. rewrite (rd_string_ext _ _ 224 Hm1).
  unfold rd_string. change (224 + 1)%nat with (224 + 1)%nat.
  rewrite (upd_inside _ 224 _ 1 (Z.of_nat (length value))) by reflexivity.
  destruct (Z.ltb_spec 0 (Z.of_nat (length value))) as [Hpos|Hz].
  - rewrite Nat2Z.id.
    assert (Hspan : span (upd (sim_mem s) 224
                            ([max_len; Z.of_nat (length value)] ++ value
                             ++ replicate (Z.to_nat (max_len - Z.of_nat (length value))) 0))
                      (224 + 2) (length value) = value).
    { apply list_eq. intros j.
      destruct (decide (j < length value)%nat) as [Hj|Hj].
      - rewrite lookup_span by exact Hj.
        destruct (lookup_lt_is_Some_2 value j Hj) as [b Hb]. rewrite Hb. f_equal.
        replace (224 + 2 + j)%nat with (224 + (2 + j))%nat by lia.
        apply upd_inside. cbn [app].
        change ((value ++ replicate (Z.to_nat (max_len - Z.of_nat (length value))) 0) !! j
                = Some b).
        rewrite lookup_app_l by exact Hj. exact Hb.
      - rewrite !lookup_ge_None_2; [reflexivity | lia | rewrite length_span; lia]. }
    rewrite Hspan. unfold utf8_decode.
    rewrite (utf8_decode_aux_ascii _ value (le_n _) Ha). reflexivity.
  - destruct value; [reflexivity | simpl in Hz; lia].
Qed.

(** X15.  On the simulator, a custom solvent is stored only if its name is
    plain ASCII: when [write_parameters_to_plc] or [write_payload_to_plc]
    returns for a payload with a custom solvent, every character of the
    name is below 128 and the name has at most 16 characters.  With any
    other name the call raises. *)
Theorem custom_name_stored_only_if_ascii (payload : InputPayload)
    (solvent : CustomSolvent) (s : _SimClient.t) (c' : client D) :
  org_solvent_id payload = CUSTOM ->
  custom_solvent payload = Some solvent ->
  write_parameters_to_plc payload (Sim s) = (Ok tt, c')
  \/ write_payload_to_plc payload (Sim s) = (Ok tt, c') ->
  ascii_only (name solvent) /\ Z.of_nat (length (name solvent)) <= 16.
Proof.
  intros Hs Hc H.
  assert (Hsol : solvent_of payload
                 = solvent_writes (name solvent) (viscosity solvent)
                     (sensitivity solvent) (molar_volume solvent)).
  { unfold solvent_of. rewrite Hs, Hc. reflexivity. }
  assert (Henc : utf8_encode (name solvent) = Some (name solvent)
                 /\ Z.of_nat (length (name solvent)) <= 16).
  { destruct H as [H|H].
    - unfold write_parameters_to_plc, transaction in H. rewrite bind_eq in H.
      destruct ((write_int "OPERATION_MODE" (int_OperationMode (operation_mode payload));;
                 queue_parameters payload) (new_transaction (Sim s)))
        as [[[]|e] tx1] eqn:Eb; [|discriminate].
      rewrite (write_parameters_body payload (Sim s) tx1 Eb), Hsol in H.
      unfold commit in H. cbn [committed writes plc] in H.
      destruct (write_and_verify _ (Sim s)) as [[[]|e] c1] eqn:Ewv.
      + destruct (sim_params_commit_bytes _ _ _ _ _ s c1 (param_core_writes payload)
                    (well_typed_core_writes payload) Ewv) as (s' & _ & He & Hl & _).
        auto.
      + destruct (rollback _ c1) as [[|] ?]; discriminate.
    - unfold write_payload_to_plc, transaction in H. rewrite bind_eq in H.
      destruct ((write_int "OPERATION_MODE" (int_OperationMode (operation_mode payload));;
                 write_int "MACHINE_MODE" (int_MachineMode (machine_mode payload));;
                 queue_parameters payload) (new_transaction (Sim s)))
        as [[[]|e] tx1] eqn:Eb; [|discriminate].
      rewrite (write_payload_body payload (Sim s) tx1 Eb), Hsol in H.
      unfold commit in H. cbn [committed writes plc] in H.
      destruct (write_and_verify _ (Sim s)) as [[[]|e] c1] eqn:Ewv.
      + destruct (sim_params_commit_bytes _ _ _ _ _ s c1 (param_payload_writes payload)
                    (well_typed_payload_writes payload) Ewv) as (s' & _ & He & Hl & _).
        auto.
      + destruct (rollback _ c1) as [[|] ?]; discriminate. }
  destruct Henc as [He Hl]. split; [|exact Hl].
  exact (utf8_encode_same_length _ _ He eq_refl).
Qed.
End StringOnSim.

Lemma string_round_trip_witness :
  let value := [116; 101; 115; 116; 49; 50; 51] in
  ascii_only value
  /\ Z.of_nat (length value) <= 16 <= 255
  /\ exists c', (_write_string "s_CUSTOM_ORG_SOLVENT" value 16;;
                 _read_string "s_CUSTOM_ORG_SOLVENT") (new_sim (D := no_device))
                = (Ok value, c').
Proof.
  intros value.
  assert (Ha : ascii_only value)
    by (repeat apply Forall_cons_2; try apply Forall_nil_2; lia).
  assert (Hl : Z.of_nat (length value) <= 16 <= 255) by (simpl; lia).
  split; [exact Ha|]. split; [exact Hl|].
  exact (string_round_trip (D := no_device) value 16
           (_SimClient.connect (_SimClient.init false)) Ha Hl).
Defined.

Lemma custom_name_stored_only_if_ascii_witness :
  let c' := snd (write_payload_to_plc custom_payload (new_sim (D := no_device))) in
  write_payload_to_plc custom_payload (new_sim (D := no_device)) = (Ok tt, c')
  /\ ascii_only (name sample_custom_solvent)
  /\ Z.of_nat (length (name sample_custom_solvent)) <= 16.
Proof.
  intros c'.
  assert (H : write_payload_to_plc custom_payload (new_sim (D := no_device)) = (Ok tt, c'))
    by (vm_compute; reflexivity).
  split; [exact H|].
  exact (custom_name_stored_only_if_ascii (D := no_device) custom_payload
           sample_custom_solvent (_SimClient.connect (_SimClient.init false)) c'
           eq_refl eq_refl (or_intror H)).
Defined.

(** ** The simulator's store *)

(** X16.  The simulator's store: bytes written with [db_write] are read
    back by [db_read], whatever the size of the store was, since both extend
    it on demand; a read of bytes apart from the written ones returns what
    it returned before the write; the store never shrinks; and a read
    repeated returns the same bytes. *)
Theorem sim_store_round_trip (start : nat) (data : list Z) (s : _SimClient.t) :
  exists s1 s2,
    _SimClient.db_write 9 start data s = (Ok tt, s1)
    /\ _SimClient.db_read 9 start (length data) s1 = (Ok data, s2)
    /\ (length (_SimClient._db s) <= length (_SimClient._db s1))%nat
    /\ (forall st sz,
          (st + sz <= start \/ start + length data <= st)%nat ->
          fst (_SimClient.db_read 9 st sz s1) = fst (_SimClient.db_read 9 st sz s))
    /\ (forall st sz,
          fst (_SimClient.db_read 9 st sz (snd (_SimClient.db_read 9 st sz s)))
          = fst (_SimClient.db_read 9 st sz s)).
Proof.
  destruct (sim_db_write_ok start data s) as (s1 & E1 & Hm1).
  destruct (sim_db_read_ok start (length data) s1) as (s2 & E2 & Hm2).
  exists s1, s2. split; [exact E1|]. split; [|split; [|split]].
  - rewrite E2. f_equal. f_equal.
    rewrite (span_ext _ _ start (length data) Hm1). apply span_upd_same.
  - injection E1 as <-. cbn.
    pose proof (length_extend_to (start + length data) (_SimClient._db s)) as Hl.
    rewrite !length_app, length_take, length_drop.
    assert (Hle : (length (_SimClient._db s)
                   <= length (_SimClient.extend_to (start + length data)
                                (_SimClient._db s)))%nat).
    { unfold _SimClient.extend_to. destruct (_ <? _)%nat.
      - rewrite length_app. lia.
      - lia. }
    lia.
  - intros st sz Hd.
    destruct (sim_db_read_ok st sz s1) as (s3 & -> & _).
    destruct (sim_db_read_ok st sz s) as (s4 & -> & _).
    cbn [fst]. f_equal.
    rewrite (span_ext _ _ st sz Hm1). apply span_upd_disjoint. lia.
  - intros st sz.
    destruct (sim_db_read_ok st sz s) as (s3 & E3 & Hm3). rewrite E3. cbn [fst snd].
    destruct (sim_db_read_ok st sz s3) as (s4 & -> & _).
    cbn [fst]. f_equal. apply span_ext, Hm3.
Qed.

Section BoolOnSim.
Context {D : Device}.

(** X17.  On the simulator, for every tag [_write_bool] accepts as a
    [BOOL]: the write returns, the tag then reads as written, and nothing
    else has changed, the other bits of its byte and the other bytes being
    what they were. *)
Theorem bool_round_trip (tag : string) (v : bool) (s : _SimClient.t) :
  declared BOOL tag -> sim_ok s ->
  exists s1 c2 byte bit,
    _write_bool tag v (Sim (D := D) s) = (Ok tt, Sim s1)
    /\ _read_bool tag (Sim (D := D) s1) = (Ok v, c2)
    /\ bool_target tag = Ok (9, byte, bit)
    /\ (forall i, i <> byte -> sim_mem s1 i = sim_mem s i)
    /\ (forall k, 0 <= k -> k <> bit ->
                  Z.testbit (sim_mem s1 byte) k = Z.testbit (sim_mem s byte) k).
Proof.
  intros Hd Hok.
  destruct (declared_BOOL_target tag Hd) as (byte & bit & Ht & Hbit & _).
  destruct (sim_write_bool (D := D) tag v s byte bit Ht Hbit Hok) as (s1 & E1 & Hm1 & Hok1).
  destruct (sim_read_bool (D := D) tag s1 byte bit Ht ltac:(lia)) as (s2 & E2 & _).
  exists s1, (Sim s2), byte, bit. split; [exact E1|]. split; [|split; [exact Ht|split]].
  - rewrite E2, (Hm1 byte), set_bit_same, testbit_put_bit by lia.
    rewrite Z.eqb_refl. reflexivity.
  - intros i Hi. rewrite (Hm1 i). apply set_bit_other, Hi.
  - intros k Hk Hne. rewrite (Hm1 byte), set_bit_same, testbit_put_bit by lia.
    destruct (Z.eqb_spec bit k); [congruence | reflexivity].
Qed.
End BoolOnSim.

Lemma bool_round_trip_witness :
  exists s1 c2 byte bit,
    _write_bool "COMMANDS_RUN.b_START" true (new_sim (D := no_device)) = (Ok tt, Sim s1)
    /\ _read_bool "COMMANDS_RUN.b_START" (Sim (D := no_device) s1) = (Ok true, c2)
    /\ bool_target "COMMANDS_RUN.b_START" = Ok (9, byte, bit)
    /\ (forall i, i <> byte ->
                  sim_mem s1 i = sim_mem (_SimClient.connect (_SimClient.init false)) i)
    /\ (forall k, 0 <= k -> k <> bit ->
                  Z.testbit (sim_mem s1 byte) k
                  = Z.testbit (sim_mem (_SimClient.connect (_SimClient.init false)) byte) k).
Proof.
  exact (bool_round_trip (D := no_device) "COMMANDS_RUN.b_START" true
           (_SimClient.connect (_SimClient.init false)) eq_refl sim_ok_new).
Defined.

(** ** The bytes the typed writes can reach *)

Lemma all_entries_in_block (c : cfg) : c ∈ all_entries -> entry_in_block c = true.
Proof.
  assert (H : forallb entry_in_block all_entries = true) by (vm_compute; reflexivity).
  intros Hc. apply list_elem_of_In in Hc.
  exact (proj1 (forallb_forall _ _) H c Hc).
Qed.

Section TypedWrites.
Context {D : Device}.

Lemma only_block_changed_refl (s : _SimClient.t) : only_block_changed (D := D) s (Sim s).
Proof. exists s. auto. Qed.

Lemma sim_db_write_in_block (start : nat) (data : list Z) (s : _SimClient.t) :
  (198 <= start)%nat -> (start + length data <= 263)%nat ->
  only_block_changed s (snd (db_write (D := D) 9 start data (Sim s))).
Proof.
  intros Hlo Hhi. destruct (sim_db_write (D := D) start data s) as (s' & -> & Hm).
  exists s'. split; [reflexivity|]. intros i Hi.
  rewrite (Hm i). apply upd_outside. lia.
Qed.

(** X18.  The typed writes stay in their block.  On the simulator,
    [_write_real], [_write_int] and [_write_bool] change no byte outside
    bytes 198 to 262 of data block 9, whatever the tag and the value, and
    whether the call returns or raises. *)
Theorem typed_writes_stay_in_block (tag : string) (s : _SimClient.t) :
  (forall v, only_block_changed s (snd (_write_real tag v (Sim (D := D) s))))
  /\ (forall v, only_block_changed s (snd (_write_int tag v (Sim (D := D) s))))
  /\ (forall v, only_block_changed s (snd (_write_bool tag v (Sim (D := D) s)))).
Proof.
  split; [|split]; intros v.
  - rewrite write_real_unfold. unfold lookup_in.
    destruct (find_cfg _ tag) as [c|] eqn:Hc; [|apply only_block_changed_refl].
    destruct (pack_f v) as [data|e] eqn:Hp; [|apply only_block_changed_refl].
    pose proof (all_entries_in_block c (find_cfg_entry _ _ _ Hc)) as Hin.
    unfold entry_in_block in Hin. unfold as_index.
    destruct (cfg_start c) as [n|x]; [|apply only_block_changed_refl].
    apply andb_prop in Hin as [Hin Hn]. apply andb_prop in Hin as [Hdb _].
    apply andb_prop in Hn as [Hlo Hhi].
    apply Z.eqb_eq in Hdb. apply Nat.leb_le in Hlo, Hhi. rewrite Hdb.
    apply sim_db_write_in_block; [exact Hlo|].
    rewrite (pack_f_length v data Hp). exact Hhi.
  - rewrite write_int_unfold. unfold lookup_in.
    destruct (find_cfg _ tag) as [c|] eqn:Hc; [|apply only_block_changed_refl].
    destruct (pack_h v) as [data|e] eqn:Hp; [|apply only_block_changed_refl].
    pose proof (all_entries_in_block c (find_cfg_entry _ _ _ Hc)) as Hin.
    unfold entry_in_block in Hin. unfold as_index.
    destruct (cfg_start c) as [n|x]; [|apply only_block_changed_refl].
    apply andb_prop in Hin as [Hin Hn]. apply andb_prop in Hin as [Hdb _].
    apply andb_prop in Hn as [Hlo Hhi].
    apply Z.eqb_eq in Hdb. apply Nat.leb_le in Hlo, Hhi. rewrite Hdb.
    apply sim_db_write_in_block; [exact Hlo|].
    rewrite (pack_h_length v data Hp). lia.
  - rewrite write_bool_unfold. unfold bool_target.
    destruct (bool_cfg tag) as [c|e] eqn:Hc; [|apply only_block_changed_refl].
    pose proof (all_entries_in_block c (bool_cfg_entry _ _ Hc)) as Hin.
    unfold entry_in_block in Hin.
    destruct (bit_address c) as [[byte bit]|e]; [|apply only_block_changed_refl].
    apply andb_prop in Hin as [Hin _]. apply andb_prop in Hin as [Hdb Hb].
    apply andb_prop in Hb as [Hlo Hhi].
    apply Z.eqb_eq in Hdb. apply Nat.leb_le in Hlo. apply Nat.ltb_lt in Hhi.
    rewrite Hdb.
    pose proof (sim_db_write_bit_frame byte bit (if v then 1 else 0) s) as Hf.
    destruct (_SimClient.db_write_bit 9 byte bit (if v then 1 else 0) s) as [r s'].
    exists s'. split; [reflexivity|]. intros i Hi. apply Hf. lia.
Qed.
End TypedWrites.

(** ** Command tags *)

(** X19.  [_get_command_tag] returns a tag exactly for a mode key and a
    command key of its two lists, and the tag it returns is one the [BOOL]
    helpers resolve, to the byte of the mode and the bit of the command;
    otherwise it names the key it refuses, the mode key first. *)
Theorem get_command_tag_resolves (mode_key cmd_key : string) :
  match _get_command_tag mode_key cmd_key with
  | inr tag =>
      exists mode cmd,
        mode_key = mode_map mode /\ cmd_key = cmd_map cmd
        /\ tag = cmd_tag mode_key cmd_key
        /\ bool_target tag = Ok (9, mode_byte mode, cmd_bit_offset cmd)
  | inl (InvalidModeKey k) => k = mode_key /\ mode_key ∉ mode_keys
  | inl (InvalidCommandKey k) =>
      k = cmd_key /\ mode_key ∈ mode_keys /\ cmd_key ∉ cmd_keys
  end.
Proof.
  unfold _get_command_tag.
  destruct (bool_decide_reflect (mode_key ∈ mode_keys)) as [Hm|Hm]; [|auto].
  destruct (bool_decide_reflect (cmd_key ∈ cmd_keys)) as [Hc|Hc]; [|auto].
  assert (Hmode : exists mode, mode_key = mode_map mode).
  { unfold mode_keys in Hm. apply list_elem_of_In in Hm. simpl in Hm.
    destruct Hm as [<-|[<-|[<-|[]]]];
      [exists RUN | exists CLEAN | exists PRESSURE_TEST]; reflexivity. }
  assert (Hcmd : exists cmd, cmd_key = cmd_map cmd).
  { unfold cmd_keys in Hc. apply list_elem_of_In in Hc. simpl in Hc.
    destruct Hc as [<-|[<-|[<-|[<-|[]]]]];
      [exists START | exists PAUSE_PLAY | exists CONFIRM | exists STOP]; reflexivity. }
  destruct Hmode as (mode & ->). destruct Hcmd as (cmd & ->).
  exists mode, cmd. repeat split. apply bool_target_cmd.
Qed.

(** ** Static validation *)

Lemma dyadic_lt (a b e : Z) : a < b -> (dyadic a e < dyadic b e)%Q.
Proof.
  intros H. unfold dyadic. apply Qmult_lt_compat_r; [apply Qpower_2_pos|].
  rewrite <- Zlt_Qlt. exact H.
Qed.

Lemma dyadic_compare (a b e : Z) : (dyadic a e ?= dyadic b e)%Q = (a ?= b).
Proof.
  destruct (Z.compare_spec a b) as [->|H|H].
  - apply Qeq_alt. reflexivity.
  - apply Qlt_alt, dyadic_lt, H.
  - apply Qgt_alt, dyadic_lt, H.
Qed.

(** The mantissa and exponent of a canonical binary64 number. *)
Lemma bounded_canonical (m : positive) (e : Z) :
  bounded PyFloat.prec PyFloat.emax m e = true ->
  Z.pos m < 2 ^ 53 /\ -1074 <= e /\ (-1074 < e -> 2 ^ 52 <= Z.pos m).
Proof.
  unfold bounded, canonical_mantissa, fexp, emin, PyFloat.prec, PyFloat.emax.
  intros H. apply andb_prop in H as [H _]. apply Z.eqb_eq in H.
  pose proof (digits2_pos_bounds m) as [Hlo Hhi].
  set (d := Z.pos (digits2_pos m)) in *.
  assert (Hd : 0 < d) by (unfold d; lia).
  destruct (Z.max_spec (d + e - 53) (3 - 1024 - 53)) as [[Hlt Hmax]|[Hge Hmax]];
    rewrite Hmax in H.
  - split; [|lia].
    apply Z.lt_le_trans with (1 := Hhi). apply Z.pow_le_mono_r; lia.
  - assert (d = 53) as Hd53 by lia. rewrite Hd53 in *.
    change (53 - 1) with 52 in Hlo. split; [exact Hhi|]. split; [lia|]. intros _. exact Hlo.
Qed.

Lemma dyadic_exp_lt (m1 m2 : positive) (e1 e2 : Z) :
  bounded PyFloat.prec PyFloat.emax m1 e1 = true ->
  bounded PyFloat.prec PyFloat.emax m2 e2 = true ->
  e1 < e2 -> (dyadic (Z.pos m1) e1 < dyadic (Z.pos m2) e2)%Q.
Proof.
  intros H1 H2 He.
  destruct (bounded_canonical m1 e1 H1) as (Hm1 & He1 & _).
  destruct (bounded_canonical m2 e2 H2) as (_ & _ & Hm2).
  specialize (Hm2 ltac:(lia)).
  assert (Hs : (dyadic (Z.pos m2 * 2 ^ (e2 - e1)) e1 == dyadic (Z.pos m2) e2)%Q).
  { rewrite dyadic_shift by lia. replace (e1 + (e2 - e1)) with e2 by lia. reflexivity. }
  rewrite <- Hs. apply dyadic_lt.
  assert (Hp : 2 ^ 1 <= 2 ^ (e2 - e1)) by (apply Z.pow_le_mono_r; lia).
  change (2 ^ 1) with 2 in Hp. change (2 ^ 53) with (2 ^ 52 * 2) in Hm1.
  apply Z.lt_le_trans with (1 := Hm1).
  apply Z.mul_le_mono_nonneg; lia.
Qed.

Lemma pos_compare_Q (m1 m2 : positive) (e1 e2 : Z) :
  bounded PyFloat.prec PyFloat.emax m1 e1 = true ->
  bounded PyFloat.prec PyFloat.emax m2 e2 = true ->
  (dyadic (Z.pos m1) e1 ?= dyadic (Z.pos m2) e2)%Q
  = match e1 ?= e2 with
    | Eq => Pos.compare_cont Eq m1 m2
    | Lt => Lt
    | Gt => Gt
    end.
Proof.
  intros H1 H2. destruct (Z.compare_spec e1 e2) as [->|He|He].
  - rewrite dyadic_compare. reflexivity.
  - apply Qlt_alt, dyadic_exp_lt; assumption.
  - apply Qgt_alt, dyadic_exp_lt; assumption.
Qed.

Lemma Qcompare_opp (x y : Q) : (- x ?= - y)%Q = CompOpp (x ?= y)%Q.
Proof.
  rewrite Qcompare_antisym. unfold Qcompare. cbn [Qnum Qden Qopp].
  rewrite !Z.mul_opp_l. apply Z.compare_opp.
Qed.

Lemma zero_compare_dyadic (z e : Z) : (0 ?= dyadic z e)%Q = (0 ?= z).
Proof.
  rewrite <- (dyadic_compare 0 z e).
  apply Qcompare_comp; [symmetry; apply dyadic_0 | reflexivity].
Qed.

Lemma dyadic_compare_zero (z e : Z) : (dyadic z e ?= 0)%Q = (z ?= 0).
Proof.
  rewrite <- (dyadic_compare z 0 e).
  apply Qcompare_comp; [reflexivity | symmetry; apply dyadic_0].
Qed.

(** On finite floats [SFcompare] is the order of the numbers they stand
    for. *)
Lemma SFcompare_Q (x y : spec_float) :
  valid_double x -> valid_double y ->
  PyFloat.is_finite x = true -> PyFloat.is_finite y = true ->
  SFcompare x y = Some (PyFloat.to_Q x ?= PyFloat.to_Q y)%Q.
Proof.
  destruct x as [sx|sx| |sx mx ex], y as [sy|sy| |sy my ey]; try discriminate;
    cbn [valid_double PyFloat.is_finite SFcompare]; intros Hx Hy _ _.
  - reflexivity.
  - rewrite to_Q_finite. cbn [PyFloat.to_Q]. rewrite zero_compare_dyadic.
    destruct sy; reflexivity.
  - rewrite to_Q_finite. cbn [PyFloat.to_Q]. rewrite dyadic_compare_zero.
    destruct sx; reflexivity.
  - rewrite !to_Q_finite. destruct sx, sy; cbn [cond_Zopp].
    + assert (E : (dyadic (- Z.pos mx) ex ?= dyadic (- Z.pos my) ey)%Q
                  = CompOpp (dyadic (Z.pos mx) ex ?= dyadic (Z.pos my) ey)%Q).
      { rewrite <- Qcompare_opp.
        apply Qcompare_comp; apply dyadic_opp. }
      change (Z.neg mx) with (- Z.pos mx). change (Z.neg my) with (- Z.pos my).
      rewrite E, (pos_compare_Q mx my ex ey Hx Hy).
      destruct (ex ?= ey); reflexivity.
    + f_equal. symmetry. apply Qlt_alt.
      apply Qlt_trans with 0%Q.
      * apply Qlt_alt. rewrite dyadic_compare_zero. reflexivity.
      * apply Qlt_alt. rewrite zero_compare_dyadic. reflexivity.
    + f_equal. symmetry. apply Qgt_alt.
      apply Qlt_trans with 0%Q.
      * apply Qlt_alt. rewrite dyadic_compare_zero. reflexivity.
      * apply Qlt_alt. rewrite zero_compare_dyadic. reflexivity.
    + rewrite (pos_compare_Q mx my ex ey Hx Hy). reflexivity.
Qed.

Lemma SFleb_Q (x y : spec_float) :
  valid_double x -> valid_double y ->
  PyFloat.is_finite x = true -> PyFloat.is_finite y = true ->
  SFleb x y = true <-> (PyFloat.to_Q x <= PyFloat.to_Q y)%Q.
Proof.
  intros Hx Hy Fx Fy. unfold SFleb. rewrite (SFcompare_Q x y Hx Hy Fx Fy).
  rewrite Qle_alt. destruct (_ ?= _)%Q; split; congruence.
Qed.

(** [lo <= x <= hi] for two float literals that stand for [qlo] and [qhi]. *)
Lemma range_check_Q (lo hi x : spec_float) (qlo qhi : Q) :
  valid_double lo -> valid_double hi -> valid_double x ->
  PyFloat.is_finite lo = true -> PyFloat.is_finite hi = true ->
  (PyFloat.to_Q lo == qlo)%Q -> (PyFloat.to_Q hi == qhi)%Q ->
  SFleb lo x && SFleb x hi = true <-> in_range qlo qhi x.
Proof.
  intros Hlo Hhi Hx Flo Fhi Qlo Qhi. unfold in_range.
  destruct (PyFloat.is_finite x) eqn:Fx.
  - rewrite andb_true_iff, (SFleb_Q lo x), (SFleb_Q x hi), Qlo, Qhi by assumption.
    tauto.
  - split; [|intros [? _]; discriminate].
    destruct x as [| [|] | |]; try discriminate Fx;
      destruct lo as [| | |slo mlo elo], hi as [| | |[|] mhi ehi];
      try discriminate Flo; try discriminate Fhi; cbn;
      try discriminate; rewrite ?andb_false_r; try discriminate;
      destruct slo; cbn; discriminate.
Qed.

Lemma le_zero_check_Q (x : spec_float) :
  valid_double x -> SFleb x (PyFloat.of_Z 0) = false <-> above_zero x.
Proof.
  intros Hx. destruct x as [s|s| |s m e]; cbn [above_zero].
  - cbn. split; [discriminate|]. intros H. apply Qlt_irrefl in H. destruct H.
  - destruct s; cbn; split; congruence.
  - cbn. tauto.
  - assert (H : SFleb (S754_finite s m e) (PyFloat.of_Z 0) = true
                <-> (PyFloat.to_Q (S754_finite s m e) <= 0)%Q).
    { exact (SFleb_Q (S754_finite s m e) (PyFloat.of_Z 0) Hx I eq_refl eq_refl). }
    destruct (SFleb (S754_finite s m e) (PyFloat.of_Z 0)).
    + split; [discriminate|]. intros Hpos. exfalso.
      apply (Qlt_not_le _ _ Hpos). apply H. reflexivity.
    + split; [|reflexivity]. intros _. apply Qnot_le_lt. intros Hle.
      apply H in Hle. discriminate.
Qed.

Ltac message_in :=
  repeat first
    [ apply list_elem_of_here
    | apply list_elem_of_further ].

Ltac message_out H :=
  repeat (apply elem_of_cons in H as [H|H]; [discriminate H|]); inversion H.

(** X20.  [static_validate] on a payload of Python floats reports exactly
    the failed checks.  The TFR message is there unless the flow rate is a
    number between the double 0.8 and 15; the FRR message unless the ratio
    is positive; the temperature message unless the temperature is a number
    between 5 and 60; the volume message unless the target volume is not
    [<= 0], which a positive number is, and so are plus infinity and a NaN.
    The payload is valid exactly when there is no message; no other field
    is looked at. *)
Theorem static_validate_reports (payload : InputPayload) :
  valid_double (tfr payload) ->
  valid_double (temperature payload) ->
  valid_double (target_volume payload) ->
  let messages := snd (static_validate payload) in
  (TFR_out_of_range ∈ messages
   <-> ~ in_range (3602879701896397 # 4503599627370496) 15 (tfr payload))
  /\ (FRR_not_positive ∈ messages <-> frr payload <= 0)
  /\ (Temperature_out_of_range ∈ messages <-> ~ in_range 5 60 (temperature payload))
  /\ (Target_volume_not_positive ∈ messages <-> ~ above_zero (target_volume payload))
  /\ (fst (static_validate payload) = true <-> messages = []).
Proof.
  intros Htfr Htemp Hvol.
  assert (H1 : SFleb (PyFloat.dec 8 1) (tfr payload)
               && SFleb (tfr payload) (PyFloat.of_Z 15) = true
               <-> in_range (3602879701896397 # 4503599627370496) 15 (tfr payload)).
  { apply range_check_Q; try assumption; try reflexivity. }
  assert (H2 : (frr payload <=? 0) = true <-> frr payload <= 0) by apply Z.leb_le.
  assert (H3 : SFleb (PyFloat.of_Z 5) (temperature payload)
               && SFleb (temperature payload) (PyFloat.of_Z 60) = true
               <-> in_range 5 60 (temperature payload)).
  { apply range_check_Q; try assumption; try reflexivity. }
  pose proof (le_zero_check_Q (target_volume payload) Hvol) as H4.
  unfold static_validate.
  destruct (SFleb (PyFloat.dec 8 1) (tfr payload) && SFleb (tfr payload) (PyFloat.of_Z 15)),
    (frr payload <=? 0),
    (SFleb (PyFloat.of_Z 5) (temperature payload)
     && SFleb (temperature payload) (PyFloat.of_Z 60)),
    (SFleb (target_volume payload) (PyFloat.of_Z 0));
    cbn [negb app fst snd]; rewrite <- H1, <- H2, <- H3, <- H4.
  all: repeat split; try discriminate; try reflexivity; try congruence.
  all: try (intros _; solve [message_in]).
  all: try (intros Hin; solve [message_out Hin]).
  all: try (intros Hin; exfalso; apply Hin; reflexivity).
  all: try (intros Hin Hn; discriminate Hn).
Qed.

Lemma static_validate_reports_witness :
  valid_double (tfr sample_payload)
  /\ valid_double (temperature sample_payload)
  /\ valid_double (target_volume sample_payload)
  /\ static_validate sample_payload = (true, [])
  /\ let messages := snd (static_validate sample_payload) in
     (TFR_out_of_range ∈ messages
      <-> ~ in_range (3602879701896397 # 4503599627370496) 15 (tfr sample_payload))
     /\ (FRR_not_positive ∈ messages <-> frr sample_payload <= 0)
     /\ (Temperature_out_of_range ∈ messages
         <-> ~ in_range 5 60 (temperature sample_payload))
     /\ (Target_volume_not_positive ∈ messages
         <-> ~ above_zero (target_volume sample_payload))
     /\ (fst (static_validate sample_payload) = true <-> messages = []).
Proof.
  split; [reflexivity|]. split; [reflexivity|]. split; [reflexivity|].
  split; [vm_compute; reflexivity|].
  exact (static_validate_reports sample_payload eq_refl eq_refl eq_refl).
Defined.

(** ** Verification and NaN *)

(** X21.  The verification of a [REAL] cannot see a NaN.  On every client,
    when the value queued is a NaN or the tag reads back as a NaN, the
    verification of the write reports no mismatch; and a tag that reads
    back as a NaN counts as rolled back to [0.0].  The comparisons
    [abs(actual - value) > 1e-6] and [abs(actual) > 1e-6] are false with a
    NaN. *)
Theorem real_verification_blind_to_nan {D} (tag : string) (value actual : spec_float)
    (c c' : client D) :
  _read_real tag c = (Ok actual, c') ->
  value = S754_nan \/ actual = S754_nan ->
  verify_write (W_REAL tag value) c = (Ok [], c')
  /\ (actual = S754_nan -> reads_neutral (W_REAL tag value) c).
Proof.
  intros Hr Hnan. split.
  - cbn [verify_write]. rewrite bind_eq, Hr, ret_eq.
    assert (Hs : PyFloat.sub actual value = S754_nan).
    { destruct Hnan as [->| ->]; [destruct actual | destruct value]; reflexivity. }
    rewrite Hs. reflexivity.
  - intros ->. cbn [reads_neutral]. exists S754_nan. rewrite Hr. split; reflexivity.
Qed.

Lemma real_verification_blind_to_nan_witness :
  let c := Sim (D := no_device)
             (_SimClient.set_db (_SimClient.init false)
                (replicate 204 0 ++ [127; 192; 0; 0])) in
  let c' := snd (_read_real "r_TFR" c) in
  _read_real "r_TFR" c = (Ok S754_nan, c')
  /\ verify_write (W_REAL "r_TFR" (PyFloat.of_Z 1)) c = (Ok [], c')
  /\ (S754_nan = S754_nan -> reads_neutral (W_REAL "r_TFR" (PyFloat.of_Z 1)) c).
Proof.
  intros c c'.
  assert (H : _read_real "r_TFR" c = (Ok S754_nan, c')) by (vm_compute; reflexivity).
  split; [exact H|].
  exact (real_verification_blind_to_nan "r_TFR" (PyFloat.of_Z 1) S754_nan c c' H
           (or_intror eq_refl)).
Defined.

(** ** Clearing the command bits on any link *)

Lemma for_each_concat {S A B} (xs : list A) (f : A -> list B) (body : B -> M S unit)
    (s : S) :
  for_each xs (fun x => for_each (f x) body) s = for_each (xs ≫= f) body s.
Proof.
  revert s. induction xs as [|x xs IH]; intros s; [reflexivity|].
  rewrite for_each_cons. change ((x :: xs) ≫= f) with (f x ++ (xs ≫= f)).
  rewrite for_each_app.
  destruct (for_each (f x) body s) as [[[]|e] s1]; [apply IH | reflexivity].
Qed.

Lemma for_each_fmap {S A B} (g : A -> B) (xs : list A) (body : B -> M S unit) (s : S) :
  for_each xs (fun x => body (g x)) s = for_each (g <$> xs) body s.
Proof.
  revert s. induction xs as [|x xs IH]; intros s; [reflexivity|].
  cbn [fmap list_fmap]. rewrite !for_each_cons.
  destruct (body (g x) s) as [[[]|e] s1]; [apply IH | reflexivity].
Qed.

Section ClearAllOnAnyLink.
Context {D : Device} (dpeek : dev D -> nat -> Z).

(** One iteration of [clear_all_cmd_bits]. *)
Let clear_step (tag : string) : M (client D) unit :=
  _write_bool tag false;;
  actual ← _read_bool tag;
  if actual : bool then raise (ValueError_failed_to_clear tag) else mret tt.

Lemma clear_step_effect (tag : string) (c : client D) :
  good_client dpeek c -> declared BOOL tag ->
  exists r c', clear_step tag c = (r, c')
               /\ same_kind c c'
               /\ cleared (W_BOOL tag false) (cmem dpeek c) (cmem dpeek c')
               /\ (r = Ok tt -> neutral_mem (W_BOOL tag false) (cmem dpeek c')).
Proof.
  intros Hg Hd.
  destruct (neutralise_effect dpeek (W_BOOL tag false) c Hg Hd)
    as (r0 & c0 & E & Hk & Hcl & Hn).
  cbn [neutralise] in E. rewrite bind_eq in E.
  unfold clear_step. rewrite bind_eq.
  destruct (_write_bool tag false c) as [[[]|e] c1].
  - rewrite bind_eq. rewrite E.
    destruct r0 as [[|]|e]; eexists _, c0; (split; [reflexivity|]);
      repeat split; try assumption; try discriminate.
    intros _. apply Hn. reflexivity.
  - injection E as <- <-. eexists _, c1. split; [reflexivity|].
    repeat split; try assumption. discriminate.
Qed.

Lemma clear_steps_preserve (tag0 : string) (tags : list string) :
  declared BOOL tag0 -> Forall (declared BOOL) tags ->
  forall c r c',
    good_client dpeek c ->
    for_each tags clear_step c = (r, c') ->
    neutral_mem (W_BOOL tag0 false) (cmem dpeek c) ->
    good_client dpeek c' /\ neutral_mem (W_BOOL tag0 false) (cmem dpeek c').
Proof.
  intros H0 Htags. induction Htags as [|tag tags Ht Htags IH]; intros c r c' Hg.
  - rewrite for_each_nil. intros [= _ <-] Hn. auto.
  - rewrite for_each_cons.
    destruct (clear_step_effect tag c Hg Ht) as (r1 & c1 & E & Hk & Hcl & _).
    rewrite E. intros Hrest Hn.
    pose proof (good_client_same_kind dpeek c c1 Hk Hg) as Hg1.
    pose proof (bool_bool_preserved tag0 tag false false _ _ H0 Ht Hcl Hn) as Hn1.
    destruct r1 as [[]|e].
    + exact (IH c1 r c' Hg1 Hrest Hn1).
    + injection Hrest as _ <-. auto.
Qed.

Lemma clear_steps_clear (tags : list string) :
  Forall (declared BOOL) tags ->
  forall c c',
    good_client dpeek c ->
    for_each tags clear_step c = (Ok tt, c') ->
    good_client dpeek c'
    /\ forall tag, tag ∈ tags -> neutral_mem (W_BOOL tag false) (cmem dpeek c').
Proof.
  intros Htags. induction Htags as [|tag tags Ht Htags IH]; intros c c' Hg.
  - rewrite for_each_nil. intros [= <-]. split; [exact Hg|].
    intros tag Hin. inversion Hin.
  - rewrite for_each_cons.
    destruct (clear_step_effect tag c Hg Ht) as (r1 & c1 & E & Hk & Hcl & Hn).
    rewrite E. destruct r1 as [[]|e]; [|discriminate]. intros Hrest.
    pose proof (good_client_same_kind dpeek c c1 Hk Hg) as Hg1.
    destruct (IH c1 c' Hg1 Hrest) as [Hg' Hall]. split; [exact Hg'|].
    intros tag' Hin. apply elem_of_cons in Hin as [->|Hin]; [|exact (Hall tag' Hin)].
    exact (proj2 (clear_steps_preserve tag tags Ht Htags c1 (Ok tt) c' Hg1 Hrest
                    (Hn eq_refl))).
Qed.

(** X22.  On the simulator, or on a driver whose device behaves as a memory
    that can lose writes: when [clear_all_cmd_bits] returns, the twelve
    command bits read false.  Every clear of this function is read back,
    and the later clears cannot set a bit again. *)
Theorem clear_all_cmd_bits_verified (c c' : client D) :
  good_client dpeek c ->
  clear_all_cmd_bits c = (Ok tt, c') ->
  forall mode cmd, cmd_bit mode cmd c' = Ok false.
Proof.
  intros Hg.
  assert (E : clear_all_cmd_bits c
              = for_each (mode_keys ≫= fun mode_key => cmd_tag mode_key <$> cmd_keys)
                  clear_step c).
  { change (clear_all_cmd_bits c)
      with (for_each mode_keys
              (fun mode_key =>
                 for_each cmd_keys
                   (fun cmd_key =>
                      let tag := cmd_tag mode_key cmd_key in
                      _write_bool tag false;;
                      actual ← _read_bool tag;
                      if actual : bool then raise (ValueError_failed_to_clear tag)
                      else mret tt)) c).
    rewrite <- for_each_concat. revert c Hg. generalize mode_keys.
    induction l as [|mk l IH]; intros c Hg; [reflexivity|].
    rewrite !for_each_cons.
    rewrite <- (for_each_fmap (cmd_tag mk) cmd_keys clear_step c).
    change (fun x : string => clear_step (cmd_tag mk x))
      with (fun cmd_key : string =>
              let tag := cmd_tag mk cmd_key in
              _write_bool (D := D) tag false;;
              actual ← _read_bool tag;
              if actual : bool then raise (ValueError_failed_to_clear tag) else mret tt).
    match goal with
    | |- match ?x with _ => _ end = _ => destruct x as [[[]|e] c1] eqn:Ec
    end; [|reflexivity].
    apply IH.
    pose proof (keeps_kind_for_each (D := D) cmd_keys
                  (fun cmd_key : string =>
                     let tag := cmd_tag mk cmd_key in
                     _write_bool (D := D) tag false;;
                     actual ← _read_bool tag;
                     if actual : bool then raise (ValueError_failed_to_clear tag)
                     else mret tt)) as Hk.
    specialize (Hk ltac:(intros x; cbv zeta; apply keeps_kind_bind;
                         [apply keeps_kind_write_bool|];
                         intros _; apply keeps_kind_bind; [apply keeps_kind_read_bool|];
                         intros [|]; [apply keeps_kind_raise | apply keeps_kind_ret]) c).
    rewrite Ec in Hk. exact (good_client_same_kind dpeek _ _ Hk Hg). }
  rewrite E. clear E. intros Hc mode cmd.
  assert (Htags : Forall (declared BOOL)
                    (mode_keys ≫= fun mode_key => cmd_tag mode_key <$> cmd_keys)).
  { apply Forall_forall. intros tag Hin. apply list_elem_of_In in Hin.
    vm_compute in Hin.
    repeat (destruct Hin as [<-|Hin]; [vm_compute; reflexivity|]). destruct Hin. }
  destruct (clear_steps_clear _ Htags c c' Hg Hc) as [Hg' Hall].
  specialize (Hall (cmd_tag (mode_map mode) (cmd_map cmd))).
  cbn [neutral_mem] in Hall. rewrite bool_target_cmd in Hall.
  pose proof (cmd_bit_offset_range cmd) as Hr.
  unfold cmd_bit.
  destruct (client_read_bool dpeek c' _ _ _ Hg' (bool_target_cmd mode cmd) ltac:(lia))
    as (c2 & -> & _).
  cbn [fst]. rewrite Hall; [reflexivity|].
  apply list_elem_of_In. destruct mode, cmd; vm_compute; tauto.
Qed.
End ClearAllOnAnyLink.

Lemma clear_all_cmd_bits_verified_witness :
  let c := Snap7 (D := HeldPLC.device) (HeldPLC.holding 208 5) in
  let c' := snd (clear_all_cmd_bits c) in
  good_client (D := HeldPLC.device) HeldPLC.mem c
  /\ clear_all_cmd_bits c = (Ok tt, c')
  /\ forall mode cmd, cmd_bit mode cmd c' = Ok false.
Proof.
  intros c c'.
  assert (Hg : good_client (D := HeldPLC.device) HeldPLC.mem c)
    by exact held_plc_memory_like.
  assert (Hr : fst (clear_all_cmd_bits c) = Ok tt) by (vm_compute; reflexivity).
  assert (H : clear_all_cmd_bits c = (Ok tt, c')).
  { unfold c'. destruct (clear_all_cmd_bits c) as [r c2].
    cbn [fst snd] in Hr |- *. rewrite Hr. reflexivity. }
  split; [exact Hg|]. split; [exact H|].
  exact (clear_all_cmd_bits_verified (D := HeldPLC.device) HeldPLC.mem c c' Hg H).
Defined.
